(** * A notes server: one request handler over a JSON file

    The program is a single Node.js module: [readNotes] and [writeNotes]
    load and store the whole collection as one JSON file, four template
    functions build the HTML pages, and the callback given to
    [http.createServer] matches the method and the path of a request
    against a fixed list of routes.

    The embedding follows the module function by function.

    - A JavaScript value that can come out of [JSON.parse] is a [value]:
      [null], a boolean, a number, a string, an array or an object.  An
      object is a finite map from property names to values; the order in
      which its properties are enumerated, and so the order of the members
      in a printed object, is not part of the model: no statement below
      compares the texts of two objects whose members may have been
      inserted in different orders.  [undefined] only occurs as the result
      of reading a property and is the [None] of an [option].
    - Numbers are the integers of magnitude below 2^53, which a double
      holds exactly; they cover the millisecond timestamps the program
      uses as ids.  A number literal with a fraction or an exponent is
      read when it denotes such an integer.  A literal too large for a
      double, [1e999] say, is read as [Infinity], the value [VInf], which
      [JSON.stringify] prints as [null].  Text is a sequence of bytes, the
      UTF-8 encoding of the JavaScript string.
    - [JSON.stringify] and [JSON.parse] are the two functions of module
      [Json], written after the ECMAScript algorithms; the file holds text
      and every read parses it again.  The parser has four outcomes: a
      value whose numbers are all such integers ([Parsed]), a value read
      with an [Infinity] ([Overflowed]), the [SyntaxError] of the built-in,
      or [Beyond] for a text that is outside the model (a number that is
      neither, a lone surrogate escape, a run out of fuel).  A computation
      that meets [Beyond] ends in [Throw Unmodelled], which stands for no
      behaviour of the program.
    - Code that throws returns a [result]; code that also reads or writes
      the file runs in the monad [M] over the state of the disk.  The
      [async] functions run to completion one at a time, so a request is
      one computation in [M], and what is thrown inside the callback of
      [req.on('end', ...)] is the [Throw] of that computation.  A write to
      a file that can be read, or that does not exist yet, is taken to
      succeed and to replace the whole content: the model has no write
      that fails or stops half way.
    - [querystring.parse] and [Date.now()] belong to the platform: the
      handler takes the first as a section variable and the second as the
      argument [now]. *)

From Stdlib Require Import ZArith String Ascii.
From Stdlib Require Import DecimalString DecimalN DecimalZ DecimalPos DecimalFacts.
From stdpp Require Import gmap strings list list_monad fin_maps.

Open Scope string_scope.
Open Scope list_scope.
#[local] Arguments String.append !s1 s2 : simpl nomatch.

(** * JSON text *)

Module Json.

(** The double quote, the backslash and the line feed. *)
Definition dq : ascii := "034"%char.
Definition bs : ascii := "092"%char.
Definition lf : ascii := "010"%char.

Unset Elimination Schemes.
#[warnings="-register-all"]
Inductive value : Type :=
  | VNull
  | VBool (b : bool)
  | VNum (n : Z)
  | VStr (s : string)
  | VArr (l : list value)
  | VObj (o : gmap string value)
  | VInf (neg : bool).
Set Elimination Schemes.

(** [VInf] is [Infinity], or [-Infinity] when [neg]: what [JSON.parse]
    returns for a number literal too large for a double.

    The integers that a double holds exactly and that no other integer
    rounds to: those of magnitude below 2^53. *)
Definition safe_int (n : Z) : bool := (Z.abs n <? 2 ^ 53)%Z.

(** The values that survive being written and read again: every number
    in them is such an integer. *)
#[warnings="-register-all"]
Inductive Safe : value → Prop :=
  | Safe_null : Safe VNull
  | Safe_bool b : Safe (VBool b)
  | Safe_num n : safe_int n = true → Safe (VNum n)
  | Safe_str s : Safe (VStr s)
  | Safe_arr l : Forall Safe l → Safe (VArr l)
  | Safe_obj (o : gmap string value) : map_Forall (λ _, Safe) o → Safe (VObj o).


(** ** [JSON.stringify(value, null, gap)] *)

Definition hex_digit (n : N) : ascii :=
  ascii_of_N (if (n <? 10)%N then 48 + n else 87 + n).

Definition escape_char (c : ascii) : string :=
  let n := N_of_ascii c in
  if Ascii.eqb c dq then String bs (String dq EmptyString)
  else if Ascii.eqb c bs then String bs (String bs EmptyString)
  else if (n =? 8)%N then "\b"
  else if (n =? 12)%N then "\f"
  else if (n =? 10)%N then "\n"
  else if (n =? 13)%N then "\r"
  else if (n =? 9)%N then "\t"
  else if (n <? 32)%N then
    "\u00" +:+ String (hex_digit (n / 16)) (String (hex_digit (n mod 16)) EmptyString)
  else String c EmptyString.

Fixpoint escape (s : string) : string :=
  match s with
  | EmptyString => EmptyString
  | String c t => escape_char c +:+ escape t
  end.

Definition QuoteJSONString (s : string) : string :=
  String dq (escape s +:+ String dq EmptyString).

Definition Number_toString (n : Z) : string :=
  NilZero.string_of_int (Z.to_int n).

Fixpoint spaces (n : nat) : string :=
  match n with O => EmptyString | S k => String " " (spaces k) end.

Definition newline (n : nat) : string := String lf (spaces n).

Fixpoint join (sep : string) (l : list string) : string :=
  match l with
  | [] => EmptyString
  | x :: l' =>
      match l' with
      | [] => x
      | _ :: _ => x +:+ sep +:+ join sep l'
      end
  end.

Definition pad (gap n : nat) : string :=
  match gap with O => EmptyString | S _ => newline n end.

Definition brackets (op cl : string) (gap indent : nat) (partial : list string) : string :=
  match partial with
  | [] => op +:+ cl
  | _ :: _ =>
      op +:+ pad gap (indent + gap)
         +:+ join ("," +:+ pad gap (indent + gap)) partial
         +:+ pad gap indent +:+ cl
  end.

Definition member (gap : nat) (kp : string * string) : string :=
  QuoteJSONString kp.1 +:+ (match gap with O => ":" | S _ => ": " end) +:+ kp.2.

Fixpoint SerializeJSONProperty (gap indent : nat) (v : value) : string :=
  match v with
  | VNull => "null"
  | VBool true => "true"
  | VBool false => "false"
  | VNum n => Number_toString n
  | VStr s => QuoteJSONString s
  | VArr l =>
      brackets "[" "]" gap indent (map (SerializeJSONProperty gap (indent + gap)) l)
  | VObj o =>
      brackets "{" "}" gap indent
        (map (member gap) (map_to_list (SerializeJSONProperty gap (indent + gap) <$> o)))
  | VInf _ => "null"
  end.

Definition JSON_stringify (gap : nat) (v : value) : string :=
  SerializeJSONProperty gap 0 v.

(** An upper bound on the fuel the parser needs to read a value back. *)
Fixpoint need (v : value) : nat :=
  match v with
  | VArr l => S (sum_list_with S (map need l))
  | VObj o => S (sum_list_with (λ kn : string * nat, S kn.2) (map_to_list (need <$> o)))
  | _ => 1
  end.

(** ** [JSON.parse(text)] *)

(** The outcome of parsing: [Parsed], a result all of whose numbers are
    integers below 2^53 in magnitude; [Overflowed], a result in which a
    number literal was too large for a double and reads as an infinity;
    [Invalid], where [JSON.parse] throws a [SyntaxError]; or [Beyond], where
    the text leaves the model (a number with a fraction, or an integer of
    2^53 or more that a double still holds, a lone surrogate in a string,
    or no fuel left) and nothing is said about it. *)
Inductive parsed (A : Type) : Type :=
  | Parsed (a : A)
  | Overflowed (a : A)
  | Invalid
  | Beyond.
Arguments Parsed {A} a.
Arguments Overflowed {A} a.
Arguments Invalid {A}.
Arguments Beyond {A}.

#[global] Instance parsed_bind : MBind parsed := λ A B k p,
  match p with
  | Parsed a => k a
  | Overflowed a =>
      match k a with
      | Parsed b | Overflowed b => Overflowed b
      | Invalid => Invalid
      | Beyond => Beyond
      end
  | Invalid => Invalid
  | Beyond => Beyond
  end.

(** The parser returns [a], with or without a number that overflowed. *)
Definition produces {A} (m : parsed A) (a : A) : Prop :=
  m = Parsed a ∨ m = Overflowed a.

Definition syntax {A} (o : option A) : parsed A :=
  match o with
  | Some a => Parsed a
  | None => Invalid
  end.

Definition is_ws (c : ascii) : bool :=
  let n := N_of_ascii c in
  (n =? 32)%N || (n =? 9)%N || (n =? 10)%N || (n =? 13)%N.

Fixpoint skip_ws (s : string) : string :=
  match s with
  | String c t => if is_ws c then skip_ws t else s
  | EmptyString => EmptyString
  end.

Definition is_digit (c : ascii) : bool :=
  let n := N_of_ascii c in (48 <=? n)%N && (n <=? 57)%N.

Fixpoint span_digits (s : string) : string * string :=
  match s with
  | String c t =>
      if is_digit c then let '(d, r) := span_digits t in (String c d, r)
      else (EmptyString, s)
  | EmptyString => (EmptyString, EmptyString)
  end.

Definition digits_value (ds : string) : Z :=
  match NilEmpty.uint_of_string ds with
  | Some u => Z.of_N (N.of_uint u)
  | None => 0%Z
  end.

Definition hexval (c : ascii) : option N :=
  let n := N_of_ascii c in
  if (48 <=? n)%N && (n <=? 57)%N then Some (n - 48)%N
  else if (97 <=? n)%N && (n <=? 102)%N then Some (n - 87)%N
  else if (65 <=? n)%N && (n <=? 70)%N then Some (n - 55)%N
  else None.

Definition hex4 (a b c d : ascii) : option N :=
  x ← hexval a; y ← hexval b; z ← hexval c; w ← hexval d;
  Some (((x * 16 + y) * 16 + z) * 16 + w)%N.

Definition byte (n : N) : string := String (ascii_of_N n) EmptyString.

Definition utf8 (cp : N) : string :=
  if (cp <? 128)%N then byte cp
  else if (cp <? 2048)%N then byte (192 + cp / 64) +:+ byte (128 + cp mod 64)
  else if (cp <? 65536)%N then
    byte (224 + cp / 4096) +:+ byte (128 + (cp / 64) mod 64) +:+ byte (128 + cp mod 64)
  else
    byte (240 + cp / 262144) +:+ byte (128 + (cp / 4096) mod 64)
      +:+ byte (128 + (cp / 64) mod 64) +:+ byte (128 + cp mod 64).

Definition is_high (u : N) : bool := (55296 <=? u)%N && (u <? 56320)%N.
Definition is_low (u : N) : bool := (56320 <=? u)%N && (u <? 57344)%N.
Definition astral (h l : N) : N := (65536 + (h - 55296) * 1024 + (l - 56320))%N.

Definition simple_escape (e : ascii) : option ascii :=
  if Ascii.eqb e dq then Some dq
  else if Ascii.eqb e bs then Some bs
  else if Ascii.eqb e "/" then Some "/"%char
  else if Ascii.eqb e "b" then Some "008"%char
  else if Ascii.eqb e "f" then Some "012"%char
  else if Ascii.eqb e "n" then Some "010"%char
  else if Ascii.eqb e "r" then Some "013"%char
  else if Ascii.eqb e "t" then Some "009"%char
  else None.

(** The characters of a string up to its closing quote, escapes decoded.
    [hi] is a high surrogate that a [\u] escape has just produced and that
    waits for its low surrogate. *)
Fixpoint parse_chars (hi : option N) (s : string) : parsed (string * string) :=
  match s with
  | EmptyString => Invalid
  | String c t =>
      if Ascii.eqb c dq then
        match hi with None => Parsed (EmptyString, t) | Some _ => Beyond end
      else if Ascii.eqb c bs then
        match t with
        | EmptyString => Invalid
        | String e t1 =>
            if Ascii.eqb e "u" then
              match t1 with
              | String a (String b (String x (String y t2))) =>
                  u ← syntax (hex4 a b x y);
                  match hi with
                  | Some h =>
                      if is_low u then
                        '(r, rest) ← parse_chars None t2;
                        Parsed (utf8 (astral h u) +:+ r, rest)
                      else Beyond
                  | None =>
                      if is_high u then parse_chars (Some u) t2
                      else if is_low u then Beyond
                      else '(r, rest) ← parse_chars None t2; Parsed (utf8 u +:+ r, rest)
                  end
              | _ => Invalid
              end
            else
              ch ← syntax (simple_escape e);
              match hi with
              | Some _ => Beyond
              | None => '(r, rest) ← parse_chars None t1; Parsed (String ch r, rest)
              end
        end
      else if (N_of_ascii c <? 32)%N then Invalid
      else
        match hi with
        | Some _ => Beyond
        | None => '(r, rest) ← parse_chars None t; Parsed (String c r, rest)
        end
  end.

Definition parse_string (s : string) : parsed (string * string) :=
  match s with
  | String c t => if Ascii.eqb c dq then parse_chars None t else Invalid
  | EmptyString => Invalid
  end.

Definition leading_zero (ds : string) : bool :=
  match ds with
  | String c (String _ _) => Ascii.eqb c "0"
  | _ => false
  end.

Definition nonempty (s : string) : bool :=
  match s with EmptyString => false | String _ _ => true end.

Definition parse_fraction (s : string) : option (string * string) :=
  match s with
  | String c t =>
      if Ascii.eqb c "." then
        let '(fp, r) := span_digits t in
        if nonempty fp then Some (fp, r) else None
      else Some (EmptyString, s)
  | EmptyString => Some (EmptyString, s)
  end.

Definition parse_exponent (s : string) : option (Z * string) :=
  match s with
  | String c t =>
      if Ascii.eqb c "e" || Ascii.eqb c "E" then
        let '(neg, t1) :=
          match t with
          | String sg t' =>
              if Ascii.eqb sg "-" then (true, t')
              else if Ascii.eqb sg "+" then (false, t') else (false, t)
          | EmptyString => (false, t)
          end in
        let '(ds, r) := span_digits t1 in
        if nonempty ds then Some (if neg then (- digits_value ds)%Z else digits_value ds, r)
        else None
      else Some (0%Z, s)
  | EmptyString => Some (0%Z, s)
  end.

(** [m * 10 ^ k] when that is an integer. *)
Definition scale (m k : Z) : option Z :=
  if (0 <=? k)%Z then Some (m * 10 ^ k)%Z
  else if (m mod 10 ^ (- k) =? 0)%Z then Some (m / 10 ^ (- k))%Z else None.

(** Whether [m * 10 ^ k] rounds to an infinity: it does from the midpoint
    between the largest double, [2^1024 - 2^971], and [2^1024]. *)
Definition overflows (m k : Z) : bool :=
  let limit := (2 ^ 1024 - 2 ^ 970)%Z in
  if (0 <=? k)%Z then (limit <=? m * 10 ^ k)%Z else (limit * 10 ^ (- k) <=? m)%Z.
Arguments overflows : simpl never.

(** The digits of a number literal, after its sign: an integer part
    without a leading zero, an optional fraction, an optional exponent. *)
Definition parse_unsigned (neg : bool) (s : string) : parsed (value * string) :=
  let '(ip, s2) := span_digits s in
  if negb (nonempty ip) || leading_zero ip then Invalid
  else
    '(fp, s3) ← syntax (parse_fraction s2);
    '(e, s4) ← syntax (parse_exponent s3);
    let m := digits_value (ip +:+ fp) in
    let k := (e - Z.of_nat (String.length fp))%Z in
    if overflows m k then Overflowed (VInf neg, s4)
    else
      match scale m k with
      | Some n => if safe_int n then Parsed (VNum (if neg then (- n)%Z else n), s4) else Beyond
      | None => Beyond
      end.

Definition parse_number (s : string) : parsed (value * string) :=
  match s with
  | String c t => if Ascii.eqb c "-" then parse_unsigned true t else parse_unsigned false s
  | EmptyString => Invalid
  end.

Fixpoint expect (lit s : string) : option string :=
  match lit with
  | EmptyString => Some s
  | String c lit' =>
      match s with
      | String d t => if Ascii.eqb c d then expect lit' t else None
      | EmptyString => None
      end
  end.

Fixpoint parse_value (fuel : nat) (s : string) {struct fuel} : parsed (value * string) :=
  match fuel with
  | O => Beyond
  | S f =>
      match skip_ws s with
      | EmptyString => Invalid
      | String c t =>
          if Ascii.eqb c "n" then r ← syntax (expect "ull" t); Parsed (VNull, r)
          else if Ascii.eqb c "t" then r ← syntax (expect "rue" t); Parsed (VBool true, r)
          else if Ascii.eqb c "f" then r ← syntax (expect "alse" t); Parsed (VBool false, r)
          else if Ascii.eqb c dq then '(x, r) ← parse_chars None t; Parsed (VStr x, r)
          else if Ascii.eqb c "[" then
            match skip_ws t with
            | String d r =>
                if Ascii.eqb d "]" then Parsed (VArr [], r)
                else '(l, r') ← parse_elements f t; Parsed (VArr l, r')
            | EmptyString => Invalid
            end
          else if Ascii.eqb c "{" then
            match skip_ws t with
            | String d r =>
                if Ascii.eqb d "}" then Parsed (VObj ∅, r)
                else '(o, r') ← parse_members f ∅ t; Parsed (VObj o, r')
            | EmptyString => Invalid
            end
          else parse_number (String c t)
      end
  end
with parse_elements (fuel : nat) (s : string) {struct fuel} : parsed (list value * string) :=
  match fuel with
  | O => Beyond
  | S f =>
      '(v, r) ← parse_value f s;
      match skip_ws r with
      | String d r1 =>
          if Ascii.eqb d "," then '(l, r2) ← parse_elements f r1; Parsed (v :: l, r2)
          else if Ascii.eqb d "]" then Parsed ([v], r1)
          else Invalid
      | EmptyString => Invalid
      end
  end
with parse_members (fuel : nat) (acc : gmap string value) (s : string) {struct fuel}
    : parsed (gmap string value * string) :=
  match fuel with
  | O => Beyond
  | S f =>
      '(k, r) ← parse_string (skip_ws s);
      match skip_ws r with
      | String d r1 =>
          if Ascii.eqb d ":" then
            '(v, r2) ← parse_value f r1;
            match skip_ws r2 with
            | String d' r3 =>
                if Ascii.eqb d' "," then parse_members f (<[k:=v]> acc) r3
                else if Ascii.eqb d' "}" then Parsed (<[k:=v]> acc, r3)
                else Invalid
            | EmptyString => Invalid
            end
          else Invalid
      | EmptyString => Invalid
      end
  end.

Definition JSON_parse (text : string) : parsed value :=
  '(v, r) ← parse_value (2 * String.length text + 2) text;
  match skip_ws r with
  | EmptyString => Parsed v
  | String _ _ => Invalid
  end.

(** ** Notions for the proofs about the two functions *)

(** What may follow a value in the text that [JSON.stringify] writes. *)
Definition stops (s : string) : bool :=
  match s with
  | EmptyString => true
  | String c _ => is_ws c || Ascii.eqb c "," || Ascii.eqb c "]" || Ascii.eqb c "}"
  end.

Definition vstart (c : ascii) : bool :=
  Ascii.eqb c "n" || Ascii.eqb c "t" || Ascii.eqb c "f" || Ascii.eqb c dq
  || Ascii.eqb c "[" || Ascii.eqb c "{" || Ascii.eqb c "-" || is_digit c.

Fixpoint blank (s : string) : bool :=
  match s with
  | EmptyString => true
  | String c t => is_ws c && blank t
  end.

Definition put (acc : gmap string value) (kv : string * value) : gmap string value :=
  <[kv.1:=kv.2]> acc.

(** The parser reads back what the printer wrote for [v], whatever the
    indentation and the text that follows. *)
Definition parses (gap : nat) (v : value) : Prop :=
  ∀ indent fuel rest,
    (need v ≤ fuel)%nat → stops rest = true →
    parse_value fuel (SerializeJSONProperty gap indent v +:+ rest) = Parsed (v, rest).

End Json.

(** * The JavaScript values the program manipulates *)

Module Js.
Import Json.

(** What a [throw] carries: a file-system error with its [code], the
    [SyntaxError] of [JSON.parse], or a [TypeError] (reading a property of
    [null], calling something that is not a function).  [Unmodelled] is not
    an exception of the program: it ends a computation that has left the
    model, of which nothing more is said. *)
Inductive exn : Type :=
  | FsError (code : string)
  | SyntaxError
  | TypeError
  | Unmodelled.

(** [e.code]: only file-system errors carry one. *)
Definition code (e : exn) : option string :=
  match e with
  | FsError c => Some c
  | SyntaxError | TypeError | Unmodelled => None
  end.

Inductive result (A : Type) : Type :=
  | Ok (a : A)
  | Throw (e : exn).
Arguments Ok {A} a.
Arguments Throw {A} e.

#[global] Instance result_ret : MRet result := λ A a, Ok a.
#[global] Instance result_bind : MBind result := λ A B k r,
  match r with
  | Ok a => k a
  | Throw e => Throw e
  end.

(** [v.k] for [k] one of [id], [title], [content]: a [TypeError] on [null],
    the own property of an object, [undefined] ([None]) on anything else. *)
Definition get (v : value) (k : string) : result (option value) :=
  match v with
  | VNull => Throw TypeError
  | VObj o => Ok (o !! k)
  | _ => Ok None
  end.

(** [x === id] where [id] is the result of [Number(...)]: [None] is [NaN],
    which equals nothing. *)
Definition strict_eq (x : option value) (id : option Z) : bool :=
  match x, id with
  | Some (VNum n), Some i => (n =? i)%Z
  | _, _ => false
  end.

(** [n.id === id] inside the callback of [find] and [findIndex].  A run of
    digits too large for a double converts to [Infinity], which [Number]
    renders as [None] like every number of 2^53 or more; a note read from
    a file can carry the id [Infinity].  Whether the two are equal cannot
    be told from [None], and the comparison is left outside the model. *)
Definition same_id (x : option value) (id : option Z) : result bool :=
  match x, id with
  | Some (VInf false), None => Throw Unmodelled
  | _, _ => Ok (strict_eq x id)
  end.

(** [notes.find(n => n.id === id)] *)
Fixpoint find (id : option Z) (l : list value) : result (option value) :=
  match l with
  | [] => Ok None
  | n :: l' =>
      x ← get n "id";
      same ← same_id x id;
      if same : bool then Ok (Some n) else find id l'
  end.

(** [notes.findIndex(n => n.id === id)]; [None] stands for [-1]. *)
Fixpoint findIndex (id : option Z) (l : list value) : result (option nat) :=
  match l with
  | [] => Ok None
  | n :: l' =>
      x ← get n "id";
      same ← same_id x id;
      if same : bool then Ok (Some O)
      else i ← findIndex id l'; Ok (S <$> (i : option nat))
  end.

(** The receiver of [find], [findIndex], [push], [splice] and [map] has to
    be an array: on any other JSON value the method is missing and the call
    is a [TypeError]. *)
Definition array_of (notes : value) : result (list value) :=
  match notes with
  | VArr l => Ok l
  | _ => Throw TypeError
  end.

Fixpoint chars (s : string) : list value :=
  match s with
  | EmptyString => []
  | String c t => VStr (String c EmptyString) :: chars t
  end.

Definition indexed (l : list value) : gmap string value :=
  list_to_map (imap (λ i x, (Number_toString (Z.of_nat i), x)) l).

Fixpoint ascii_only (s : string) : bool :=
  match s with
  | EmptyString => true
  | String c t => (N_of_ascii c <? 128)%N && ascii_only t
  end.

(** The own enumerable properties copied by [...v] in an object literal:
    those of an object, the elements of an array under their indices, the
    characters of a string under theirs, nothing for the rest.  The
    indices of a string count UTF-16 code units, which the model follows
    for a string of ASCII characters. *)
Definition spread (v : value) : result (gmap string value) :=
  match v with
  | VObj o => Ok o
  | VArr l => Ok (indexed l)
  | VStr s => if ascii_only s then Ok (indexed (chars s)) else Throw Unmodelled
  | VNull | VBool _ | VNum _ | VInf _ => Ok ∅
  end.

(** [{ ...a, ...b }]: the fields of [b] win. *)
Definition merge (a b : gmap string value) : gmap string value := b ∪ a.

(** A property initialised with [undefined] is left out: the handlers only
    serialise the object, and [JSON.stringify] omits such a property. *)
Definition field (k : string) (x : option value) (o : gmap string value)
    : gmap string value :=
  match x with
  | Some v => <[k:=v]> o
  | None => o
  end.

(** [{ id: Date.now(), title: data.title, content: data.content }] *)
Definition new_note (now : Z) (title content : option value) : value :=
  VObj (field "content" content (field "title" title {[ "id" := VNum now ]})).

Definition truthy (x : option value) : bool :=
  match x with
  | None | Some VNull => false
  | Some (VBool b) => b
  | Some (VNum n) => negb (n =? 0)%Z
  | Some (VStr s) => nonempty s
  | Some (VArr _) | Some (VObj _) | Some (VInf _) => true
  end.

(** [String(v)] as a template literal applies it. An object prints as
    [[object Object]] unless a property of its own shadows [toString], in
    which case no callable conversion is left and the result is a
    [TypeError]; an array joins its elements with commas, [null] printing
    as nothing. *)
Fixpoint ToString (v : value) : result string :=
  match v with
  | VNull => Ok "null"
  | VBool true => Ok "true"
  | VBool false => Ok "false"
  | VNum n => Ok (Number_toString n)
  | VStr s => Ok s
  | VArr l =>
      parts ← (fix each (l : list value) : result (list string) :=
                 match l with
                 | [] => Ok []
                 | x :: l' =>
                     s ← match x with VNull => Ok EmptyString | _ => ToString x end;
                     r ← each l';
                     Ok (s :: r)
                 end) l;
      Ok (join "," parts)
  | VObj o =>
      match o !! "toString" with
      | Some _ => Throw TypeError
      | None => Ok "[object Object]"
      end
  | VInf neg => Ok (if neg then "-Infinity" else "Infinity")
  end.

(** [`${x}`] *)
Definition interpolate (x : option value) : result string :=
  match x with
  | None => Ok "undefined"
  | Some v => ToString v
  end.

(** [`${x || ''}`] *)
Definition interpolate_or_empty (x : option value) : result string :=
  if truthy x then interpolate x else Ok EmptyString.

Fixpoint all_digits (s : string) : bool :=
  match s with
  | EmptyString => true
  | String c t => is_digit c && all_digits t
  end.

(** [/^\d+$/] *)
Definition digits (s : string) : bool := nonempty s && all_digits s.

(** [Number(s)] on a segment that matched [\d+].  A run of digits that
    denotes 2^53 or more converts to a double of at least 2^53, which is
    equal to no [VNum] of the model: [None] stands for it, as it does for
    [NaN].  (It can be [Infinity]; see [same_id] for the one comparison
    this leaves open.)  On an argument that is not a run of digits, which
    the routes never pass, the model answers [None] as well. *)
Definition Number (s : option string) : option Z :=
  match s with
  | Some ds =>
      if digits ds && safe_int (digits_value ds) then Some (digits_value ds) else None
  | None => None
  end.

(** [s.split('/')] *)
Fixpoint split (s : string) : list string :=
  match s with
  | EmptyString => [EmptyString]
  | String c t =>
      if Ascii.eqb c "/" then EmptyString :: split t
      else
        match split t with
        | x :: r => String c x :: r
        | [] => [String c EmptyString]
        end
  end.

Fixpoint strip_prefix (pre s : string) : option string :=
  match pre with
  | EmptyString => Some s
  | String c pre' =>
      match s with
      | String d s' => if Ascii.eqb c d then strip_prefix pre' s' else None
      | EmptyString => None
      end
  end.

(** The regular expressions of the routes all have the shape
    [^<pre>\d+<post>$] with [post] empty or starting with a slash, so a
    match is: the prefix, then the longest run of digits, not empty, then
    exactly [post]. *)
Definition test (pre post s : string) : bool :=
  match strip_prefix pre s with
  | Some rest =>
      let '(ds, r) := span_digits rest in
      nonempty ds && (r =? post)%string
  | None => false
  end.

Definition startsWith (s pre : string) : bool :=
  match strip_prefix pre s with
  | Some _ => true
  | None => false
  end.

End Js.

(** * The store: one file, read and rewritten whole *)

Module Store.
Import Json Js.

(** What [fs.readFile(dataFile, 'utf8')] finds: the text of the file, or an
    error with its code ([ENOENT] when there is no file). *)
Inductive disk : Type :=
  | ReadFails (code : string)
  | Holds (raw : string).

Definition missing : disk := ReadFails "ENOENT".

(** Code that reads and writes the file and may throw. *)
Definition M (A : Type) : Type := disk → result A * disk.

#[global] Instance M_ret : MRet M := λ A a d, (Ok a, d).
#[global] Instance M_bind : MBind M := λ A B k m d,
  match m d with
  | (Ok a, d') => k a d'
  | (Throw e, d') => (Throw e, d')
  end.

Definition throw {A} (e : exn) : M A := λ d, (Throw e, d).

Definition lift {A} (r : result A) : M A := λ d, (r, d).

Definition try_catch {A} (body : M A) (handler : exn → M A) : M A := λ d,
  match body d with
  | (Ok a, d') => (Ok a, d')
  | (Throw e, d') => handler e d'
  end.

Definition readFile : M string := λ d,
  match d with
  | ReadFails c => (Throw (FsError c), d)
  | Holds raw => (Ok raw, d)
  end.

(** [fs.writeFile(DATA_FILE, text)].  A write replaces the content of a
    file that can be read and creates a file that does not exist, and is
    taken to succeed there.  Where reading fails for another reason (a
    file without read permission, a directory) the write may succeed or
    fail, and reading fails afterwards as it did before: the outcome is
    not modelled. *)
Definition writeFile (text : string) : M unit := λ d,
  match d with
  | Holds _ => (Ok tt, Holds text)
  | ReadFails c =>
      if decide (c = "ENOENT") then (Ok tt, Holds text) else (Throw Unmodelled, d)
  end.

(** [JSON.parse(raw)], throwing as the built-in does. *)
Definition parse (raw : string) : result value :=
  match JSON_parse raw with
  | Parsed v | Overflowed v => Ok v
  | Invalid => Throw SyntaxError
  | Beyond => Throw Unmodelled
  end.

Definition readNotes : M value :=
  try_catch
    (raw ← readFile; lift (parse raw))
    (λ e, if decide (code e = Some "ENOENT") then mret (VArr []) else throw e).

Definition writeNotes (notes : value) : M unit :=
  writeFile (JSON_stringify 2 notes).

End Store.

(** * The HTML templates *)

Module Render.
Import Json Js.

Definition q : string := String dq EmptyString.
Definition nl : string := String lf EmptyString.

Definition cat (parts : list string) : string := foldr String.append EmptyString parts.

Definition layout (title content : string) : string :=
  cat [ nl;
      "    <!DOCTYPE html>"; nl;
      "    <html>"; nl;
      "    <head>"; nl;
      "        <title>"; title; "</title>"; nl;
      "        <style>"; nl;
      "            body { font-family: sans-serif; margin: 2em; }"; nl;
      "            .note { border: 1px solid #ccc; padding: 1em; margin-bottom: 1em; }"; nl;
      "            a { text-decoration: none; color: #0074d9; }"; nl;
      "        </style>"; nl;
      "    </head>"; nl;
      "    <body>"; nl;
      "        <h1>"; title; "</h1>"; nl;
      "        "; content; nl;
      "    </body>"; nl;
      "    </html>"; nl;
      "    " ].

(** [renderLayout(title, content)]: the template converts [title] to a
    string; every caller passes a string for [content]. *)
Definition renderLayout (title : option value) (content : string) : result string :=
  t ← interpolate title;
  Ok (layout t content).

Definition renderNotesItem (note : value) : result string :=
  x ← get note "id"; id ← interpolate x;
  y ← get note "title"; title ← interpolate y;
  Ok (cat [ nl;
      "                <div class="; q; "note"; q; ">"; nl;
      "                    <h3><a href="; q; "/notes/"; id; q; ">"; title; "</a></h3>"; nl;
      "                    <form method="; q; "POST"; q; " action="; q; "/notes/"; id; "/delete"; q; " style="; q; "display:inline;"; q; ">"; nl;
      "                        <button type="; q; "submit"; q; ">Delete</button>"; nl;
      "                    </form>"; nl;
      "                </div>"; nl;
      "            " ]).

Definition renderNotesList (notes : value) : result string :=
  l ← array_of notes;
  items ← mapM renderNotesItem l;
  Ok (cat [ nl;
      "        <a href="; q; "/notes/new"; q; ">Add Note</a>"; nl;
      "        <div>"; nl;
      "            "; cat items; nl;
      "        </div>"; nl;
      "    " ]).

Definition renderNoteDetail (note : value) : result string :=
  y ← get note "title"; title ← interpolate y;
  z ← get note "content"; content ← interpolate z;
  x ← get note "id"; id ← interpolate x;
  Ok (cat [ nl;
      "        <a href="; q; "/"; q; ">Back to Notes</a>"; nl;
      "        <div class="; q; "note"; q; ">"; nl;
      "            <h2>"; title; "</h2>"; nl;
      "            <p>"; content; "</p>"; nl;
      "            <a href="; q; "/notes/"; id; "/edit"; q; ">Edit</a>"; nl;
      "        </div>"; nl;
      "    " ]).

(** [renderNoteForm(note = {})]; the caller without a note passes the
    empty object. *)
Definition renderNoteForm (note : value) : result string :=
  x ← get note "id";
  let isEdit := truthy x in
  action ← (if isEdit then id ← interpolate x; Ok (cat ["/notes/"; id; "/edit"])
            else Ok "/notes/new");
  y ← get note "title"; title ← interpolate_or_empty y;
  z ← get note "content"; content ← interpolate_or_empty z;
  let verb := if isEdit then "Update" else "Create" in
  Ok (cat [ nl;
      "        <a href="; q; "/"; q; ">Back to Notes</a>"; nl;
      "        <form method="; q; "POST"; q; " action="; q; action; q; ">"; nl;
      "            <div>"; nl;
      "                <label>Title:</label><br>"; nl;
      "                <input name="; q; "title"; q; " value="; q; title; q; " required>"; nl;
      "            </div>"; nl;
      "            <div>"; nl;
      "                <label>Content:</label><br>"; nl;
      "                <textarea name="; q; "content"; q; " required>"; content; "</textarea>"; nl;
      "            </div>"; nl;
      "            <button type="; q; "submit"; q; ">"; verb; " Note</button>"; nl;
      "        </form>"; nl;
      "    " ]).

End Render.

(** * The request handler *)

Module Server.
Import Json Js Store Render.

Record request : Type := {
  method : string;
  pathname : string;   (* [url.parse(req.url, true).pathname] *)
  body : string        (* the chunks of the request body, concatenated *)
}.

Record response : Type := {
  status : nat;
  headers : list (string * string);
  payload : string
}.

(** [res.writeHead(status, { 'Content-Type': 'application/json' });
     res.end(JSON.stringify(v))] *)
Definition json (st : nat) (v : value) : response :=
  {| status := st;
     headers := [("Content-Type", "application/json")];
     payload := JSON_stringify 0 v |}.

Definition html (st : nat) (page : string) : response :=
  {| status := st;
     headers := [("Content-Type", "text/html")];
     payload := page |}.

(** [res.writeHead(302, { Location: to }); res.end()] *)
Definition redirect (to : string) : response :=
  {| status := 302; headers := [("Location", to)]; payload := EmptyString |}.

Definition note_not_found : value := VObj {[ "error" := VStr "Note not found" ]}.

(** [pathname.split('/')[i]] *)
Definition segment (i : nat) (p : string) : option string := split p !! i.

(** A value of a decoded form: a string, or the array of the strings of a
    repeated key. *)
Inductive form_value : Type :=
  | One (s : string)
  | Many (l : list string).

Definition of_form (f : form_value) : value :=
  match f with
  | One s => VStr s
  | Many l => VArr (VStr <$> l)
  end.

Section Handler.

(** Node's [querystring.parse], which the program takes from the platform. *)
Variable querystring_parse : string → gmap string form_value.

Definition parseBody (req : request) : gmap string value :=
  of_form <$> querystring_parse (body req).

(** [`${id}`] for the result of [Number(...)].  The handler reaches it only
    after [findIndex] has found a note, that is with [Some n]. *)
Definition Number_text (id : option Z) : string :=
  match id with
  | Some n => Number_toString n
  | None => "NaN"
  end.

Definition api_list : M response :=
  notes ← readNotes;
  mret (json 200 notes).

Definition api_get (id : option Z) : M response :=
  notes ← readNotes;
  l ← lift (array_of notes);
  note ← lift (find id l);
  match note with
  | None => mret (json 404 note_not_found)
  | Some n => mret (json 200 n)
  end.

Definition api_create (now : Z) (req : request) : M response :=
  data ← lift (parse (body req));
  notes ← readNotes;
  title ← lift (get data "title");
  content ← lift (get data "content");
  let note := new_note now title content in
  l ← lift (array_of notes);
  _ ← writeNotes (VArr (l ++ [note]));
  mret (json 201 note).

Definition api_update (id : option Z) (req : request) : M response :=
  data ← lift (parse (body req));
  notes ← readNotes;
  l ← lift (array_of notes);
  idx ← lift (findIndex id l);
  match idx with
  | None => mret (json 404 note_not_found)
  | Some i =>
      old ← lift (spread (default VNull (l !! i)));
      new ← lift (spread data);
      let merged := VObj (merge old new) in
      _ ← writeNotes (VArr (<[i:=merged]> l));
      mret (json 200 merged)
  end.

Definition api_delete (id : option Z) : M response :=
  notes ← readNotes;
  l ← lift (array_of notes);
  idx ← lift (findIndex id l);
  match idx with
  | None => mret (json 404 note_not_found)
  | Some i =>
      let deleted := default VNull (l !! i) in
      _ ← writeNotes (VArr (delete i l));
      mret (json 200 deleted)
  end.

Definition page (st : nat) (title : string) (content : result string) : M response :=
  c ← lift content;
  p ← lift (renderLayout (Some (VStr title)) c);
  mret (html st p).

Definition note_missing : M response :=
  page 404 "Not Found" (Ok "<div>Note not found</div>").

Definition not_found : M response :=
  page 404 "Not Found" (Ok "<div>404 Not Found</div>").

Definition web_home : M response :=
  notes ← readNotes;
  page 200 "Notes" (renderNotesList notes).

Definition web_new : M response :=
  page 200 "New Note" (renderNoteForm (VObj ∅)).

Definition web_create (now : Z) (req : request) : M response :=
  let data := parseBody req in
  notes ← readNotes;
  let note := new_note now (data !! "title") (data !! "content") in
  l ← lift (array_of notes);
  _ ← writeNotes (VArr (l ++ [note]));
  mret (redirect "/").

Definition web_view (id : option Z) : M response :=
  notes ← readNotes;
  l ← lift (array_of notes);
  note ← lift (find id l);
  match note with
  | None => note_missing
  | Some n =>
      title ← lift (get n "title");
      c ← lift (renderNoteDetail n);
      p ← lift (renderLayout title c);
      mret (html 200 p)
  end.

Definition web_edit_form (id : option Z) : M response :=
  notes ← readNotes;
  l ← lift (array_of notes);
  note ← lift (find id l);
  match note with
  | None => note_missing
  | Some n => page 200 "Edit Note" (renderNoteForm n)
  end.

Definition web_edit (id : option Z) (req : request) : M response :=
  let data := parseBody req in
  notes ← readNotes;
  l ← lift (array_of notes);
  idx ← lift (findIndex id l);
  match idx with
  | None => note_missing
  | Some i =>
      old ← lift (spread (default VNull (l !! i)));
      let merged := VObj (merge old data) in
      _ ← writeNotes (VArr (<[i:=merged]> l));
      mret (redirect (cat ["/notes/"; Number_text id]))
  end.

Definition web_delete (id : option Z) : M response :=
  notes ← readNotes;
  l ← lift (array_of notes);
  idx ← lift (findIndex id l);
  match idx with
  | None => note_missing
  | Some i =>
      _ ← writeNotes (VArr (delete i l));
      mret (redirect "/")
  end.

(** The routes under [if (pathname.startsWith('/api/notes'))]; [None] when
    none of them returns, so that control falls through to the web routes. *)
Definition api_routes (now : Z) (req : request) : option (M response) :=
  let m := method req in
  let p := pathname req in
  if (m =? "GET")%string && (p =? "/api/notes")%string then Some api_list
  else if (m =? "GET")%string && test "/api/notes/" EmptyString p then
    Some (api_get (Number (segment 3 p)))
  else if (m =? "POST")%string && (p =? "/api/notes")%string then
    Some (api_create now req)
  else if (m =? "PUT")%string && test "/api/notes/" EmptyString p then
    Some (api_update (Number (segment 3 p)) req)
  else if (m =? "DELETE")%string && test "/api/notes/" EmptyString p then
    Some (api_delete (Number (segment 3 p)))
  else None.

Definition web_routes (now : Z) (req : request) : M response :=
  let m := method req in
  let p := pathname req in
  if (m =? "GET")%string && (p =? "/")%string then web_home
  else if (m =? "GET")%string && (p =? "/notes/new")%string then web_new
  else if (m =? "POST")%string && (p =? "/notes/new")%string then web_create now req
  else if (m =? "GET")%string && test "/notes/" EmptyString p then
    web_view (Number (segment 2 p))
  else if (m =? "GET")%string && test "/notes/" "/edit" p then
    web_edit_form (Number (segment 2 p))
  else if (m =? "POST")%string && test "/notes/" "/edit" p then
    web_edit (Number (segment 2 p)) req
  else if (m =? "POST")%string && test "/notes/" "/delete" p then
    web_delete (Number (segment 2 p))
  else not_found.

(** The callback of [http.createServer]; [now] is what [Date.now()]
    returns while the request is handled. *)
Definition server (now : Z) (req : request) : M response :=
  if startsWith (pathname req) "/api/notes" then
    match api_routes now req with
    | Some handler => handler
    | None => web_routes now req
    end
  else web_routes now req.

End Handler.

End Server.

(** * Notions used to state the properties *)

Module Notions.
Import Json Js Store Render Server.

Definition is_object (v : value) : Prop := ∃ o, v = VObj o.

(** [n.id === id] for a stored note [n] and the number [id] of a path. *)
Definition has_id (id : option Z) (n : value) : bool :=
  match n with
  | VObj o => strict_eq (o !! "id") id
  | _ => false
  end.

(** The first note with that id, and its index. *)
Definition first_with (id : option Z) (l : list value) : option (nat * value) :=
  list_find (λ n, has_id id n = true) l.

(** The store reads as the sequence of notes [l]: objects, and with
    numbers that the file holds as they are. *)
Definition holds_notes (d : disk) (l : list value) : Prop :=
  readNotes d = (Ok (VArr l), d) ∧ Forall is_object l ∧ Forall Safe l.

(** What reading a property of a value of the model gives. *)
Definition Safe_opt (x : option value) : Prop :=
  match x with
  | Some v => Safe v
  | None => True
  end.

Definition numeric_id (n : value) : option Z :=
  match n with
  | VObj o => match o !! "id" with Some (VNum z) => Some z | _ => None end
  | _ => None
  end.

(** [n.id], whatever value it is; [None] when [n] has no such property. *)
Definition id_of (n : value) : option value :=
  match n with
  | VObj o => o !! "id"
  | _ => None
  end.

(** The ids of the notes of a store, in their order. *)
Definition ids (l : list value) : list value := omap id_of l.


Fixpoint noslash (s : string) : bool :=
  match s with
  | EmptyString => true
  | String c t => negb (Ascii.eqb c "/") && noslash t
  end.

Fixpoint last_char (s : string) : option ascii :=
  match s with
  | EmptyString => None
  | String c t => match last_char t with Some d => Some d | None => Some c end
  end.

(** ** Notions for the further properties *)

(** A computation that leaves the disk as it found it. *)
Definition readonly {A} (m : M A) : Prop := ∀ d, (m d).2 = d.

(** What a handler may leave behind: the disk as it was, or, after an
    answer, the text of an array, indented by two. *)
Definition settled {A} (d : disk) (out : result A * disk) : Prop :=
  out.2 = d ∨ ∃ a l, out = (Ok a, Holds (JSON_stringify 2 (VArr l))).

(** How many notes carry the id. *)
Definition count (id : option Z) (l : list value) : nat :=
  length (filter (λ n, has_id id n = true) l).

(** [s.includes(sub)] *)
Fixpoint includes (s sub : string) : bool :=
  startsWith s sub
  || match s with
     | EmptyString => false
     | String _ t => includes t sub
     end.

(** What a template prints without throwing, whatever its properties:
    anything but an object or an array. *)
Definition plain (x : option value) : bool :=
  match x with
  | Some (VObj _) | Some (VArr _) => false
  | _ => true
  end.

(** A note that the list of the home page can show. *)
Definition listable (n : value) : Prop :=
  ∃ o, n = VObj o ∧ plain (o !! "id") = true ∧ plain (o !! "title") = true.

End Notions.

(** * Concrete stores and requests *)

Module Examples.
Import Json Js Store Render Server Notions.

Definition no_form : string → gmap string form_value := λ _, ∅.

Definition sample : list value :=
  [new_note 7 (Some (VStr "a")) (Some (VStr "b"))].

Definition sample_disk : disk := Holds (JSON_stringify 2 (VArr sample)).

Definition old_fields : gmap string value :=
  field "content" (Some (VStr "b")) (field "title" (Some (VStr "a")) {[ "id" := VNum 5 ]}).

Definition old_note : value := VObj old_fields.

Definition old_disk : disk := Holds (JSON_stringify 2 (VArr [old_note])).

Definition xy_fields : gmap string value :=
  {[ "title" := VStr "x"; "content" := VStr "y" ]}.

Definition xy_body : string := JSON_stringify 0 (VObj xy_fields).

Definition x_fields : gmap string value := {[ "title" := VStr "x" ]}.

Definition same_id_fields : gmap string value := {[ "id" := VNum 5 ]}.

Definition same_id_body : string := JSON_stringify 0 (VObj same_id_fields).

Definition other_id_fields : gmap string value := {[ "id" := VNum 9 ]}.

Definition second_fields : gmap string value :=
  field "title" (Some (VStr "b")) {[ "id" := VNum 2 ]}.

Definition two_notes : list value :=
  [new_note 1 (Some (VStr "a")) None; VObj second_fields].

Definition two_disk : disk := Holds (JSON_stringify 2 (VArr two_notes)).

Definition id2_fields : gmap string value := {[ "id" := VNum 2 ]}.

(** The text [{ title: T, content: C }] of a request body, as a client
    writes it. *)
Definition tc_body : string :=
  cat ["{"; q; "title"; q; ":"; q; "T"; q; ","; q; "content"; q; ":"; q; "C"; q; "}"].

Definition xy_id_fields : gmap string value := <[ "id" := VNum 99 ]> xy_fields.

(** A store with one note that has an id and nothing else. *)
Definition bare_disk : disk := Holds (JSON_stringify 2 (VArr [VObj id2_fields])).

(** A store with one note whose id is 0. *)
Definition zero_fields : gmap string value :=
  field "content" (Some (VStr "b")) (field "title" (Some (VStr "a")) {[ "id" := VNum 0 ]}).

Definition zero_disk : disk := Holds (JSON_stringify 2 (VArr [VObj zero_fields])).



(** The bodies [{"title":1e999,"content":"y"}] and [{"id":1e999}]. *)
Definition huge_body : string :=
  cat ["{"; q; "title"; q; ":1e999,"; q; "content"; q; ":"; q; "y"; q; "}"].




End Examples.

(** * Facts about JSON text: what is written is what is read back *)

Module JsonFacts.
Import Json.

#[local] Abbreviation ser := SerializeJSONProperty.

Lemma app_assoc_s (a b c : string) : (a +:+ b) +:+ c = a +:+ (b +:+ c).
Proof. induction a as [|x a IH]; [reflexivity|]. cbn. by rewrite IH. Qed.

Lemma parse_chars_step c t :
  parse_chars None (escape_char c +:+ t)
  = '(r, rest) ← parse_chars None t; Parsed (String c r, rest).
Proof. destruct c as [[] [] [] [] [] [] [] []]; reflexivity. Qed.

Lemma parse_chars_escape s rest :
  parse_chars None (escape s +:+ String dq rest) = Parsed (s, rest).
Proof.
  induction s as [|c s IH]; [reflexivity|].
  cbn [escape]. rewrite app_assoc_s, parse_chars_step, IH. reflexivity.
Qed.

Lemma app_nil_r_s (a : string) : a +:+ EmptyString = a.
Proof. induction a as [|x a IH]; [reflexivity|]. simpl. by rewrite IH. Qed.

Lemma stops_span rest : stops rest = true → span_digits rest = (EmptyString, rest).
Proof.
  destruct rest as [|c r]; [reflexivity|]. unfold stops.
  destruct c as [[] [] [] [] [] [] [] []]; cbn; intros H; try discriminate H; reflexivity.
Qed.

Lemma stops_fraction rest : stops rest = true → parse_fraction rest = Some (EmptyString, rest).
Proof.
  destruct rest as [|c r]; [reflexivity|]. unfold stops.
  destruct c as [[] [] [] [] [] [] [] []]; cbn; intros H; try discriminate H; reflexivity.
Qed.

Lemma stops_exponent rest : stops rest = true → parse_exponent rest = Some (0%Z, rest).
Proof.
  destruct rest as [|c r]; [reflexivity|]. unfold stops.
  destruct c as [[] [] [] [] [] [] [] []]; cbn; intros H; try discriminate H; reflexivity.
Qed.

Lemma span_digits_uint u rest :
  stops rest = true →
  span_digits (NilEmpty.string_of_uint u +:+ rest) = (NilEmpty.string_of_uint u, rest).
Proof.
  intros H. induction u; simpl; [by apply stops_span|..]; by rewrite IHu.
Qed.

Lemma unorm_D0_nil d x : Decimal.unorm d = Decimal.D0 x → x = Decimal.Nil.
Proof.
  induction d; simpl; intros H; try discriminate H; auto.
  by injection H.
Qed.

Lemma to_uint_shape p :
  nonempty (NilEmpty.string_of_uint (Pos.to_uint p)) = true
  ∧ leading_zero (NilEmpty.string_of_uint (Pos.to_uint p)) = false.
Proof.
  pose proof (Unsigned.to_uint_nonnil p) as Hnn.
  pose proof (Unsigned.to_uint_nonzero p) as Hnz.
  pose proof (Unsigned.to_of (Pos.to_uint p)) as Hn.
  rewrite Unsigned.of_to in Hn. simpl in Hn.
  destruct (Pos.to_uint p) as [|d|d|d|d|d|d|d|d|d|d] eqn:E; try done;
    try (split; [reflexivity|]; simpl; by destruct d).
  symmetry in Hn. rewrite unorm_D0 in Hn. apply unorm_D0_nil in Hn. congruence.
Qed.

Lemma digits_value_pos p :
  digits_value (NilEmpty.string_of_uint (Pos.to_uint p)) = Z.pos p.
Proof.
  unfold digits_value. rewrite NilEmpty.usu.
  change (N.of_uint (Pos.to_uint p)) with (Pos.of_uint (Pos.to_uint p)).
  by rewrite Unsigned.of_to.
Qed.

Lemma limit_above_safe : (2 ^ 53 < 2 ^ 1024 - 2 ^ 970)%Z.
Proof.
  assert (H1 : (2 ^ 1024 = 2 ^ 970 * 2 ^ 54)%Z).
  { rewrite <- Z.pow_add_r by lia. reflexivity. }
  assert (H2 : (2 ^ 53 < 2 ^ 970)%Z) by (apply Z.pow_lt_mono_r; lia).
  assert (H3 : (2 ^ 54 = 18014398509481984)%Z) by reflexivity.
  rewrite H1, H3. lia.
Qed.

Lemma overflows_safe n : safe_int n = true → overflows n 0 = false.
Proof.
  unfold safe_int, overflows. intros H%Z.ltb_lt. cbn [Z.leb Z.compare].
  apply Z.leb_gt. pose proof limit_above_safe. lia.
Qed.

Lemma parse_unsigned_pos neg p rest :
  stops rest = true → safe_int (Z.pos p) = true →
  parse_unsigned neg (NilEmpty.string_of_uint (Pos.to_uint p) +:+ rest)
  = Parsed (VNum (if neg then Z.neg p else Z.pos p), rest).
Proof.
  intros H Hsafe. destruct (to_uint_shape p) as [Hne Hlz].
  unfold parse_unsigned. rewrite span_digits_uint, Hne, Hlz by done.
  cbn [negb orb]. rewrite stops_fraction by done. cbn [syntax mbind parsed_bind].
  rewrite stops_exponent by done. cbn [syntax mbind parsed_bind].
  rewrite app_nil_r_s, digits_value_pos.
  change (0 - Z.of_nat (String.length EmptyString))%Z with 0%Z.
  rewrite (overflows_safe _ Hsafe). unfold scale. cbn [Z.leb Z.compare].
  replace (Z.pos p * 10 ^ 0)%Z with (Z.pos p) by lia.
  rewrite Hsafe. by destruct neg.
Qed.

Lemma uint_first d x :
  d ≠ Decimal.Nil →
  ∃ c t, NilEmpty.string_of_uint d +:+ x = String c t ∧ is_digit c = true.
Proof. destruct d; [done|..]; intros _; simpl; eauto. Qed.

Lemma digit_not_minus c : is_digit c = true → Ascii.eqb c "-" = false.
Proof. destruct c as [[] [] [] [] [] [] [] []]; cbn; intros H; try discriminate H; done. Qed.

Lemma Number_toString_pos p :
  Number_toString (Z.pos p) = NilEmpty.string_of_uint (Pos.to_uint p)
  ∧ Number_toString (Z.neg p) = String "-" (NilEmpty.string_of_uint (Pos.to_uint p)).
Proof.
  unfold Number_toString. simpl. pose proof (Unsigned.to_uint_nonnil p).
  by destruct (Pos.to_uint p).
Qed.

Lemma parse_number_toString n rest :
  stops rest = true → safe_int n = true →
  parse_number (Number_toString n +:+ rest) = Parsed (VNum n, rest).
Proof.
  intros H Hsafe. destruct n as [|p|p].
  - change (Number_toString 0) with "0". unfold parse_number, parse_unsigned. simpl.
    rewrite stops_span by done. simpl. rewrite stops_fraction by done. simpl.
    by rewrite stops_exponent by done.
  - rewrite (proj1 (Number_toString_pos p)).
    destruct (uint_first (Pos.to_uint p) rest (Unsigned.to_uint_nonnil p))
      as (c & t & E & Hc).
    unfold parse_number. rewrite E, (digit_not_minus c Hc), <- E.
    by apply (parse_unsigned_pos false).
  - rewrite (proj2 (Number_toString_pos p)). simpl.
    by apply (parse_unsigned_pos true).
Qed.

Lemma need_elem l v : v ∈ l → (need v < need (VArr l))%nat.
Proof.
  intros Hin. simpl. apply Nat.lt_succ_r.
  induction Hin as [x l|x y l _ IH]; simpl; lia.
Qed.

Lemma need_obj_sum (o : gmap string value) :
  need (VObj o) = S (sum_list_with (λ kv : string * value, S (need kv.2)) (map_to_list o)).
Proof.
  simpl. f_equal. rewrite map_to_list_fmap.
  induction (map_to_list o) as [|[k v] L IH]; [done|]. cbn. by rewrite <- IH.
Qed.

Lemma sum_member {A} (f : A → nat) (L : list A) x : x ∈ L → (f x ≤ sum_list_with f L)%nat.
Proof. induction 1; simpl; lia. Qed.

Lemma need_member (o : gmap string value) k v : o !! k = Some v → (need v < need (VObj o))%nat.
Proof.
  intros Hk. rewrite need_obj_sum. apply elem_of_map_to_list in Hk.
  pose proof (sum_member (λ kv : string * value, S (need kv.2)) _ _ Hk). simpl in *. lia.
Qed.

Lemma value_ind (P : value → Prop) :
  P VNull → (∀ b, P (VBool b)) → (∀ n, P (VNum n)) → (∀ s, P (VStr s)) →
  (∀ l, Forall P l → P (VArr l)) →
  (∀ o : gmap string value, map_Forall (λ _, P) o → P (VObj o)) →
  (∀ neg, P (VInf neg)) →
  ∀ v, P v.
Proof.
  intros Hnull Hbool Hnum Hstr Harr Hobj Hinf v.
  remember (need v) as n eqn:Hn. revert v Hn.
  induction (lt_wf n) as [n _ IH]. intros v ->.
  destruct v as [|b|z|s|l|o|neg]; auto.
  - apply Harr, Forall_forall. intros x Hx. eapply IH; [|reflexivity]. by apply need_elem.
  - apply Hobj. intros k x Hk. eapply IH; [|reflexivity]. by eapply need_member.
Qed.

Lemma vstart_facts c :
  vstart c = true → is_ws c = false ∧ Ascii.eqb c "]" = false ∧ Ascii.eqb c "}" = false.
Proof. destruct c as [[] [] [] [] [] [] [] []]; cbn; intros H; try discriminate H; done. Qed.

Lemma skip_ws_blank w s : blank w = true → skip_ws (w +:+ s) = skip_ws s.
Proof.
  induction w as [|c w IH]; [done|]. simpl. intros [Hc Hw]%andb_true_iff.
  rewrite Hc. auto.
Qed.

Lemma skip_ws_head c t : is_ws c = false → skip_ws (String c t) = String c t.
Proof. intros H. simpl. by rewrite H. Qed.

Lemma blank_spaces n : blank (spaces n) = true.
Proof. induction n; [done|]. simpl. by rewrite IHn. Qed.

Lemma blank_pad gap n : blank (pad gap n) = true.
Proof. destruct gap; [done|]. simpl. apply blank_spaces. Qed.

Lemma stops_blank w c t :
  blank w = true → (Ascii.eqb c "]" || Ascii.eqb c "}") = true → stops (w +:+ String c t) = true.
Proof.
  destruct w as [|x w]; simpl.
  - intros _ H. by destruct (is_ws c), (Ascii.eqb c ",").
  - intros [-> _]%andb_true_iff _. done.
Qed.

Lemma parse_value_blank fuel w s :
  blank w = true → parse_value fuel (w +:+ s) = parse_value fuel s.
Proof. intros H. destruct fuel; [done|]. simpl. by rewrite skip_ws_blank. Qed.

Lemma number_head n x :
  ∃ c t, Number_toString n +:+ x = String c t ∧ (is_digit c || Ascii.eqb c "-") = true.
Proof.
  destruct n as [|p|p].
  - by exists "0"%char, x.
  - unfold Number_toString. simpl.
    destruct (uint_first (Pos.to_uint p) x (Unsigned.to_uint_nonnil p)) as (c & t & E & Hc).
    exists c, t. rewrite Hc. split; [|done].
    pose proof (Unsigned.to_uint_nonnil p). by destruct (Pos.to_uint p).
  - unfold Number_toString. simpl. by eexists _, _.
Qed.

Lemma parse_value_number f c t :
  (is_digit c || Ascii.eqb c "-") = true →
  parse_value (S f) (String c t) = parse_number (String c t).
Proof. destruct c as [[] [] [] [] [] [] [] []]; cbn; intros H; try discriminate H; reflexivity. Qed.

Lemma number_vstart c : (is_digit c || Ascii.eqb c "-") = true → vstart c = true.
Proof. destruct c as [[] [] [] [] [] [] [] []]; cbn; intros H; try discriminate H; reflexivity. Qed.

Lemma ser_head gap indent v x :
  ∃ c t, ser gap indent v +:+ x = String c t ∧ vstart c = true.
Proof.
  destruct v as [|[]|n|s|l|o|neg]; simpl; try by eexists _, _.
  - destruct (number_head n x) as (c & t & E & Hc). exists c, t. split; [done|].
    by apply number_vstart.
  - unfold brackets. destruct (map _ l); simpl; by eexists _, _.
  - unfold brackets. destruct (map _ _); simpl; by eexists _, _.
Qed.

Lemma parse_elements_step f s :
  parse_elements (S f) s =
    '(v, r) ← parse_value f s;
    match skip_ws r with
    | String d r1 =>
        if Ascii.eqb d "," then '(l, r2) ← parse_elements f r1; Parsed (v :: l, r2)
        else if Ascii.eqb d "]" then Parsed ([v], r1)
        else Invalid
    | EmptyString => Invalid
    end.
Proof. reflexivity. Qed.

Lemma parse_members_step f acc s :
  parse_members (S f) acc s =
    '(k, r) ← parse_string (skip_ws s);
    match skip_ws r with
    | String d r1 =>
        if Ascii.eqb d ":" then
          '(v, r2) ← parse_value f r1;
          match skip_ws r2 with
          | String d' r3 =>
              if Ascii.eqb d' "," then parse_members f (<[k:=v]> acc) r3
              else if Ascii.eqb d' "}" then Parsed (<[k:=v]> acc, r3)
              else Invalid
          | EmptyString => Invalid
          end
        else Invalid
    | EmptyString => Invalid
    end.
Proof. reflexivity. Qed.

Lemma join_cons sep x y l : join sep (x :: y :: l) = x +:+ sep +:+ join sep (y :: l).
Proof. reflexivity. Qed.

Lemma parse_elements_ok gap indent (l : list value) :
  Forall (parses gap) l → l ≠ [] →
  ∀ fuel w cl rest,
    (sum_list_with S (map need l) ≤ fuel)%nat → blank w = true → blank cl = true →
    parse_elements fuel
      (w +:+ join ("," +:+ pad gap indent) (map (ser gap indent) l) +:+ cl +:+ String "]" rest)
    = Parsed (l, rest).
Proof.
  induction 1 as [|v l Hv Hl IH]; [done|]. intros _ fuel w cl rest Hfuel Hw Hcl.
  simpl in Hfuel. destruct fuel as [|f]; [lia|].
  rewrite parse_elements_step, parse_value_blank by done.
  destruct l as [|v2 l2].
  - simpl. rewrite Hv; [|lia|by apply stops_blank]. simpl.
    rewrite skip_ws_blank by done. reflexivity.
  - specialize (IH ltac:(done) f (pad gap indent) cl rest).
    cbn [map] in *. rewrite join_cons, !app_assoc_s.
    change ("," +:+ ?x) with (String "," x).
    rewrite Hv; [|lia|done]. cbn [mbind parsed_bind]. rewrite skip_ws_head by done.
    simpl (Ascii.eqb _ _). cbv iota.
    rewrite IH; [done|simpl in *; lia|apply blank_pad|done].
Qed.

Lemma member_text gap k p x :
  member gap (k, p) +:+ x
  = String dq (escape k +:+ String dq
      (String ":" (match gap with O => EmptyString | S _ => " " end +:+ p +:+ x))).
Proof.
  unfold member, QuoteJSONString. simpl. rewrite !app_assoc_s. simpl.
  destruct gap; simpl; by rewrite ?app_assoc_s.
Qed.

Lemma parse_members_ok gap indent (L : list (string * value)) :
  Forall (λ kv, parses gap kv.2) L → L ≠ [] →
  ∀ fuel acc w cl rest,
    (sum_list_with (λ kv : string * value, S (need kv.2)) L ≤ fuel)%nat →
    blank w = true → blank cl = true →
    parse_members fuel acc
      (w +:+ join ("," +:+ pad gap indent)
               (map (member gap) (prod_map id (ser gap indent) <$> L))
         +:+ cl +:+ String "}" rest)
    = Parsed (foldl put acc L, rest).
Proof.
  induction 1 as [|[k v] L Hv HL IH]; [done|]. intros _ fuel acc w cl rest Hfuel Hw Hcl.
  simpl in Hfuel, Hv. destruct fuel as [|f]; [lia|].
  rewrite parse_members_step, skip_ws_blank by done.
  assert (Hbl : blank (match gap with O => EmptyString | S _ => " " end) = true)
    by by destruct gap.
  destruct L as [|kv2 L2].
  - cbn [fmap list_fmap map join prod_map fst snd id].
    rewrite member_text. rewrite skip_ws_head by done.
    cbn [parse_string]. change (Ascii.eqb dq dq) with true. cbv iota.
    rewrite parse_chars_escape. cbn [mbind parsed_bind]. rewrite skip_ws_head by done.
    simpl (Ascii.eqb _ _). cbv iota. rewrite parse_value_blank by done.
    rewrite Hv; [|lia|by apply stops_blank]. cbn [mbind parsed_bind].
    rewrite skip_ws_blank by done. reflexivity.
  - specialize (IH ltac:(done) f (<[k:=v]> acc) (pad gap indent) cl rest).
    cbn [fmap list_fmap map prod_map fst snd id] in *. rewrite join_cons, !app_assoc_s.
    rewrite member_text. rewrite skip_ws_head by done.
    cbn [parse_string]. change (Ascii.eqb dq dq) with true. cbv iota.
    rewrite parse_chars_escape. cbn [mbind parsed_bind]. rewrite skip_ws_head by done.
    simpl (Ascii.eqb _ _). cbv iota. rewrite parse_value_blank by done.
    change ("," +:+ ?x) with (String "," x).
    rewrite Hv; [|lia|done]. cbn [mbind parsed_bind]. rewrite skip_ws_head by done.
    simpl (Ascii.eqb _ _). cbv iota.
    rewrite IH; [done|simpl in *; lia|apply blank_pad|done].
Qed.

Lemma foldl_put (L : list (string * value)) (acc : gmap string value) :
  NoDup L.*1 → foldl put acc L = list_to_map L ∪ acc.
Proof.
  revert acc. induction L as [|[k v] L IH]; intros acc Hnd; simpl.
  - by rewrite (left_id_L ∅ (∪)).
  - apply NoDup_cons in Hnd as [Hk Hnd]. rewrite IH by done. unfold put. simpl.
    rewrite <- insert_union_l. symmetry. apply insert_union_r.
    by apply not_elem_of_list_to_map.
Qed.

Lemma foldl_put_map_to_list (o : gmap string value) : foldl put ∅ (map_to_list o) = o.
Proof.
  rewrite foldl_put by apply NoDup_fst_map_to_list.
  by rewrite list_to_map_to_list, (right_id_L ∅ (∪)).
Qed.

Lemma parse_value_array f t :
  parse_value (S f) (String "[" t) =
    match skip_ws t with
    | String d r =>
        if Ascii.eqb d "]" then Parsed (VArr [], r)
        else '(l, r') ← parse_elements f t; Parsed (VArr l, r')
    | EmptyString => Invalid
    end.
Proof. reflexivity. Qed.

Lemma parse_value_object f t :
  parse_value (S f) (String "{" t) =
    match skip_ws t with
    | String d r =>
        if Ascii.eqb d "}" then Parsed (VObj ∅, r)
        else '(o, r') ← parse_members f ∅ t; Parsed (VObj o, r')
    | EmptyString => Invalid
    end.
Proof. reflexivity. Qed.

Lemma join_head sep c a l y : ∃ z, join sep (String c a :: l) +:+ y = String c z.
Proof. destruct l; simpl; eauto. Qed.

Lemma skip_to_item w sep a l y :
  blank w = true →
  (∃ c t, a = String c t ∧ vstart c = true) →
  ∃ c r, skip_ws (w +:+ join sep (a :: l) +:+ y) = String c r
         ∧ Ascii.eqb c "]" = false ∧ Ascii.eqb c "}" = false.
Proof.
  intros Hw (c & t & -> & Hc). apply vstart_facts in Hc as (Hws & H1 & H2).
  rewrite skip_ws_blank by done. destruct (join_head sep c t l y) as [z ->].
  rewrite skip_ws_head by done. eauto.
Qed.

Lemma ser_head' gap indent v : ∃ c t, ser gap indent v = String c t ∧ vstart c = true.
Proof.
  destruct (ser_head gap indent v EmptyString) as (c & t & E & Hc).
  rewrite app_nil_r_s in E. eauto.
Qed.

Lemma member_head gap kp : ∃ c t, member gap kp = String c t ∧ vstart c = true.
Proof. unfold member, QuoteJSONString. simpl. by eexists _, _. Qed.

Lemma Safe_elements l : Safe (VArr l) → Forall Safe l.
Proof. by inversion 1. Qed.

Lemma Safe_members (o : gmap string value) : Safe (VObj o) → map_Forall (λ _, Safe) o.
Proof. by inversion 1. Qed.

Lemma Safe_number n : Safe (VNum n) → safe_int n = true.
Proof. by inversion 1. Qed.

Lemma parse_value_ser gap v : Safe v → parses gap v.
Proof.
  induction v as [|b|n|s|l IH|o IH|neg] using value_ind;
    intros Hsafe indent fuel rest Hfuel Hrest;
    (destruct fuel as [|f]; [simpl in Hfuel; lia|]).
  - reflexivity.
  - by destruct b.
  - destruct (number_head n rest) as (c & t & E & Hc).
    cbn [SerializeJSONProperty]. rewrite E, parse_value_number, <- E by done.
    by rewrite parse_number_toString by (done || by apply Safe_number).
  - cbn [SerializeJSONProperty]. unfold QuoteJSONString. simpl.
    rewrite app_assoc_s. simpl. by rewrite parse_chars_escape.
  - apply Safe_elements in Hsafe.
    assert (Hl : Forall (parses gap) l).
    { apply Forall_forall. intros x Hx. rewrite Forall_forall in IH, Hsafe. auto. }
    cbn [SerializeJSONProperty]. unfold brackets.
    destruct l as [|v l]; [reflexivity|]. cbn [map].
    rewrite !app_assoc_s. change ("[" +:+ ?x) with (String "[" x).
    change ("]" +:+ ?x) with (String "]" x). rewrite parse_value_array.
    destruct (skip_to_item (pad gap (indent + gap)) ("," +:+ pad gap (indent + gap))
                (ser gap (indent + gap) v) (map (ser gap (indent + gap)) l)
                (pad gap indent +:+ String "]" rest))
      as (c & r & -> & -> & _); [apply blank_pad|apply ser_head'|].
    change (ser gap (indent + gap) v :: map (ser gap (indent + gap)) l)
      with (map (ser gap (indent + gap)) (v :: l)).
    rewrite parse_elements_ok; [done|done|done| |apply blank_pad..].
    simpl in Hfuel. simpl. lia.
  - apply Safe_members in Hsafe.
    cbn [SerializeJSONProperty]. unfold brackets. rewrite map_to_list_fmap.
    rewrite need_obj_sum in Hfuel.
    assert (HL : Forall (λ kv, parses gap kv.2) (map_to_list o)).
    { apply Forall_forall. intros [k x] Hk. apply elem_of_map_to_list in Hk.
      apply (IH k x Hk), (Hsafe k x Hk). }
    pose proof (foldl_put_map_to_list o) as Hfold.
    destruct (map_to_list o) as [|kv L] eqn:EL.
    { apply map_to_list_empty_iff in EL as ->. reflexivity. }
    cbn [map fmap list_fmap].
    rewrite !app_assoc_s. change ("{" +:+ ?x) with (String "{" x).
    change ("}" +:+ ?x) with (String "}" x). rewrite parse_value_object.
    match goal with
    | |- context [skip_ws (?w +:+ join ?sep (?a :: ?l) +:+ ?y)] =>
        destruct (skip_to_item w sep a l y) as (c & r & -> & _ & ->);
          [apply blank_pad|apply member_head|]
    end.
    pose proof (parse_members_ok gap (indent + gap) (kv :: L) HL ltac:(done)
                  f ∅ (pad gap (indent + gap)) (pad gap indent) rest) as Hm.
    cbn [map fmap list_fmap] in Hm. rewrite Hm; [|lia|apply blank_pad..].
    simpl. by rewrite <- Hfold.
  - inversion Hsafe.
Qed.

Lemma length_app_s (a b : string) : String.length (a +:+ b) = (String.length a + String.length b)%nat.
Proof. induction a; simpl; auto. Qed.


Lemma join_length sep l :
  (1 ≤ String.length sep)%nat →
  (sum_list_with (λ x, S (String.length x)) l ≤ S (String.length (join sep l)))%nat.
Proof.
  intros Hsep. induction l as [|x [|y l] IH]; simpl in *; [lia..|].
  rewrite !length_app_s. lia.
Qed.

Lemma brackets_length op cl gap indent partial :
  (sum_list_with (λ x, S (String.length x)) partial
   ≤ String.length (brackets op cl gap indent partial) - (String.length op + String.length cl) + 1)%nat
  ∧ (String.length op + String.length cl ≤ String.length (brackets op cl gap indent partial))%nat.
Proof.
  unfold brackets. destruct partial as [|x l].
  { rewrite length_app_s. simpl. lia. }
  rewrite !length_app_s.
  pose proof (join_length ("," +:+ pad gap (indent + gap)) (x :: l)) as Hj.
  rewrite length_app_s in Hj. simpl (String.length ",") in Hj.
  specialize (Hj ltac:(lia)). lia.
Qed.

Lemma sum_list_with_le {A B} (f : A → nat) (g : B → nat) (h : A → B) (l : list A) :
  Forall (λ x, (f x ≤ g (h x))%nat) l →
  (sum_list_with f l ≤ sum_list_with g (map h l))%nat.
Proof. induction 1; simpl; lia. Qed.

Lemma need_le_length gap v : ∀ indent, (need v ≤ String.length (ser gap indent v))%nat.
Proof.
  induction v as [|b|n|s|l IH|o IH|neg] using value_ind; intros indent.
  - simpl. lia.
  - destruct b; simpl; lia.
  - destruct (number_head n EmptyString) as (c & t & E & _).
    rewrite app_nil_r_s in E. simpl. rewrite E. simpl. lia.
  - simpl. lia.
  - cbn [SerializeJSONProperty need].
    destruct (brackets_length "[" "]" gap indent (map (ser gap (indent + gap)) l)) as [H1 H2].
    simpl (String.length "[") in *. simpl (String.length "]") in *.
    assert ((sum_list_with S (map need l)
             ≤ sum_list_with (λ x, S (String.length x)) (map (ser gap (indent + gap)) l))%nat).
    { clear H1 H2. induction IH as [|v l Hv _ IHl]; simpl; [lia|].
      specialize (Hv (indent + gap)%nat). lia. }
    lia.
  - rewrite need_obj_sum. cbn [SerializeJSONProperty]. rewrite map_to_list_fmap.
    match goal with
    | |- context [brackets ?a ?b ?c ?d ?e] => destruct (brackets_length a b c d e) as [H1 H2]
    end.
    simpl (String.length "{") in *. simpl (String.length "}") in *.
    assert (HL : Forall (λ kv : string * value,
                   ∀ indent, (need kv.2 ≤ String.length (ser gap indent kv.2))%nat)
                 (map_to_list o)).
    { apply Forall_forall. intros [k x] Hk. apply elem_of_map_to_list in Hk.
      by apply (IH k x). }
    match type of H1 with
    | (sum_list_with _ ?P ≤ _)%nat =>
        assert ((sum_list_with (λ kv : string * value, S (need kv.2)) (map_to_list o)
                 ≤ sum_list_with (λ x, S (String.length x)) P)%nat)
    end.
    { clear H1 H2. induction HL as [|[k x] L Hx _ IHL]; [simpl; lia|].
      specialize (Hx (indent + gap)%nat).
      cbn [map fmap list_fmap sum_list_with prod_map fst snd id] in *.
      unfold member at 1. cbn [fst snd]. rewrite !length_app_s. lia. }
    lia.
  - simpl. lia.
Qed.

(** What [JSON.stringify] writes for a value of the model, [JSON.parse]
    reads back as that value. *)
Theorem JSON_parse_stringify gap v :
  Safe v → JSON_parse (JSON_stringify gap v) = Parsed v.
Proof.
  intros Hsafe. unfold JSON_parse, JSON_stringify.
  pose proof (parse_value_ser gap v Hsafe 0%nat
                (2 * String.length (ser gap 0 v) + 2)%nat EmptyString) as H.
  rewrite app_nil_r_s in H. rewrite H; [done| |done].
  pose proof (need_le_length gap v 0%nat). lia.
Qed.

Lemma parse_value_step f s :
  parse_value (S f) s =
    match skip_ws s with
    | EmptyString => Invalid
    | String c t =>
        if Ascii.eqb c "n" then r ← syntax (expect "ull" t); Parsed (VNull, r)
        else if Ascii.eqb c "t" then r ← syntax (expect "rue" t); Parsed (VBool true, r)
        else if Ascii.eqb c "f" then r ← syntax (expect "alse" t); Parsed (VBool false, r)
        else if Ascii.eqb c dq then '(x, r) ← parse_chars None t; Parsed (VStr x, r)
        else if Ascii.eqb c "[" then
          match skip_ws t with
          | String d r =>
              if Ascii.eqb d "]" then Parsed (VArr [], r)
              else '(l, r') ← parse_elements f t; Parsed (VArr l, r')
          | EmptyString => Invalid
          end
        else if Ascii.eqb c "{" then
          match skip_ws t with
          | String d r =>
              if Ascii.eqb d "}" then Parsed (VObj ∅, r)
              else '(o, r') ← parse_members f ∅ t; Parsed (VObj o, r')
          | EmptyString => Invalid
          end
        else parse_number (String c t)
    end.
Proof. reflexivity. Qed.

Lemma bind_Parsed {A B} (m : parsed A) (k : A → parsed B) b :
  m ≫= k = Parsed b → ∃ a, m = Parsed a ∧ k a = Parsed b.
Proof.
  destruct m as [a|a| |]; [|simpl; by destruct (k a)|done..]. intros H. by exists a.
Qed.

Lemma safe_int_opp n : safe_int (- n) = safe_int n.
Proof. unfold safe_int. by rewrite Z.abs_opp. Qed.

Lemma parse_unsigned_safe neg s v r :
  parse_unsigned neg s = Parsed (v, r) → Safe v.
Proof.
  unfold parse_unsigned. destruct (span_digits s) as [ip s2].
  destruct (negb (nonempty ip) || leading_zero ip); [done|].
  intros ([fp s3] & _ & H)%bind_Parsed. apply bind_Parsed in H as ([e s4] & _ & H).
  cbn zeta in H. destruct (overflows _ _); [done|].
  destruct (scale _ _) as [m|]; [|done]. destruct (safe_int m) eqn:E; [|done].
  injection H as <- _. constructor. destruct neg; by rewrite ?safe_int_opp.
Qed.

Lemma parse_number_safe s v r : parse_number s = Parsed (v, r) → Safe v.
Proof.
  unfold parse_number. destruct s as [|c t]; [done|].
  destruct (Ascii.eqb c "-"); apply parse_unsigned_safe.
Qed.

(** Every value that the parser returns is a value of the model. *)
Lemma parse_safe fuel :
  (∀ s v r, parse_value fuel s = Parsed (v, r) → Safe v)
  ∧ (∀ s l r, parse_elements fuel s = Parsed (l, r) → Forall Safe l)
  ∧ (∀ acc s o r,
       map_Forall (λ _, Safe) acc → parse_members fuel acc s = Parsed (o, r) →
       map_Forall (λ _, Safe) o).
Proof.
  induction fuel as [|f (IHv & IHe & IHm)]; [done|]. split; [|split].
  - intros s v r. rewrite parse_value_step.
    destruct (skip_ws s) as [|c t]; [done|].
    repeat match goal with |- context [if ?b then _ else _] => destruct b end.
    + intros (? & _ & [= <- _])%bind_Parsed. constructor.
    + intros (? & _ & [= <- _])%bind_Parsed. constructor.
    + intros (? & _ & [= <- _])%bind_Parsed. constructor.
    + intros ([] & _ & [= <- _])%bind_Parsed. constructor.
    + destruct (skip_ws t) as [|d r0]; [done|]. destruct (Ascii.eqb d "]").
      * intros [= <- _]. by repeat constructor.
      * intros ([l r'] & Hl & [= <- _])%bind_Parsed. constructor. by eapply IHe.
    + destruct (skip_ws t) as [|d r0]; [done|]. destruct (Ascii.eqb d "}").
      * intros [= <- _]. constructor. apply map_Forall_empty.
      * intros ([o r'] & Ho & [= <- _])%bind_Parsed. constructor.
        eapply IHm; [|exact Ho]. apply map_Forall_empty.
    + apply parse_number_safe.
  - intros s l r. rewrite parse_elements_step.
    intros ([v r0] & Hv & H)%bind_Parsed. apply IHv in Hv.
    destruct (skip_ws r0) as [|d r1]; [done|]. destruct (Ascii.eqb d ",").
    + apply bind_Parsed in H as ([l' r2] & Hl & [= <- _]). constructor; [done|].
      by eapply IHe.
    + destruct (Ascii.eqb d "]"); [|done]. injection H as <- _. by repeat constructor.
  - intros acc s o r Hacc. rewrite parse_members_step.
    intros ([k r0] & _ & H)%bind_Parsed.
    destruct (skip_ws r0) as [|d r1]; [done|]. destruct (Ascii.eqb d ":"); [|done].
    apply bind_Parsed in H as ([v r2] & Hv & H). apply IHv in Hv.
    destruct (skip_ws r2) as [|d' r3]; [done|]. destruct (Ascii.eqb d' ",").
    + eapply IHm; [|exact H]. by apply map_Forall_insert_2.
    + destruct (Ascii.eqb d' "}"); [|done]. injection H as <- _.
      by apply map_Forall_insert_2.
Qed.

Theorem JSON_parse_safe text v : JSON_parse text = Parsed v → Safe v.
Proof.
  unfold JSON_parse. intros ([v' r] & Hv & H)%bind_Parsed.
  destruct (skip_ws r); [|done]. injection H as <-.
  by eapply (proj1 (parse_safe _)).
Qed.

(** ** A value read with a number that overflowed

    Apart from the [Infinity] it holds, it is a value of the model. *)








End JsonFacts.

(** * Facts about the store *)

Module StoreFacts.
Import Json Js Store JsonFacts.

Lemma bind_ok {A B} (m : M A) (k : A → M B) d a d' :
  m d = (Ok a, d') → (m ≫= k) d = k a d'.
Proof. intros H. unfold mbind, M_bind. by rewrite H. Qed.

Lemma bind_throw {A B} (m : M A) (k : A → M B) d e d' :
  m d = (Throw e, d') → (m ≫= k) d = (Throw e, d').
Proof. intros H. unfold mbind, M_bind. by rewrite H. Qed.

Lemma readNotes_eq d :
  readNotes d =
    match d with
    | ReadFails c =>
        if decide (c = "ENOENT") then (Ok (VArr []), d) else (Throw (FsError c), d)
    | Holds raw =>
        match JSON_parse raw with
        | Parsed v | Overflowed v => (Ok v, d)
        | Invalid => (Throw SyntaxError, d)
        | Beyond => (Throw Unmodelled, d)
        end
    end.
Proof.
  unfold readNotes, try_catch, mbind, M_bind, readFile, lift, parse.
  destruct d as [c|raw]; simpl.
  - destruct (decide (c = "ENOENT")) as [->|Hne].
    + by rewrite decide_True.
    + rewrite decide_False; [done|]. by intros [= ?].
  - destruct (JSON_parse raw); [done|done|..]; by rewrite decide_False.
Qed.

Lemma stored_written v :
  Safe v → readNotes (Holds (JSON_stringify 2 v)) = (Ok v, Holds (JSON_stringify 2 v)).
Proof. intros H. by rewrite readNotes_eq, JSON_parse_stringify. Qed.

Lemma readNotes_Parsed raw v :
  JSON_parse raw = Parsed v → readNotes (Holds raw) = (Ok v, Holds raw).
Proof. intros H. by rewrite readNotes_eq, H. Qed.

Lemma readNotes_produces d v :
  readNotes d = (Ok v, d) →
  (d = missing ∧ v = VArr []) ∨ (∃ raw, d = Holds raw ∧ produces (JSON_parse raw) v).
Proof.
  rewrite readNotes_eq. destruct d as [c|raw].
  - destruct (decide (c = "ENOENT")) as [->|]; [|done]. intros [= <-]. by left.
  - destruct (JSON_parse raw) as [v'|v'| |] eqn:E; [| |done..]; intros [= <-]; right;
      exists raw; unfold produces; auto.
Qed.


(** A handler writes after it has read. *)
Lemma writeFile_ok text d v :
  readNotes d = (Ok v, d) → writeFile text d = (Ok tt, Holds text).
Proof.
  rewrite readNotes_eq. destruct d as [c|raw]; [|done]. simpl.
  by destruct (decide (c = "ENOENT")).
Qed.

Lemma readNotes_disk d : (readNotes d).2 = d.
Proof. rewrite readNotes_eq. by repeat case_match. Qed.
End StoreFacts.

(** * Which route a path takes *)

Module RouteFacts.
Import Json Js Store Render Server Notions JsonFacts StoreFacts.

Lemma digit_not_slash c : is_digit c = true → Ascii.eqb c "/" = false.
Proof. destruct c as [[] [] [] [] [] [] [] []]; cbn; intros H; try discriminate H; done. Qed.

Lemma all_digits_noslash ds : all_digits ds = true → noslash ds = true.
Proof.
  induction ds as [|c t IH]; [done|]. simpl. intros [Hc Ht]%andb_true_iff.
  by rewrite digit_not_slash, IH.
Qed.

Lemma digits_all ds : digits ds = true → all_digits ds = true.
Proof. unfold digits. by intros [_ ?]%andb_true_iff. Qed.

Lemma digits_nonempty ds : digits ds = true → nonempty ds = true.
Proof. unfold digits. by intros [? _]%andb_true_iff. Qed.

Lemma span_all_digits ds rest :
  all_digits ds = true → span_digits rest = (EmptyString, rest) →
  span_digits (ds +:+ rest) = (ds, rest).
Proof.
  intros Hd Hr. induction ds as [|c t IH]; [done|]. simpl in *.
  apply andb_true_iff in Hd as [-> Ht]. by rewrite IH.
Qed.

Lemma span_digits_spec s ds r :
  span_digits s = (ds, r) → s = ds +:+ r ∧ all_digits ds = true.
Proof.
  revert ds r. induction s as [|c t IH]; simpl; intros ds r.
  - by intros [= <- <-].
  - destruct (is_digit c) eqn:Hc.
    + destruct (span_digits t) as [d r']. intros [= <- <-].
      destruct (IH d r' eq_refl) as [-> Hd]. simpl. by rewrite Hc, Hd.
    + by intros [= <- <-].
Qed.

Lemma strip_prefix_app pre s : strip_prefix pre (pre +:+ s) = Some s.
Proof. induction pre as [|c pre IH]; [done|]. simpl. by rewrite Ascii.eqb_refl. Qed.

Lemma strip_prefix_Some pre s r : strip_prefix pre s = Some r → s = pre +:+ r.
Proof.
  revert s. induction pre as [|c pre IH]; simpl; intros s.
  - by intros [= ->].
  - destruct s as [|d s]; [done|]. destruct (Ascii.eqb_spec c d) as [->|]; [|done].
    intros H. by rewrite (IH _ H).
Qed.

(** On a path made of a prefix, digits and a suffix, each route pattern
    with that prefix reduces to a comparison of the suffixes. *)
Lemma test_app pre post post' ds :
  digits ds = true → span_digits post = (EmptyString, post) →
  test pre post' (pre +:+ ds +:+ post) = (post =? post')%string.
Proof.
  intros Hd Hp. unfold test. rewrite strip_prefix_app.
  rewrite (span_all_digits ds post (digits_all _ Hd) Hp).
  by rewrite (digits_nonempty _ Hd).
Qed.

Lemma test_inv pre post s :
  test pre post s = true → ∃ ds, digits ds = true ∧ s = pre +:+ ds +:+ post.
Proof.
  unfold test. destruct (strip_prefix pre s) as [rest|] eqn:E; [|done].
  apply strip_prefix_Some in E as ->.
  destruct (span_digits rest) as [ds r] eqn:E. apply span_digits_spec in E as [-> Hd].
  intros [Hne ->%String.eqb_eq]%andb_true_iff. exists ds. split; [|done].
  unfold digits. by rewrite Hne, Hd.
Qed.

Lemma test_other_prefix pre post s : strip_prefix pre s = None → test pre post s = false.
Proof. unfold test. by intros ->. Qed.

Lemma split_word w rest :
  noslash w = true → split (w +:+ String "/" rest) = w :: split rest.
Proof.
  induction w as [|c t IH]; [done|]. simpl.
  intros [Hc Ht]%andb_true_iff. rewrite (IH Ht).
  by destruct (Ascii.eqb c "/").
Qed.

Lemma split_last w : noslash w = true → split w = [w].
Proof.
  induction w as [|c t IH]; [done|]. simpl.
  intros [Hc Ht]%andb_true_iff. rewrite (IH Ht).
  by destruct (Ascii.eqb c "/").
Qed.

Lemma segment_api ds :
  digits ds = true → Number (segment 3 ("/api/notes/" +:+ ds)) = Number (Some ds).
Proof.
  intros Hd. unfold segment.
  change ("/api/notes/" +:+ ds)
    with (EmptyString +:+ String "/" ("api" +:+ String "/" ("notes" +:+ String "/" ds))).
  pose proof (all_digits_noslash _ (digits_all _ Hd)) as Hs.
  rewrite !split_word by done. rewrite split_last by done.
  done.
Qed.

Lemma segment_web ds post :
  digits ds = true →
  Number (segment 2 ("/notes/" +:+ ds +:+ String "/" post)) = Number (Some ds)
  ∧ Number (segment 2 ("/notes/" +:+ ds)) = Number (Some ds).
Proof.
  intros Hd. unfold segment.
  pose proof (all_digits_noslash _ (digits_all _ Hd)) as Hs.
  split.
  - change ("/notes/" +:+ ds +:+ String "/" post)
      with (EmptyString +:+ String "/" ("notes" +:+ String "/" (ds +:+ String "/" post))).
    by rewrite 3!split_word by done.
  - change ("/notes/" +:+ ds)
      with (EmptyString +:+ String "/" ("notes" +:+ String "/" ds)).
    rewrite 2!split_word by done. rewrite split_last by done.
    done.
Qed.

Lemma eqb_by_test pre post (p lit : string) :
  test pre post p = true → test pre post lit = false → (p =? lit)%string = false.
Proof. intros H1 H2. apply String.eqb_neq. intros ->. congruence. Qed.

Lemma route_api_note qs now m ds b :
  digits ds = true →
  server qs now {| method := m; pathname := "/api/notes/" +:+ ds; body := b |} =
    if (m =? "GET")%string then api_get (Number (Some ds))
    else if (m =? "PUT")%string then
      api_update (Number (Some ds))
        {| method := m; pathname := "/api/notes/" +:+ ds; body := b |}
    else if (m =? "DELETE")%string then api_delete (Number (Some ds))
    else not_found.
Proof.
  intros Hd. unfold server, api_routes, web_routes. cbn [pathname method body].
  pose proof (test_app "/api/notes/" EmptyString EmptyString ds Hd eq_refl) as Ht.
  rewrite app_nil_r_s in Ht.
  rewrite (eqb_by_test _ _ _ "/api/notes" Ht eq_refl).
  rewrite !Ht, !segment_api by done.
  rewrite !(test_other_prefix "/notes/") by done.
  replace (startsWith ("/api/notes/" +:+ ds) "/api/notes") with true by done.
  replace ("/api/notes/" +:+ ds =? "/")%string with false by done.
  replace ("/api/notes/" +:+ ds =? "/notes/new")%string with false by done.
  rewrite !andb_false_r. cbn [String.eqb andb].
  by destruct (m =? "GET")%string, (m =? "PUT")%string, (m =? "DELETE")%string,
       (m =? "POST")%string.
Qed.

Lemma route_api_root qs now m b :
  server qs now {| method := m; pathname := "/api/notes"; body := b |} =
    if (m =? "GET")%string then api_list
    else if (m =? "POST")%string then
      api_create now {| method := m; pathname := "/api/notes"; body := b |}
    else not_found.
Proof.
  unfold server, api_routes, web_routes. cbn [pathname method body].
  by destruct (m =? "GET")%string, (m =? "PUT")%string, (m =? "DELETE")%string,
       (m =? "POST")%string.
Qed.

Lemma route_new qs now m b :
  server qs now {| method := m; pathname := "/notes/new"; body := b |} =
    if (m =? "GET")%string then web_new
    else if (m =? "POST")%string then
      web_create qs now {| method := m; pathname := "/notes/new"; body := b |}
    else not_found.
Proof.
  unfold server, api_routes, web_routes. cbn [pathname method body].
  by destruct (m =? "GET")%string, (m =? "POST")%string.
Qed.

Lemma route_note qs now m ds b :
  digits ds = true →
  server qs now {| method := m; pathname := "/notes/" +:+ ds; body := b |} =
    if (m =? "GET")%string then web_view (Number (Some ds)) else not_found.
Proof.
  intros Hd. unfold server, api_routes, web_routes. cbn [pathname method body].
  pose proof (λ post', test_app "/notes/" EmptyString post' ds Hd eq_refl) as Ht.
  rewrite app_nil_r_s in Ht.
  rewrite (eqb_by_test _ _ _ "/notes/new" (Ht EmptyString) eq_refl).
  rewrite !Ht. rewrite !(proj2 (segment_web ds EmptyString Hd)).
  replace (startsWith ("/notes/" +:+ ds) "/api/notes") with false by done.
  replace ("/notes/" +:+ ds =? "/")%string with false by done.
  rewrite !andb_false_r. cbn [String.eqb andb].
  by destruct (m =? "GET")%string, (m =? "POST")%string.
Qed.

Lemma route_edit qs now m ds b :
  digits ds = true →
  server qs now {| method := m; pathname := "/notes/" +:+ ds +:+ "/edit"; body := b |} =
    if (m =? "GET")%string then web_edit_form (Number (Some ds))
    else if (m =? "POST")%string then
      web_edit qs (Number (Some ds))
        {| method := m; pathname := "/notes/" +:+ ds +:+ "/edit"; body := b |}
    else not_found.
Proof.
  intros Hd. unfold server, api_routes, web_routes. cbn [pathname method body].
  pose proof (λ post', test_app "/notes/" "/edit" post' ds Hd eq_refl) as Ht.
  rewrite (eqb_by_test _ _ _ "/notes/new" (Ht "/edit") eq_refl).
  rewrite !Ht. rewrite !(proj1 (segment_web ds "edit" Hd)).
  replace (startsWith ("/notes/" +:+ ds +:+ "/edit") "/api/notes") with false by done.
  replace ("/notes/" +:+ ds +:+ "/edit" =? "/")%string with false by done.
  rewrite !andb_false_r. cbn [String.eqb Ascii.eqb Bool.eqb andb].
  by destruct (m =? "GET")%string, (m =? "POST")%string.
Qed.

Lemma route_delete qs now m ds b :
  digits ds = true →
  server qs now {| method := m; pathname := "/notes/" +:+ ds +:+ "/delete"; body := b |} =
    if (m =? "POST")%string then web_delete (Number (Some ds)) else not_found.
Proof.
  intros Hd. unfold server, api_routes, web_routes. cbn [pathname method body].
  pose proof (λ post', test_app "/notes/" "/delete" post' ds Hd eq_refl) as Ht.
  rewrite (eqb_by_test _ _ _ "/notes/new" (Ht "/delete") eq_refl).
  rewrite !Ht. rewrite !(proj1 (segment_web ds "delete" Hd)).
  replace (startsWith ("/notes/" +:+ ds +:+ "/delete") "/api/notes") with false by done.
  replace ("/notes/" +:+ ds +:+ "/delete" =? "/")%string with false by done.
  rewrite !andb_false_r. cbn [String.eqb Ascii.eqb Bool.eqb andb].
  by destruct (m =? "GET")%string, (m =? "POST")%string.
Qed.
End RouteFacts.

(** * Paths that match no route *)

Module UnmatchedFacts.
Import Json Js Store Render Server Notions JsonFacts StoreFacts RouteFacts.

Lemma last_char_app a b : nonempty b = true → last_char (a +:+ b) = last_char b.
Proof.
  intros Hb. induction a as [|c a IH]; [done|]. simpl. rewrite IH.
  destruct b as [|d b]; [done|]. simpl. by destruct (last_char b).
Qed.

Lemma app_inj_r (a b c : string) : a +:+ c = b +:+ c → a = b.
Proof.
  revert b. induction a as [|x a IH]; intros [|y b] H; simpl in H.
  - done.
  - apply (f_equal String.length) in H. simpl in H. rewrite length_app_s in H. lia.
  - apply (f_equal String.length) in H. simpl in H. rewrite length_app_s in H. lia.
  - injection H as -> H. by rewrite (IH _ H).
Qed.

Lemma all_digits_app a b : all_digits (a +:+ b) = all_digits a && all_digits b.
Proof. induction a as [|c a IH]; [done|]. simpl. by rewrite IH, andb_assoc. Qed.

Lemma noslash_app a b : noslash (a +:+ b) = noslash a && noslash b.
Proof. induction a as [|c a IH]; [done|]. simpl. by rewrite IH, andb_assoc. Qed.

Lemma test_false pre post s :
  (∀ ds, digits ds = true → s ≠ pre +:+ ds +:+ post) → test pre post s = false.
Proof.
  intros H. destruct (test pre post s) eqn:E; [|done].
  apply test_inv in E as (ds & Hd & ->). by destruct (H ds Hd).
Qed.

Lemma eqb_false (a b : string) : a ≠ b → (a =? b)%string = false.
Proof. apply String.eqb_neq. Qed.

(** From [pre +:+ a = pre +:+ b], or such an equation against a literal,
    keep what follows the prefix. *)
Ltac cancel pre H :=
  apply (f_equal (strip_prefix pre)) in H;
  rewrite ?strip_prefix_app in H; simpl in H; injection H as H.

Lemma unmatched_api x :
  digits x = false →
  let p := "/api/notes/" +:+ x in
  (p =? "/api/notes")%string = false ∧ test "/api/notes/" EmptyString p = false.
Proof.
  intros Hx p. split; [done|]. apply test_false. intros ds Hd H. subst p.
  cancel "/api/notes/" H. rewrite app_nil_r_s in H. congruence.
Qed.

Lemma unmatched_edit x :
  digits x = false →
  let p := "/notes/" +:+ x +:+ "/edit" in
  (p =? "/notes/new")%string = false ∧
  test "/notes/" EmptyString p = false ∧
  test "/notes/" "/edit" p = false ∧
  test "/notes/" "/delete" p = false.
Proof.
  intros Hx p. subst p. repeat split.
  - apply eqb_false. intros H. cancel "/notes/" H.
    apply (f_equal String.length) in H. rewrite length_app_s in H. simpl in H. lia.
  - apply test_false. intros ds Hd H. cancel "/notes/" H. rewrite app_nil_r_s in H.
    apply digits_all in Hd. rewrite <- H, all_digits_app, andb_false_r in Hd. done.
  - apply test_false. intros ds Hd H. cancel "/notes/" H. apply app_inj_r in H. congruence.
  - apply test_false. intros ds Hd H. cancel "/notes/" H.
    apply (f_equal last_char) in H. by rewrite !last_char_app in H.
Qed.

Lemma unmatched_delete x :
  digits x = false →
  let p := "/notes/" +:+ x +:+ "/delete" in
  (p =? "/notes/new")%string = false ∧
  test "/notes/" EmptyString p = false ∧
  test "/notes/" "/edit" p = false ∧
  test "/notes/" "/delete" p = false.
Proof.
  intros Hx p. subst p. repeat split.
  - apply eqb_false. intros H. cancel "/notes/" H.
    apply (f_equal String.length) in H. rewrite length_app_s in H. simpl in H. lia.
  - apply test_false. intros ds Hd H. cancel "/notes/" H. rewrite app_nil_r_s in H.
    apply digits_all in Hd. rewrite <- H, all_digits_app, andb_false_r in Hd. done.
  - apply test_false. intros ds Hd H. cancel "/notes/" H.
    apply (f_equal last_char) in H. by rewrite !last_char_app in H.
  - apply test_false. intros ds Hd H. cancel "/notes/" H. apply app_inj_r in H. congruence.
Qed.

Lemma unmatched_note x :
  digits x = false → noslash x = true → x ≠ "new" →
  let p := "/notes/" +:+ x in
  (p =? "/notes/new")%string = false ∧
  test "/notes/" EmptyString p = false ∧
  test "/notes/" "/edit" p = false ∧
  test "/notes/" "/delete" p = false.
Proof.
  intros Hx Hs Hnew p. subst p. repeat split.
  - apply eqb_false. intros H. by cancel "/notes/" H.
  - apply test_false. intros ds Hd H. cancel "/notes/" H. rewrite app_nil_r_s in H. congruence.
  - apply test_false. intros ds Hd H. cancel "/notes/" H.
    rewrite H, noslash_app, andb_false_r in Hs. done.
  - apply test_false. intros ds Hd H. cancel "/notes/" H.
    rewrite H, noslash_app, andb_false_r in Hs. done.
Qed.
End UnmatchedFacts.

(** * What each handler does on a store of notes *)

Module HandlerFacts.
Import Json Js Store Render Server Notions JsonFacts StoreFacts RouteFacts.

(** Unfold the monad of the handlers. *)
Ltac run :=
  unfold mbind, M_bind, mret, M_ret, lift, writeNotes; cbn beta iota.

Lemma same_id_number x z : same_id x (Some z) = Ok (strict_eq x (Some z)).
Proof. by destruct x as [[| | | | | |[]]|]. Qed.

Lemma same_id_safe (o : gmap string value) id :
  Safe (VObj o) → same_id (o !! "id") id = Ok (strict_eq (o !! "id") id).
Proof.
  intros Ho%Safe_members. destruct (o !! "id") as [x|] eqn:E; [|by destruct id].
  apply Ho in E. destruct E; by destruct id.
Qed.

Lemma find_objects id l :
  Forall is_object l → Forall Safe l →
  find id l = Ok (snd <$> first_with id l)
  ∧ findIndex id l = Ok (fst <$> first_with id l).
Proof.
  unfold first_with. induction 1 as [|n l [o ->] _ IH]; [done|].
  intros [Ho [IH1 IH2]%IH]%Forall_cons.
  cbn [find findIndex list_find get mbind result_bind has_id].
  rewrite (same_id_safe o id Ho). cbn [mbind result_bind].
  destruct (strict_eq (o !! "id") id) eqn:E.
  - by rewrite decide_True.
  - rewrite decide_False by done. rewrite IH1, IH2. cbn.
    split; f_equal; by destruct (list_find _ l) as [[]|].
Qed.

Lemma api_list_ok d v : readNotes d = (Ok v, d) → api_list d = (Ok (json 200 v), d).
Proof. intros H. unfold api_list. run. by rewrite H. Qed.

Lemma api_get_ok id d l :
  readNotes d = (Ok (VArr l), d) → Forall is_object l → Forall Safe l →
  api_get id d =
    (Ok (match first_with id l with
         | Some (_, n) => json 200 n
         | None => json 404 note_not_found
         end), d).
Proof.
  intros H Hl Hs. unfold api_get. run. rewrite H. cbn.
  rewrite (proj1 (find_objects id l Hl Hs)). by destruct (first_with id l) as [[]|].
Qed.

Lemma first_with_Some id l i n :
  first_with id l = Some (i, n) →
  l !! i = Some n ∧ has_id id n = true
  ∧ ∀ j n', (j < i)%nat → l !! j = Some n' → has_id id n' = false.
Proof.
  unfold first_with. intros (Hi & Hn & Hlt)%list_find_Some. repeat split; [done..|].
  intros j n' Hj Hn'. specialize (Hlt j n' Hn' Hj). by destruct (has_id id n').
Qed.

Lemma first_with_None id l :
  first_with id l = None ↔ Forall (λ n, has_id id n = false) l.
Proof.
  unfold first_with. rewrite list_find_None. apply Forall_iff. intros n.
  by destruct (has_id id n).
Qed.

Lemma parse_ok raw v : JSON_parse raw = Parsed v → parse raw = Ok v.
Proof. unfold parse. by intros ->. Qed.

Lemma api_create_ok now req d l data t c :
  readNotes d = (Ok (VArr l), d) →
  JSON_parse (body req) = Parsed data →
  get data "title" = Ok t → get data "content" = Ok c →
  api_create now req d =
    (Ok (json 201 (new_note now t c)),
     Holds (JSON_stringify 2 (VArr (l ++ [new_note now t c])))).
Proof.
  intros H Hb Ht Hc. unfold api_create. run.
  rewrite (parse_ok _ _ Hb), H, Ht, Hc. cbn [array_of].
  by rewrite (writeFile_ok _ _ _ H).
Qed.

Lemma api_update_absent id req d l data :
  readNotes d = (Ok (VArr l), d) → Forall is_object l → Forall Safe l →
  parse (body req) = Ok data → first_with id l = None →
  api_update id req d = (Ok (json 404 note_not_found), d).
Proof.
  intros H Hl Hs Hb E. unfold api_update. run. rewrite Hb, H. cbn.
  by rewrite (proj2 (find_objects id l Hl Hs)), E.
Qed.


Lemma api_update_ok id req d l data fields i o :
  readNotes d = (Ok (VArr l), d) → Forall is_object l → Forall Safe l →
  JSON_parse (body req) = Parsed data → spread data = Ok fields →
  first_with id l = Some (i, VObj o) →
  let merged := VObj (merge o fields) in
  api_update id req d =
    (Ok (json 200 merged), Holds (JSON_stringify 2 (VArr (<[i:=merged]> l)))).
Proof.
  intros H Hl Hs Hb Hf E. unfold api_update. run. rewrite (parse_ok _ _ Hb), H. cbn.
  rewrite (proj2 (find_objects id l Hl Hs)), E. cbn.
  apply first_with_Some in E as (-> & _). cbn. by rewrite Hf, (writeFile_ok _ _ _ H).
Qed.

Lemma api_delete_ok id d l :
  readNotes d = (Ok (VArr l), d) → Forall is_object l → Forall Safe l →
  api_delete id d =
    match first_with id l with
    | Some (i, n) => (Ok (json 200 n), Holds (JSON_stringify 2 (VArr (delete i l))))
    | None => (Ok (json 404 note_not_found), d)
    end.
Proof.
  intros H Hl Hs. unfold api_delete. run. rewrite H. cbn.
  rewrite (proj2 (find_objects id l Hl Hs)).
  destruct (first_with id l) as [[i n]|] eqn:E; [|done]. cbn.
  apply first_with_Some in E as (-> & _). by rewrite (writeFile_ok _ _ _ H).
Qed.

Lemma not_found_ok d :
  not_found d = (Ok (html 404 (layout "Not Found" "<div>404 Not Found</div>")), d).
Proof. reflexivity. Qed.

Lemma note_missing_ok d :
  note_missing d = (Ok (html 404 (layout "Not Found" "<div>Note not found</div>")), d).
Proof. reflexivity. Qed.

Lemma web_create_ok qs now req d l :
  readNotes d = (Ok (VArr l), d) →
  let data := parseBody qs req in
  let note := new_note now (data !! "title") (data !! "content") in
  web_create qs now req d =
    (Ok (redirect "/"), Holds (JSON_stringify 2 (VArr (l ++ [note])))).
Proof.
  intros H. unfold web_create. run. rewrite H. cbn [array_of].
  by rewrite (writeFile_ok _ _ _ H).
Qed.

Lemma web_view_missing id d l :
  readNotes d = (Ok (VArr l), d) → Forall is_object l → Forall Safe l →
  first_with id l = None →
  web_view id d =
    (Ok (html 404 (layout "Not Found" "<div>Note not found</div>")), d).
Proof.
  intros H Hl Hs E. unfold web_view. run. rewrite H. cbn.
  by rewrite (proj1 (find_objects id l Hl Hs)), E.
Qed.

Lemma web_edit_ok qs id req d l i o :
  readNotes d = (Ok (VArr l), d) → Forall is_object l → Forall Safe l →
  first_with id l = Some (i, VObj o) →
  let merged := VObj (merge o (parseBody qs req)) in
  web_edit qs id req d =
    (Ok (redirect ("/notes/" +:+ Number_text id)),
     Holds (JSON_stringify 2 (VArr (<[i:=merged]> l)))).
Proof.
  intros H Hl Hs E. unfold web_edit. run. rewrite H. cbn.
  rewrite (proj2 (find_objects id l Hl Hs)), E. cbn.
  apply first_with_Some in E as (-> & _). cbn.
  by rewrite (writeFile_ok _ _ _ H), app_nil_r_s.
Qed.

Lemma web_edit_missing qs id req d l :
  readNotes d = (Ok (VArr l), d) → Forall is_object l → Forall Safe l →
  first_with id l = None →
  web_edit qs id req d
  = (Ok (html 404 (layout "Not Found" "<div>Note not found</div>")), d).
Proof.
  intros H Hl Hs E. unfold web_edit. run. rewrite H. cbn.
  by rewrite (proj2 (find_objects id l Hl Hs)), E.
Qed.

Lemma web_delete_ok id d l :
  readNotes d = (Ok (VArr l), d) → Forall is_object l → Forall Safe l →
  web_delete id d =
    match first_with id l with
    | Some (i, n) => (Ok (redirect "/"), Holds (JSON_stringify 2 (VArr (delete i l))))
    | None => (Ok (html 404 (layout "Not Found" "<div>Note not found</div>")), d)
    end.
Proof.
  intros H Hl Hs. unfold web_delete. run. rewrite H. cbn.
  rewrite (proj2 (find_objects id l Hl Hs)).
  destruct (first_with id l) as [[i n]|] eqn:E; [|done]. cbn.
  by rewrite (writeFile_ok _ _ _ H).
Qed.
End HandlerFacts.

(** * Notes, ids and positions *)

Module NoteFacts.
Import Json Js Store Render Server Notions JsonFacts StoreFacts RouteFacts HandlerFacts.

Lemma all_digits_uint u : all_digits (NilEmpty.string_of_uint u) = true.
Proof. induction u; simpl; auto. Qed.

(** The decimal text of a number of the model that is not negative is a
    run of digits that [Number] reads back. *)
Lemma Number_toString_digits n :
  (0 ≤ n)%Z → safe_int n = true →
  digits (Number_toString n) = true ∧ Number (Some (Number_toString n)) = Some n.
Proof.
  intros Hn Hsafe. cut (digits (Number_toString n) = true
                        ∧ digits_value (Number_toString n) = n).
  { intros [Hd Hv]. split; [done|]. simpl. by rewrite Hd, Hv, Hsafe. }
  destruct n as [|p|p]; [done| |lia].
  rewrite (proj1 (Number_toString_pos p)).
  split; [|apply digits_value_pos]. unfold digits.
  by rewrite (proj1 (to_uint_shape p)), all_digits_uint.
Qed.

Lemma has_id_numeric z n : has_id (Some z) n = true ↔ numeric_id n = Some z.
Proof.
  destruct n as [| | | | |o|]; simpl; try done.
  destruct (o !! "id") as [[]|]; simpl; try done.
  rewrite Z.eqb_eq. split; congruence.
Qed.

Lemma has_id_Some id n : has_id id n = true → ∃ z, id = Some z ∧ numeric_id n = Some z.
Proof.
  destruct id as [z|].
  - intros H. exists z. split; [done|]. by apply has_id_numeric.
  - destruct n as [| | | | |o|]; simpl; try done. by destruct (o !! "id") as [[]|].
Qed.

Lemma has_id_of z n : has_id (Some z) n = true ↔ id_of n = Some (VNum z).
Proof.
  destruct n as [| | | | |o|]; simpl; try done.
  destruct (o !! "id") as [[| |y| | | |]|]; simpl; try done.
  rewrite Z.eqb_eq. split; congruence.
Qed.

Lemma first_with_None_ids z l : first_with (Some z) l = None ↔ VNum z ∉ ids l.
Proof.
  rewrite first_with_None, Forall_forall. unfold ids. rewrite list_elem_of_omap.
  split.
  - intros H (n & Hn & Hid). apply has_id_of in Hid. specialize (H n Hn). congruence.
  - intros H n Hn. destruct (has_id (Some z) n) eqn:E; [|done].
    destruct H. exists n. by rewrite <- has_id_of.
Qed.

Lemma new_note_fields now t c :
  ∃ o, new_note now t c = VObj o
       ∧ o !! "id" = Some (VNum now) ∧ o !! "title" = t ∧ o !! "content" = c.
Proof.
  eexists. split; [reflexivity|]. unfold field.
  destruct t, c; rewrite ?lookup_insert_ne, ?lookup_insert_eq, ?lookup_singleton_eq by done;
    repeat split; by rewrite ?lookup_singleton_ne by done.
Qed.

Lemma new_note_has_id now t c : has_id (Some now) (new_note now t c) = true.
Proof.
  destruct (new_note_fields now t c) as (o & -> & Hid & _). simpl.
  rewrite Hid. simpl. apply Z.eqb_refl.
Qed.

Lemma new_note_numeric now t c : numeric_id (new_note now t c) = Some now.
Proof. apply has_id_numeric, new_note_has_id. Qed.


(** ** Values of the model *)

Lemma Safe_field k x (o : gmap string value) :
  Safe_opt x → map_Forall (λ _, Safe) o → map_Forall (λ _, Safe) (field k x o).
Proof. destruct x; simpl; [|done]. intros. by apply map_Forall_insert_2. Qed.

Lemma Safe_new_note now t c :
  safe_int now = true → Safe_opt t → Safe_opt c → Safe (new_note now t c).
Proof.
  intros Hn Ht Hc. constructor. do 2 (apply Safe_field; [done|]).
  apply map_Forall_singleton. by constructor.
Qed.

Lemma Safe_get data k x : Safe data → get data k = Ok x → Safe_opt x.
Proof.
  destruct data as [| | | | |o|]; simpl; intros Hs [= <-]; try done.
  apply Safe_members in Hs. destruct (o !! k) as [v|] eqn:E; [|done]. by apply (Hs k v).
Qed.

Lemma Safe_indexed l : Forall Safe l → map_Forall (λ _, Safe) (indexed l).
Proof.
  intros Hl k v Hk. unfold indexed in Hk. apply elem_of_list_to_map_2 in Hk.
  apply elem_of_lookup_imap_1 in Hk as (i & x & [= -> ->] & Hx).
  by eapply Forall_lookup_1.
Qed.

Lemma Safe_chars s : Forall Safe (chars s).
Proof. induction s; simpl; repeat constructor; done. Qed.

Lemma Safe_spread data fields :
  Safe data → spread data = Ok fields → map_Forall (λ _, Safe) fields.
Proof.
  destruct data as [| | |s|l|o|]; simpl; intros Hs; try (intros [= <-]).
  - apply map_Forall_empty.
  - apply map_Forall_empty.
  - apply map_Forall_empty.
  - destruct (ascii_only s); [|done]. intros [= <-]. apply Safe_indexed, Safe_chars.
  - by apply Safe_indexed, Safe_elements.
  - by apply Safe_members.
  - apply map_Forall_empty.
Qed.

Lemma Safe_merge (a b : gmap string value) :
  map_Forall (λ _, Safe) a → map_Forall (λ _, Safe) b → Safe (VObj (merge a b)).
Proof. intros Ha Hb. constructor. unfold merge. by apply map_Forall_union_2. Qed.

Lemma Safe_form qs req : map_Forall (λ _, Safe) (parseBody qs req).
Proof.
  unfold parseBody. apply map_Forall_fmap. intros k [s|l] _; simpl.
  - constructor.
  - constructor. apply Forall_fmap, Forall_true. constructor.
Qed.

Lemma Safe_form_field qs req k : Safe_opt (parseBody qs req !! k).
Proof.
  destruct (parseBody qs req !! k) as [v|] eqn:E; [|done]. by apply (Safe_form qs req k).
Qed.

Lemma holds_safe d l : holds_notes d l → Forall Safe l.
Proof. by intros (_ & _ & H). Qed.

Lemma holds_intro raw l :
  JSON_parse raw = Parsed (VArr l) → Forall is_object l → holds_notes (Holds raw) l.
Proof.
  intros H Hl. split; [by apply readNotes_Parsed|]. split; [done|].
  by apply Safe_elements, (JSON_parse_safe raw).
Qed.

Lemma holds_written l :
  Forall is_object l → Forall Safe l → holds_notes (Holds (JSON_stringify 2 (VArr l))) l.
Proof. intros H Hs. split; [|done]. apply stored_written. by constructor. Qed.

Lemma holds_object d l i n : holds_notes d l → l !! i = Some n → ∃ o, n = VObj o ∧ Safe n.
Proof.
  intros H Hi. pose proof (holds_safe _ _ H) as Hs. destruct H as (_ & Hl & _).
  eapply Forall_lookup_1 in Hl; [|exact Hi]. eapply Forall_lookup_1 in Hs; [|exact Hi].
  destruct Hl as [o ->]. eauto.
Qed.

(** ** Identifiers and positions *)

Lemma first_with_snoc id l n :
  first_with id l = None → has_id id n = true →
  first_with id (l ++ [n]) = Some (length l, n).
Proof.
  intros Hl Hn. unfold first_with in *. rewrite list_find_app_r by done.
  simpl. by rewrite decide_True.
Qed.

(** [{ ...a, ...b }] read field by field. *)
Lemma lookup_merge (a b : gmap string value) k :
  merge a b !! k = match b !! k with Some v => Some v | None => a !! k end.
Proof. unfold merge. rewrite lookup_union. by destruct (b !! k), (a !! k). Qed.








Lemma absent_after_delete id l i n :
  l !! i = Some n →
  (∀ j n', l !! j = Some n' → has_id id n' = true → j = i) →
  first_with id (delete i l) = None.
Proof.
  intros Hi Huniq. apply first_with_None, Forall_lookup. intros j n' Hj.
  rewrite list_lookup_delete in Hj. destruct (has_id id n') eqn:E; [|done].
  specialize (Huniq _ _ Hj E). destruct (decide (j < i)); lia.
Qed.

Lemma absent_after_insert id l i m :
  has_id id m = false →
  (∀ j n', l !! j = Some n' → has_id id n' = true → j = i) →
  first_with id (<[i:=m]> l) = None.
Proof.
  intros Hm Huniq. apply first_with_None, Forall_lookup. intros j n' Hj.
  destruct (decide (i = j)) as [->|Hne].
  - apply list_lookup_insert_Some in Hj as [(_ & <- & _)|[? _]]; done.
  - rewrite list_lookup_insert_ne in Hj by done.
    destruct (has_id id n') eqn:E; [|done]. by specialize (Huniq _ _ Hj E).
Qed.

Lemma first_with_intro id l i n :
  l !! i = Some n → has_id id n = true →
  (∀ j n', (j < i)%nat → l !! j = Some n' → has_id id n' = false) →
  first_with id l = Some (i, n).
Proof.
  intros Hi Hn Hlt. apply list_find_Some. repeat split; [done..|].
  intros j y Hy Hj. rewrite (Hlt j y Hj Hy). done.
Qed.
End NoteFacts.

(** * The properties of the specification *)

Import Json Js Store Render Server Notions Examples.
Import JsonFacts StoreFacts RouteFacts UnmatchedFacts HandlerFacts NoteFacts.

Lemma Number_Some ds z : Number (Some ds) = Some z → digits ds = true.
Proof. simpl. by destruct (digits ds). Qed.

(** The scenario of the specification, run from a disk without the file
    and with the clock at 1700000000000: the listing is empty; a create
    answers 201 with the new note; fetching its id returns it; deleting it
    returns it again; fetching it afterwards answers 404. *)
Example scenario :
  let now := 1700000000000%Z in
  let note := new_note now (Some (VStr "T")) (Some (VStr "C")) in
  let ask m p b := server no_form now {| method := m; pathname := p; body := b |} in
  ∃ d1 d2,
    ask "GET" "/api/notes" EmptyString missing = (Ok (json 200 (VArr [])), missing)
    ∧ ask "POST" "/api/notes" tc_body missing = (Ok (json 201 note), d1)
    ∧ ask "GET" "/api/notes/1700000000000" EmptyString d1 = (Ok (json 200 note), d1)
    ∧ ask "DELETE" "/api/notes/1700000000000" EmptyString d1 = (Ok (json 200 note), d2)
    ∧ ask "GET" "/api/notes/1700000000000" EmptyString d2
      = (Ok (json 404 note_not_found), d2)
    ∧ ask "GET" "/api/notes" EmptyString d2 = (Ok (json 200 (VArr [])), d2).
Proof.
  eexists _, _. split; [|split; [|split; [|split; [|split]]]].
  - vm_compute. reflexivity.
  - vm_compute. reflexivity.
  - vm_compute. reflexivity.
  - vm_compute. reflexivity.
  - vm_compute. reflexivity.
  - vm_compute. reflexivity.
Qed.

(** C6. [readNotes] answers the empty array when reading the file fails
    with [ENOENT]; every other failure of the read, and the [SyntaxError]
    of [JSON.parse], reaches the caller as it was thrown; and a successful
    result is either that fallback or the parsed content of the file (read
    with [Infinity] where a number of the file is too large for a
    double). *)
Theorem readNotes_fallback :
  readNotes missing = (Ok (VArr []), missing)
  ∧ (∀ c, c ≠ "ENOENT" → readNotes (ReadFails c) = (Throw (FsError c), ReadFails c))
  ∧ (∀ raw, JSON_parse raw = Invalid → readNotes (Holds raw) = (Throw SyntaxError, Holds raw))
  ∧ (∀ d v, readNotes d = (Ok v, d) →
       (d = missing ∧ v = VArr [])
       ∨ (∃ raw, d = Holds raw
                 ∧ (JSON_parse raw = Parsed v ∨ JSON_parse raw = Overflowed v))).
Proof.
  split; [reflexivity|]. split; [|split].
  - intros c Hc. rewrite readNotes_eq. by rewrite decide_False.
  - intros raw Hraw. by rewrite readNotes_eq, Hraw.
  - intros d v. apply readNotes_produces.
Qed.

Lemma readNotes_fallback_witness :
  readNotes (ReadFails "EACCES") = (Throw (FsError "EACCES"), ReadFails "EACCES")
  ∧ readNotes (Holds "[1,") = (Throw SyntaxError, Holds "[1,")
  ∧ ((Holds "[]" = missing ∧ VArr [] = VArr [])
     ∨ (∃ raw, Holds "[]" = Holds raw
               ∧ (JSON_parse raw = Parsed (VArr []) ∨ JSON_parse raw = Overflowed (VArr [])))).
Proof.
  destruct readNotes_fallback as (_ & Hread & Hparse & Hok).
  split; [|split].
  - apply Hread. discriminate.
  - apply Hparse. reflexivity.
  - apply Hok. reflexivity.
Defined.




(** C4 (counterexample). No stored note has the id 42.  [PUT
    /api/notes/42] with an empty body, or with a body that is not JSON,
    ends in the [SyntaxError] of [JSON.parse], thrown before the store is
    read: the request gets no reply, and so no 404. *)
Lemma missing_id_404_counterexample :
  holds_notes sample_disk sample
  ∧ first_with (Number (Some "42")) sample = None
  ∧ server no_form 0 {| method := "PUT"; pathname := "/api/notes/42"; body := EmptyString |}
      sample_disk
    = (Throw SyntaxError, sample_disk)
  ∧ server no_form 0 {| method := "PUT"; pathname := "/api/notes/42"; body := "{title}" |}
      sample_disk
    = (Throw SyntaxError, sample_disk).
Proof.
  split; [|split; [|split]].
  - apply holds_intro; [vm_compute; reflexivity|]. repeat constructor. by eexists.
  - reflexivity.
  - vm_compute. reflexivity.
  - vm_compute. reflexivity.
Qed.

(** C4 (amended). When no stored note has the number in the path as its
    [id], the API answers GET and DELETE on [/api/notes/<id>], and PUT with
    a body that [JSON.parse] accepts, with status 404 and the JSON text of
    [{ error: 'Note not found' }], and the disk is left as it was.
    Whatever its body, a PUT for such an id leaves the disk as it was. *)
Theorem missing_id_404 (qs : string → gmap string form_value) (now : Z)
    (d : disk) (l : list value) (ds b : string) :
  holds_notes d l → digits ds = true → first_with (Number (Some ds)) l = None →
  let path := "/api/notes/" +:+ ds in
  let reply := (Ok (json 404 note_not_found), d) in
  server qs now {| method := "GET"; pathname := path; body := b |} d = reply
  ∧ (∀ data, parse b = Ok data →
       server qs now {| method := "PUT"; pathname := path; body := b |} d = reply)
  ∧ (server qs now {| method := "PUT"; pathname := path; body := b |} d).2 = d
  ∧ server qs now {| method := "DELETE"; pathname := path; body := b |} d = reply
  ∧ payload (json 404 note_not_found)
    = cat ["{"; q; "error"; q; ":"; q; "Note not found"; q; "}"].
Proof.
  intros (Hd & Hl & Hs) Hds Hnone path reply. subst path reply.
  rewrite !route_api_note by done. cbn [String.eqb Ascii.eqb Bool.eqb].
  rewrite (api_get_ok _ _ _ Hd Hl Hs), (api_delete_ok _ _ _ Hd Hl Hs), Hnone.
  repeat split.
  - intros data Hb. by apply (api_update_absent _ (Build_request _ _ b) _ l data).
  - destruct (parse b) as [data|e] eqn:Hb.
    + by rewrite (api_update_absent _ (Build_request _ _ b) _ l data).
    + unfold api_update. run. cbn [body]. by rewrite Hb.
Qed.

Lemma missing_id_404_witness :
  server no_form 0 {| method := "PUT"; pathname := "/api/notes/42"; body := xy_body |}
    sample_disk
  = (Ok (json 404 note_not_found), sample_disk).
Proof.
  refine (proj1 (proj2 (missing_id_404 no_form 0 sample_disk sample "42" xy_body _ _ _))
            (VObj xy_fields) _).
  - apply holds_intro; [vm_compute; reflexivity|]. repeat constructor. by eexists.
  - reflexivity.
  - reflexivity.
  - vm_compute. reflexivity.
Defined.

(** C8 (counterexample). In [/notes/new] the segment [new] stands where
    [/notes/<id>] has the id and is not a run of digits, yet the path is a
    route: [GET] is answered by the creation form with status 200, and
    [POST] writes the store. *)
Lemma unmatched_segment_counterexample :
  digits "new" = false
  ∧ (∃ r, server no_form 0
         {| method := "GET"; pathname := "/notes/new"; body := EmptyString |} missing
       = (Ok r, missing) ∧ status r = 200%nat)
  ∧ (server no_form 0
       {| method := "POST"; pathname := "/notes/new"; body := EmptyString |} missing).2
    ≠ missing.
Proof.
  split; [reflexivity|]. split.
  - eexists. split; reflexivity.
  - vm_compute. discriminate.
Qed.

(** C8 (amended). A path that has, where a route expects the id, a segment
    that is not one or more decimal digits matches no route, whatever the
    method, unless the path is [/notes/new]: the answer is the catch-all
    page with status 404 and the disk is left as it was.  The id routes
    are [/api/notes/<x>], [/notes/<x>/edit], [/notes/<x>/delete] and
    [/notes/<x>]; in the last one [x] is a single segment other than
    [new]. *)
Theorem unmatched_segment_404 (qs : string → gmap string form_value) (now : Z)
    (m x b p : string) (d : disk) :
  digits x = false →
  p = "/api/notes/" +:+ x
  ∨ p = "/notes/" +:+ x +:+ "/edit"
  ∨ p = "/notes/" +:+ x +:+ "/delete"
  ∨ (p = "/notes/" +:+ x ∧ noslash x = true ∧ x ≠ "new") →
  server qs now {| method := m; pathname := p; body := b |} d
  = (Ok (html 404 (layout "Not Found" "<div>404 Not Found</div>")), d).
Proof.
  intros Hx Hp. rewrite <- not_found_ok. f_equal.
  unfold server, api_routes, web_routes. cbn [pathname method body].
  destruct Hp as [->|[->|[->|(-> & Hs & Hnew)]]].
  - destruct (unmatched_api x Hx) as [-> ->].
    rewrite !(test_other_prefix "/notes/") by done.
    replace (startsWith ("/api/notes/" +:+ x) "/api/notes") with true by done.
    replace ("/api/notes/" +:+ x =? "/")%string with false by done.
    replace ("/api/notes/" +:+ x =? "/notes/new")%string with false by done.
    by rewrite !andb_false_r.
  - destruct (unmatched_edit x Hx) as (-> & -> & -> & ->).
    replace (startsWith ("/notes/" +:+ x +:+ "/edit") "/api/notes") with false by done.
    replace ("/notes/" +:+ x +:+ "/edit" =? "/")%string with false by done.
    by rewrite !andb_false_r.
  - destruct (unmatched_delete x Hx) as (-> & -> & -> & ->).
    replace (startsWith ("/notes/" +:+ x +:+ "/delete") "/api/notes") with false by done.
    replace ("/notes/" +:+ x +:+ "/delete" =? "/")%string with false by done.
    by rewrite !andb_false_r.
  - destruct (unmatched_note x Hx Hs Hnew) as (-> & -> & -> & ->).
    replace (startsWith ("/notes/" +:+ x) "/api/notes") with false by done.
    replace ("/notes/" +:+ x =? "/")%string with false by done.
    by rewrite !andb_false_r.
Qed.

Lemma unmatched_segment_404_witness :
  server no_form 0 {| method := "DELETE"; pathname := "/api/notes/12a"; body := EmptyString |}
    sample_disk
  = (Ok (html 404 (layout "Not Found" "<div>404 Not Found</div>")), sample_disk).
Proof.
  apply (unmatched_segment_404 no_form 0 "DELETE" "12a" EmptyString "/api/notes/12a").
  - reflexivity.
  - left. reflexivity.
Defined.

(** C1 (counterexample). Three create requests through [POST /api/notes]
    on a store that holds a note with id 5.  With the clock at 5 and the
    title [x], the reply gives the new note the id 5, which was in use,
    and [GET /api/notes/5] then returns the old note, whose title is [a].
    With the body [null], which is JSON, the handler throws a [TypeError]
    and nothing is created.  With the title [1e999], a number too large
    for a double, the note is stored with the title [null], and that is
    the title [GET /api/notes/1000] returns. *)
Lemma create_then_get_counterexample :
  holds_notes old_disk [old_note]
  ∧ has_id (Some 5%Z) old_note = true
  ∧ (∃ d',
       server no_form 5 {| method := "POST"; pathname := "/api/notes"; body := xy_body |}
         old_disk
       = (Ok (json 201 (new_note 5 (Some (VStr "x")) (Some (VStr "y")))), d')
       ∧ server no_form 6
           {| method := "GET"; pathname := "/api/notes/5"; body := EmptyString |} d'
         = (Ok (json 200 old_note), d')
       ∧ get old_note "title" = Ok (Some (VStr "a"))
       ∧ VStr "a" ≠ VStr "x")
  ∧ (JSON_parse "null" = Parsed VNull
     ∧ server no_form 1000 {| method := "POST"; pathname := "/api/notes"; body := "null" |}
         old_disk
       = (Throw TypeError, old_disk))
  ∧ (∃ d',
       JSON_parse huge_body
       = Overflowed (VObj {[ "title" := VInf false; "content" := VStr "y" ]})
       ∧ server no_form 1000
           {| method := "POST"; pathname := "/api/notes"; body := huge_body |} old_disk
         = (Ok (json 201 (new_note 1000 (Some (VInf false)) (Some (VStr "y")))), d')
       ∧ server no_form 1001
           {| method := "GET"; pathname := "/api/notes/1000"; body := EmptyString |} d'
         = (Ok (json 200 (new_note 1000 (Some VNull) (Some (VStr "y")))), d')).
Proof.
  split; [|split; [|split; [|split]]].
  - apply holds_intro; [vm_compute; reflexivity|]. repeat constructor. by eexists.
  - reflexivity.
  - eexists. split; [|split; [|split]].
    + vm_compute. reflexivity.
    + vm_compute. reflexivity.
    + reflexivity.
    + discriminate.
  - split.
    + vm_compute. reflexivity.
    + vm_compute. reflexivity.
  - eexists. split; [|split].
    + vm_compute. reflexivity.
    + vm_compute. reflexivity.
    + vm_compute. reflexivity.
Qed.

(** C1 (amended). When the clock reads a positive value that is not the id
    of a stored note, a create request through either route stores a note
    with that value as its id, and [GET /api/notes/<id>] afterwards answers
    200 with that note: its [title] and [content] are the ones submitted
    (the properties of the JSON body, the fields of the form), and the text
    of the reply parses back to it.  The JSON body is any value but [null]
    and holds no number too large for a double. *)
Theorem create_then_get (qs : string → gmap string form_value) (now later : Z)
    (d : disk) (l : list value) (b b' : string) :
  holds_notes d l → (0 < now < 2 ^ 53)%Z → first_with (Some now) l = None →
  let fetch :=
    {| method := "GET"; pathname := "/api/notes/" +:+ Number_toString now; body := b' |} in
  (∀ data,
     JSON_parse b = Parsed data → data ≠ VNull →
     ∃ t c d',
       get data "title" = Ok t ∧ get data "content" = Ok c
       ∧ server qs now {| method := "POST"; pathname := "/api/notes"; body := b |} d
         = (Ok (json 201 (new_note now t c)), d')
       ∧ server qs later fetch d' = (Ok (json 200 (new_note now t c)), d')
       ∧ JSON_parse (payload (json 200 (new_note now t c))) = Parsed (new_note now t c))
  ∧ (∃ d',
       let req := {| method := "POST"; pathname := "/notes/new"; body := b |} in
       let data := parseBody qs req in
       let note := new_note now (data !! "title") (data !! "content") in
       server qs now req d = (Ok (redirect "/"), d')
       ∧ server qs later fetch d' = (Ok (json 200 note), d')
       ∧ JSON_parse (payload (json 200 note)) = Parsed note)
  ∧ (∀ t c, ∃ o, new_note now t c = VObj o
                 ∧ o !! "id" = Some (VNum now) ∧ o !! "title" = t ∧ o !! "content" = c).
Proof.
  intros Hh Hnow Hfresh fetch. pose proof (holds_safe _ _ Hh) as Hsafe.
  destruct Hh as (Hd & Hl & Hs).
  assert (Hn : safe_int now = true) by (unfold safe_int; apply Z.ltb_lt; lia).
  destruct (Number_toString_digits now ltac:(lia) Hn) as [Hds Hval].
  assert (Hfetch : ∀ t c, Safe_opt t → Safe_opt c →
    let d' := Holds (JSON_stringify 2 (VArr (l ++ [new_note now t c]))) in
    server qs later fetch d' = (Ok (json 200 (new_note now t c)), d')
    ∧ JSON_parse (payload (json 200 (new_note now t c))) = Parsed (new_note now t c)).
  { intros t c Ht Hc d'. pose proof (Safe_new_note now t c Hn Ht Hc) as Hnote.
    split; [|by apply JSON_parse_stringify].
    subst fetch d'. rewrite route_api_note by done. cbn [String.eqb Ascii.eqb Bool.eqb].
    rewrite Hval. erewrite api_get_ok.
    - by rewrite (first_with_snoc _ _ _ Hfresh (new_note_has_id now t c)).
    - apply stored_written. constructor. apply Forall_app. split; [done|].
      by apply Forall_singleton.
    - apply Forall_app. split; [done|]. repeat constructor. by eexists.
    - apply Forall_app. split; [done|]. by apply Forall_singleton. }
  split; [|split].
  - intros data Hb Hnull.
    assert (∃ t, get data "title" = Ok t) as [t Ht] by (destruct data; by eauto).
    assert (∃ c, get data "content" = Ok c) as [c Hc] by (destruct data; by eauto).
    exists t, c. eexists. split; [done|]. split; [done|]. split; [|apply Hfetch].
    + rewrite route_api_root. cbn [String.eqb Ascii.eqb Bool.eqb].
      by rewrite (api_create_ok now (Build_request _ _ b) d l data t c Hd Hb Ht Hc).
    + eapply Safe_get; [|exact Ht]. by eapply JSON_parse_safe.
    + eapply Safe_get; [|exact Hc]. by eapply JSON_parse_safe.
  - eexists. cbn zeta. split; [|apply Hfetch; apply Safe_form_field].
    rewrite route_new. cbn [String.eqb Ascii.eqb Bool.eqb].
    by rewrite (web_create_ok qs now _ d l Hd).
  - apply new_note_fields.
Qed.

Lemma create_then_get_witness :
  ∃ t c d',
    get (VObj xy_fields) "title" = Ok t ∧ get (VObj xy_fields) "content" = Ok c
    ∧ server no_form 1000 {| method := "POST"; pathname := "/api/notes"; body := xy_body |}
        old_disk
      = (Ok (json 201 (new_note 1000 t c)), d')
    ∧ server no_form 1001
        {| method := "GET"; pathname := "/api/notes/1000"; body := EmptyString |} d'
      = (Ok (json 200 (new_note 1000 t c)), d')
    ∧ JSON_parse (payload (json 200 (new_note 1000 t c))) = Parsed (new_note 1000 t c).
Proof.
  refine (proj1 (create_then_get no_form 1000 1001 old_disk [old_note] xy_body EmptyString
                   _ _ _) (VObj xy_fields) _ _).
  - apply holds_intro; [vm_compute; reflexivity|]. repeat constructor. by eexists.
  - lia.
  - reflexivity.
  - vm_compute. reflexivity.
  - discriminate.
Defined.



(** C3. When exactly one stored note carries the id, [DELETE
    /api/notes/<id>] answers 200 with that note; afterwards the listing is
    the sequence without it and holds no note with that id, and both
    [GET /api/notes/<id>] and the page [GET /notes/<id>] answer with their
    not-found response. *)
Theorem delete_then_absent (qs : string → gmap string form_value) (now z : Z)
    (d : disk) (l : list value) (ds b : string) (i : nat) (n : value) :
  holds_notes d l → Number (Some ds) = Some z →
  l !! i = Some n → has_id (Some z) n = true →
  (∀ j n', l !! j = Some n' → has_id (Some z) n' = true → j = i) →
  ∃ d',
    server qs now {| method := "DELETE"; pathname := "/api/notes/" +:+ ds; body := b |} d
    = (Ok (json 200 n), d')
    ∧ server qs now {| method := "GET"; pathname := "/api/notes"; body := b |} d'
      = (Ok (json 200 (VArr (delete i l))), d')
    ∧ Forall (λ n', has_id (Some z) n' = false) (delete i l)
    ∧ server qs now {| method := "GET"; pathname := "/api/notes/" +:+ ds; body := b |} d'
      = (Ok (json 404 note_not_found), d')
    ∧ server qs now {| method := "GET"; pathname := "/notes/" +:+ ds; body := b |} d'
      = (Ok (html 404 (layout "Not Found" "<div>Note not found</div>")), d').
Proof.
  intros Hh Hz Hi Hn Huniq. pose proof (holds_safe _ _ Hh) as Hsafe.
  pose proof (Number_Some _ _ Hz) as Hds. destruct Hh as (Hd & Hl & Hs).
  assert (Hfirst : first_with (Some z) l = Some (i, n)).
  { apply first_with_intro; [done..|]. intros j n' Hj Hn'.
    destruct (has_id (Some z) n') eqn:E; [|done].
    specialize (Huniq _ _ Hn' E). lia. }
  pose proof (absent_after_delete _ _ _ _ Hi Huniq) as Hgone.
  destruct (holds_written (delete i l) (Forall_delete _ _ _ Hl) (Forall_delete _ _ _ Hsafe))
    as (Hd' & Hl' & Hs').
  eexists. split; [|split; [|split; [|split]]].
  - rewrite route_api_note by done. cbn [String.eqb Ascii.eqb Bool.eqb]. rewrite Hz.
    by rewrite (api_delete_ok _ _ _ Hd Hl Hs), Hfirst.
  - rewrite route_api_root. cbn [String.eqb Ascii.eqb Bool.eqb].
    by apply api_list_ok.
  - by apply first_with_None.
  - rewrite route_api_note by done. cbn [String.eqb Ascii.eqb Bool.eqb]. rewrite Hz.
    by rewrite (api_get_ok _ _ _ Hd' Hl' Hs'), Hgone.
  - rewrite route_note by done. cbn [String.eqb Ascii.eqb Bool.eqb]. rewrite Hz.
    by apply (web_view_missing _ _ _ Hd' Hl' Hs').
Qed.

Lemma delete_then_absent_witness :
  ∃ d',
    server no_form 0 {| method := "DELETE"; pathname := "/api/notes/5"; body := EmptyString |}
      old_disk
    = (Ok (json 200 old_note), d')
    ∧ server no_form 0 {| method := "GET"; pathname := "/api/notes"; body := EmptyString |} d'
      = (Ok (json 200 (VArr [])), d')
    ∧ Forall (λ n', has_id (Some 5%Z) n' = false) []
    ∧ server no_form 0 {| method := "GET"; pathname := "/api/notes/5"; body := EmptyString |} d'
      = (Ok (json 404 note_not_found), d')
    ∧ server no_form 0 {| method := "GET"; pathname := "/notes/5"; body := EmptyString |} d'
      = (Ok (html 404 (layout "Not Found" "<div>Note not found</div>")), d').
Proof.
  refine (delete_then_absent no_form 0 5 old_disk [old_note] "5" EmptyString 0 old_note
            _ _ _ _ _).
  - apply holds_intro; [vm_compute; reflexivity|]. repeat constructor. by eexists.
  - reflexivity.
  - reflexivity.
  - reflexivity.
  - intros [|j] n' Hj _; [reflexivity|discriminate Hj].
Defined.

(** C9 (counterexample). The body of [PUT /api/notes/5] names the field
    [id] with the value 5, the id the note has; no other note carries it,
    and [GET /api/notes/5] afterwards still answers 200. *)
Lemma overwritten_id_counterexample :
  ∃ d' r,
    holds_notes old_disk [old_note]
    ∧ JSON_parse same_id_body = Parsed (VObj same_id_fields)
    ∧ same_id_fields !! "id" = Some (VNum 5)
    ∧ server no_form 0 {| method := "PUT"; pathname := "/api/notes/5"; body := same_id_body |}
        old_disk
      = (Ok (json 200 old_note), d')
    ∧ server no_form 0 {| method := "GET"; pathname := "/api/notes/5"; body := EmptyString |} d'
      = (Ok r, d')
    ∧ status r = 200%nat.
Proof.
  eexists _, _. split; [|split; [|split; [|split; [|split]]]].
  - apply holds_intro; [vm_compute; reflexivity|]. repeat constructor. by eexists.
  - vm_compute. reflexivity.
  - reflexivity.
  - vm_compute. reflexivity.
  - vm_compute. reflexivity.
  - reflexivity.
Qed.

(** C9 (amended). When the body of an update names the field [id] with a
    value other than the number in the path, the merged note has the value
    of the body as its [id]; if no other note carries the number of the
    path, [GET /api/notes/<id>] afterwards answers 404.  A form never
    supplies a number, so for [POST /notes/<id>/edit] every body that
    names [id] has this effect. *)
Theorem overwritten_id_not_found (qs : string → gmap string form_value) (now z : Z)
    (d : disk) (l : list value) (ds b b' : string) (i : nat) (o : gmap string value) :
  holds_notes d l → Number (Some ds) = Some z →
  l !! i = Some (VObj o) → has_id (Some z) (VObj o) = true →
  (∀ j n', l !! j = Some n' → has_id (Some z) n' = true → j = i) →
  let fetch := {| method := "GET"; pathname := "/api/notes/" +:+ ds; body := b' |} in
  (∀ data fields x,
     JSON_parse b = Parsed data → spread data = Ok fields →
     fields !! "id" = Some x → x ≠ VNum z →
     ∃ d' (merged : gmap string value),
       server qs now {| method := "PUT"; pathname := "/api/notes/" +:+ ds; body := b |} d
       = (Ok (json 200 (VObj merged)), d')
       ∧ merged !! "id" = Some x
       ∧ server qs now fetch d' = (Ok (json 404 note_not_found), d'))
  ∧ (let req := {| method := "POST"; pathname := "/notes/" +:+ ds +:+ "/edit"; body := b |} in
     ∀ x,
       parseBody qs req !! "id" = Some x →
       ∃ d' (merged : gmap string value),
         server qs now req d = (Ok (redirect ("/notes/" +:+ Number_toString z)), d')
         ∧ holds_notes d' (<[i:=VObj merged]> l)
         ∧ merged !! "id" = Some x
         ∧ server qs now fetch d' = (Ok (json 404 note_not_found), d')).
Proof.
  intros Hh Hz Hi Hn Huniq fetch. pose proof (holds_safe _ _ Hh) as Hsafe.
  pose proof (Number_Some _ _ Hz) as Hds.
  destruct (holds_object _ _ _ _ Hh Hi) as (_ & _ & Ho%Safe_members).
  destruct Hh as (Hd & Hl & Hs).
  assert (Hfirst : first_with (Some z) l = Some (i, VObj o)).
  { apply first_with_intro; [done..|]. intros j n' Hj Hn'.
    destruct (has_id (Some z) n') eqn:E; [|done].
    specialize (Huniq _ _ Hn' E). lia. }
  assert (Hafter : ∀ (fields : gmap string value) x,
    map_Forall (λ _, Safe) fields → fields !! "id" = Some x → x ≠ VNum z →
    let d' := Holds (JSON_stringify 2 (VArr (<[i:=VObj (merge o fields)]> l))) in
    merge o fields !! "id" = Some x
    ∧ holds_notes d' (<[i:=VObj (merge o fields)]> l)
    ∧ server qs now fetch d' = (Ok (json 404 note_not_found), d')).
  { intros fields x Hf Hx Hne d'.
    assert (Hid : merge o fields !! "id" = Some x) by by rewrite lookup_merge, Hx.
    split; [done|].
    assert (Hh' : holds_notes d' (<[i:=VObj (merge o fields)]> l)).
    { apply holds_written; apply Forall_insert; try done.
      - by eexists.
      - by apply Safe_merge. }
    split; [done|]. destruct Hh' as (Hd' & Hl' & Hs').
    subst fetch d'. rewrite route_api_note by done. cbn [String.eqb Ascii.eqb Bool.eqb].
    rewrite Hz, (api_get_ok _ _ _ Hd' Hl' Hs').
    rewrite (absent_after_insert _ _ _ (VObj (merge o fields))); [done| |done].
    simpl. rewrite Hid. destruct x as [| |y| | | |]; try done.
    simpl. apply Z.eqb_neq. congruence. }
  split.
  - intros data fields x Hb Hf Hx Hne.
    destruct (Hafter fields x) as (Hid & _ & Hget); [|done..|].
    { eapply Safe_spread; [|exact Hf]. by eapply JSON_parse_safe. }
    eexists _, _. split; [|split; [exact Hid|exact Hget]].
    rewrite route_api_note by done. cbn [String.eqb Ascii.eqb Bool.eqb]. rewrite Hz.
    by rewrite (api_update_ok _ (Build_request _ _ b) _ _ _ _ _ _ Hd Hl Hs Hb Hf Hfirst).
  - cbn zeta. intros x Hx.
    assert (Hne : x ≠ VNum z).
    { unfold parseBody in Hx. rewrite lookup_fmap in Hx.
      destruct (qs _ !! "id") as [[]|]; simpl in Hx; [| |done]; by injection Hx as <-. }
    destruct (Hafter _ _ (Safe_form qs _) Hx Hne) as (Hid & Hh' & Hget).
    eexists _, _. split; [|split; [exact Hh'|split; [exact Hid|exact Hget]]].
    rewrite route_edit by done. cbn [String.eqb Ascii.eqb Bool.eqb]. rewrite Hz.
    by rewrite (web_edit_ok qs _ _ _ _ _ _ Hd Hl Hs Hfirst).
Qed.

Lemma overwritten_id_not_found_witness :
  ∃ d' (merged : gmap string value),
    server no_form 0
      {| method := "PUT"; pathname := "/api/notes/5";
         body := JSON_stringify 0 (VObj other_id_fields) |} old_disk
    = (Ok (json 200 (VObj merged)), d')
    ∧ merged !! "id" = Some (VNum 9)
    ∧ server no_form 0 {| method := "GET"; pathname := "/api/notes/5"; body := EmptyString |} d'
      = (Ok (json 404 note_not_found), d').
Proof.
  refine (proj1 (overwritten_id_not_found no_form 0 5 old_disk [old_note] "5"
                   (JSON_stringify 0 (VObj other_id_fields)) EmptyString 0 old_fields
                   _ _ _ _ _) (VObj other_id_fields) other_id_fields (VNum 9) _ _ _ _).
  - apply holds_intro; [vm_compute; reflexivity|]. repeat constructor. by eexists.
  - reflexivity.
  - reflexivity.
  - reflexivity.
  - intros [|j] n' Hj _; [reflexivity|discriminate Hj].
  - vm_compute. reflexivity.
  - reflexivity.
  - reflexivity.
  - discriminate.
Defined.






(** * Further properties of the code *)

(** ** Handlers that only read *)

Module EffectFacts.

Lemma readNotes_cases d :
  (∃ e, readNotes d = (Throw e, d)) ∨ (∃ v, readNotes d = (Ok v, d)).
Proof.
  destruct (readNotes d) as [[v|e] d'] eqn:E; pose proof (readNotes_disk d) as Hd;
    rewrite E in Hd; simpl in Hd; subst d'.
  - right. by exists v.
  - left. by exists e.
Qed.

Lemma readonly_bind {A B} (m : M A) (k : A → M B) :
  readonly m → (∀ a, readonly (k a)) → readonly (m ≫= k).
Proof.
  intros Hm Hk d. unfold mbind, M_bind. specialize (Hm d).
  destruct (m d) as [[a|e] d']; simpl in Hm; subst d'; [apply Hk|done].
Qed.

Lemma readonly_lift {A} (r : result A) : readonly (lift r).
Proof. done. Qed.

Lemma readonly_mret {A} (a : A) : readonly (mret a).
Proof. done. Qed.

Lemma readonly_readNotes : readonly readNotes.
Proof. intros d. apply readNotes_disk. Qed.

Lemma readonly_page st title content : readonly (page st title content).
Proof. unfold page. repeat (apply readonly_bind; [done|intros]). done. Qed.

Ltac quiet :=
  repeat first
    [ apply readonly_readNotes | apply readonly_lift | apply readonly_mret
    | apply readonly_page
    | apply readonly_bind; [|intros]
    | match goal with |- readonly (match ?x with _ => _ end) => destruct x end ].

Lemma readonly_api_list : readonly api_list.
Proof. unfold api_list. quiet. Qed.

Lemma readonly_api_get id : readonly (api_get id).
Proof. unfold api_get. quiet. Qed.

Lemma readonly_web_home : readonly web_home.
Proof. unfold web_home. quiet. Qed.

Lemma readonly_web_new : readonly web_new.
Proof. unfold web_new. quiet. Qed.

Lemma readonly_web_view id : readonly (web_view id).
Proof. unfold web_view, note_missing. quiet. Qed.

Lemma readonly_web_edit_form id : readonly (web_edit_form id).
Proof. unfold web_edit_form, note_missing. quiet. Qed.

Lemma readonly_not_found : readonly not_found.
Proof. unfold not_found. quiet. Qed.

(** Whatever holds of every handler holds of the server. *)
Lemma server_cases (P : M response → Prop) qs now req :
  P api_list → (∀ id, P (api_get id)) → P (api_create now req) →
  (∀ id, P (api_update id req)) → (∀ id, P (api_delete id)) →
  P web_home → P web_new → P (web_create qs now req) →
  (∀ id, P (web_view id)) → (∀ id, P (web_edit_form id)) →
  (∀ id, P (web_edit qs id req)) → (∀ id, P (web_delete id)) → P not_found →
  P (server qs now req).
Proof.
  intros. unfold server, api_routes, web_routes.
  repeat match goal with
         | |- context [if ?c then _ else _] => destruct c
         end; done.
Qed.

End EffectFacts.

Import EffectFacts.

(** X1. Reading after a write gives back what was written.  On a disk
    whose file can be read as text, or does not exist, and with the write
    taken to succeed, [writeNotes(v)] followed by [readNotes()] returns [v]
    and leaves the text of [v], indented by two, in the file. *)
Theorem write_then_read (d : disk) (v : value) :
  d = missing ∨ (∃ raw, d = Holds raw) → Safe v →
  (_ ← writeNotes v; readNotes) d = (Ok v, Holds (JSON_stringify 2 v)).
Proof.
  intros [->|[raw ->]] Hv; unfold mbind, M_bind, writeNotes; simpl;
    by apply stored_written.
Qed.

Lemma write_then_read_witness :
  (_ ← writeNotes (VArr sample); readNotes) (Holds "[1,")
  = (Ok (VArr sample), Holds (JSON_stringify 2 (VArr sample))).
Proof.
  apply write_then_read.
  - right. by eexists.
  - constructor. apply Forall_singleton.
    apply Safe_new_note; [reflexivity|constructor..].
Defined.

(** X2. A [GET] request never writes the file: whatever the path, the body
    and the state of the disk, and whether the handler answers or throws,
    the disk after the request is the disk before it. *)
Theorem get_never_writes (qs : string → gmap string form_value) (now : Z)
    (p b : string) (d : disk) :
  (server qs now {| method := "GET"; pathname := p; body := b |} d).2 = d.
Proof.
  unfold server, api_routes, web_routes. cbn [method pathname].
  cbn [String.eqb Ascii.eqb Bool.eqb andb].
  repeat match goal with
         | |- context [if ?c then _ else _] => destruct c
         end;
    lazymatch goal with
    | |- (api_list _).2 = _ => apply readonly_api_list
    | |- (api_get _ _).2 = _ => apply readonly_api_get
    | |- (web_home _).2 = _ => apply readonly_web_home
    | |- (web_new _).2 = _ => apply readonly_web_new
    | |- (web_view _ _).2 = _ => apply readonly_web_view
    | |- (web_edit_form _ _).2 = _ => apply readonly_web_edit_form
    | |- (not_found _).2 = _ => apply readonly_not_found
    end.
Qed.

(** ** What the handlers that write leave in the file *)

Module WriteFacts.

Lemma settled_readonly {A} (m : M A) d : readonly m → settled d (m d).
Proof. intros H. left. apply H. Qed.

Ltac step :=
  match goal with
  | |- settled _ (match ?x with _ => _ end) =>
      let E := fresh "E" in
      destruct x eqn:E;
        [|first [by left|by apply settled_readonly; unfold note_missing; quiet]]
  | |- settled _ ((match ?x with _ => _ end) _) =>
      let E := fresh "E" in
      destruct x eqn:E; cbn beta;
        [|first [by left|by apply settled_readonly; unfold note_missing; quiet]]
  | |- settled ?d (let '(_, _) := readNotes ?d in _) =>
      let E := fresh "E" in
      destruct (readNotes_cases d) as [[? E]|[? E]]; rewrite E; [by left|]
  | |- settled ?d (match readNotes ?d with _ => _ end) =>
      let E := fresh "E" in
      destruct (readNotes_cases d) as [[? E]|[? E]]; rewrite E; [by left|]
  | E : readNotes ?d = (Ok _, ?d) |- settled ?d (let '(_, _) := writeFile ?t ?d in _) =>
      rewrite (writeFile_ok t d _ E)
  | E : readNotes ?d = (Ok _, ?d) |- settled ?d (match writeFile ?t ?d with _ => _ end) =>
      rewrite (writeFile_ok t d _ E)
  end.

Lemma settled_api_create now req d : settled d (api_create now req d).
Proof. unfold api_create. run. repeat step. right. by eexists _, _. Qed.

Lemma settled_web_create qs now req d : settled d (web_create qs now req d).
Proof. unfold web_create. run. repeat step. right. by eexists _, _. Qed.

Lemma settled_api_update id req d : settled d (api_update id req d).
Proof. unfold api_update. run. repeat step. right. by eexists _, _. Qed.

Lemma settled_web_edit qs id req d : settled d (web_edit qs id req d).
Proof. unfold web_edit. run. repeat step. right. by eexists _, _. Qed.

Lemma settled_api_delete id d : settled d (api_delete id d).
Proof. unfold api_delete. run. repeat step. right. by eexists _, _. Qed.

Lemma settled_web_delete id d : settled d (web_delete id d).
Proof. unfold web_delete. run. repeat step. right. by eexists _, _. Qed.

Lemma settled_server qs now req d : settled d (server qs now req d).
Proof.
  apply (server_cases (λ m, settled d (m d))).
  - apply settled_readonly, readonly_api_list.
  - intros. apply settled_readonly, readonly_api_get.
  - apply settled_api_create.
  - intros. apply settled_api_update.
  - intros. apply settled_api_delete.
  - apply settled_readonly, readonly_web_home.
  - apply settled_readonly, readonly_web_new.
  - apply settled_web_create.
  - intros. apply settled_readonly, readonly_web_view.
  - intros. apply settled_readonly, readonly_web_edit_form.
  - intros. apply settled_web_edit.
  - intros. apply settled_web_delete.
  - apply settled_readonly, readonly_not_found.
Qed.

End WriteFacts.

Import WriteFacts.

(** X3. The handlers raise their exceptions before they write.  A request
    either leaves the disk as it was, or answers and leaves in the file
    the text of an array, indented by two.  So a request that ends in an
    exception (a read that fails, a file or a body that is not JSON, a
    property read from [null], a store that is not an array) has written
    nothing.  A write is taken to succeed: the failure of a write is not
    among these exceptions. *)
Theorem throw_writes_nothing (qs : string → gmap string form_value) (now : Z)
    (req : request) (d d' : disk) (res : result response) :
  server qs now req d = (res, d') →
  (d' = d ∨ ∃ r l, res = Ok r ∧ d' = Holds (JSON_stringify 2 (VArr l)))
  ∧ (∀ e, res = Throw e → d' = d).
Proof.
  intros Hrun. destruct (settled_server qs now req d) as [H|(r & l & H)];
    rewrite Hrun in H; simpl in H.
  - split; [by left|done].
  - injection H as -> ->. split; [|done]. right. by exists r, l.
Qed.

Lemma throw_writes_nothing_witness :
  (old_disk = old_disk
   ∨ ∃ r l, (Throw TypeError : result response) = Ok r
            ∧ old_disk = Holds (JSON_stringify 2 (VArr l)))
  ∧ (∀ e, (Throw TypeError : result response) = Throw e → old_disk = old_disk).
Proof.
  apply (throw_writes_nothing no_form 8
           {| method := "POST"; pathname := "/api/notes"; body := "null" |}).
  vm_compute. reflexivity.
Defined.

(** ** Requests that throw *)

Module ErrorFacts.

Lemma route_home qs now m b :
  server qs now {| method := m; pathname := "/"; body := b |} =
    if (m =? "GET")%string then web_home else not_found.
Proof.
  unfold server, web_routes. cbn [pathname method startsWith strip_prefix].
  by destruct (m =? "GET")%string, (m =? "POST")%string.
Qed.

Lemma array_of_other v : (∀ l, v ≠ VArr l) → array_of v = Throw TypeError.
Proof. intros H. destruct v; try done. by destruct (H l). Qed.

Lemma get_or_throw data k : get data k = Throw TypeError ∨ ∃ x, get data k = Ok x.
Proof. destruct data; simpl; eauto. Qed.

End ErrorFacts.

Import ErrorFacts.

(** X4. A body that is not JSON makes [POST /api/notes] and
    [PUT /api/notes/<id>] throw the [SyntaxError] of [JSON.parse] before the
    store is read: this is the outcome whatever the disk holds, readable or
    not, and whether or not a note has the id; nothing is written. *)
Theorem malformed_body_throws (qs : string → gmap string form_value) (now : Z)
    (ds b : string) (d : disk) :
  JSON_parse b = Invalid →
  server qs now {| method := "POST"; pathname := "/api/notes"; body := b |} d
  = (Throw SyntaxError, d)
  ∧ (digits ds = true →
     server qs now {| method := "PUT"; pathname := "/api/notes/" +:+ ds; body := b |} d
     = (Throw SyntaxError, d)).
Proof.
  intros Hb. split.
  - rewrite route_api_root. cbn [String.eqb Ascii.eqb Bool.eqb].
    unfold api_create, parse. run. cbn [body]. by rewrite Hb.
  - intros Hds. rewrite route_api_note by done. cbn [String.eqb Ascii.eqb Bool.eqb].
    unfold api_update, parse. run. cbn [body]. by rewrite Hb.
Qed.

Lemma malformed_body_throws_witness :
  server no_form 0 {| method := "POST"; pathname := "/api/notes"; body := "{title:1}" |}
    (ReadFails "EACCES")
  = (Throw SyntaxError, ReadFails "EACCES").
Proof.
  refine (proj1 (malformed_body_throws no_form 0 "1" "{title:1}" (ReadFails "EACCES") _)).
  reflexivity.
Defined.

(** X5. The body [null] is JSON, and [POST /api/notes] with it throws a
    [TypeError] when it reads [data.title]: the store has been read by
    then, and nothing is written. *)
Theorem null_body_create (qs : string → gmap string form_value) (now : Z)
    (b : string) (d : disk) (v : value) :
  JSON_parse b = Parsed VNull → readNotes d = (Ok v, d) →
  server qs now {| method := "POST"; pathname := "/api/notes"; body := b |} d
  = (Throw TypeError, d).
Proof.
  intros Hb Hd. rewrite route_api_root. cbn [String.eqb Ascii.eqb Bool.eqb].
  unfold api_create, parse. run. cbn [body]. by rewrite Hb, Hd.
Qed.

Lemma null_body_create_witness :
  server no_form 0 {| method := "POST"; pathname := "/api/notes"; body := " null " |} missing
  = (Throw TypeError, missing).
Proof. apply (null_body_create no_form 0 " null " missing (VArr [])); reflexivity. Defined.



(** X7. When the file holds JSON that is not an array, [GET /api/notes]
    still returns it with status 200, and every route that searches or
    extends the collection throws a [TypeError] and writes nothing: the
    lookups and deletions of both surfaces, the home page, the form
    creation, and the API creation and update once their body has parsed. *)
Theorem store_not_array (qs : string → gmap string form_value) (now : Z)
    (d : disk) (v : value) (ds b : string) :
  readNotes d = (Ok v, d) → (∀ l, v ≠ VArr l) → digits ds = true →
  let ask m p := server qs now {| method := m; pathname := p; body := b |} d in
  let thrown : result response * disk := (Throw TypeError, d) in
  ask "GET" "/api/notes" = (Ok (json 200 v), d)
  ∧ ask "GET" ("/api/notes/" +:+ ds) = thrown
  ∧ ask "DELETE" ("/api/notes/" +:+ ds) = thrown
  ∧ (∀ data, JSON_parse b = Parsed data →
       ask "PUT" ("/api/notes/" +:+ ds) = thrown ∧ ask "POST" "/api/notes" = thrown)
  ∧ ask "GET" "/" = thrown
  ∧ ask "POST" "/notes/new" = thrown
  ∧ ask "GET" ("/notes/" +:+ ds) = thrown
  ∧ ask "GET" ("/notes/" +:+ ds +:+ "/edit") = thrown
  ∧ ask "POST" ("/notes/" +:+ ds +:+ "/edit") = thrown
  ∧ ask "POST" ("/notes/" +:+ ds +:+ "/delete") = thrown.
Proof.
  intros Hd Hv Hds ask thrown. subst ask thrown. cbn beta.
  pose proof (array_of_other v Hv) as Ha.
  rewrite !route_api_root, route_home, route_new, !route_api_note, route_note,
    !route_edit, route_delete by done.
  cbn [String.eqb Ascii.eqb Bool.eqb].
  repeat apply conj.
  - by apply api_list_ok.
  - unfold api_get. run. by rewrite Hd, Ha.
  - unfold api_delete. run. by rewrite Hd, Ha.
  - intros data Hb. split.
    + unfold api_update, parse. run. cbn [body]. by rewrite Hb, Hd, Ha.
    + unfold api_create, parse. run. cbn [body]. rewrite Hb, Hd.
      destruct (get_or_throw data "title") as [->|[t ->]]; [done|].
      destruct (get_or_throw data "content") as [->|[c' ->]]; [done|]. by rewrite Ha.
  - unfold web_home, page, renderNotesList. run. rewrite Hd. cbn. by rewrite Ha.
  - unfold web_create. run. by rewrite Hd, Ha.
  - unfold web_view. run. by rewrite Hd, Ha.
  - unfold web_edit_form. run. by rewrite Hd, Ha.
  - unfold web_edit. run. by rewrite Hd, Ha.
  - unfold web_delete. run. by rewrite Hd, Ha.
Qed.

Lemma store_not_array_witness :
  server no_form 0 {| method := "GET"; pathname := "/"; body := EmptyString |} (Holds "{}")
  = (Throw TypeError, Holds "{}").
Proof.
  refine (proj1 (proj2 (proj2 (proj2 (proj2
            (store_not_array no_form 0 (Holds "{}") (VObj ∅) "1" EmptyString _ _ _)))))).
  - reflexivity.
  - discriminate.
  - reflexivity.
Defined.

(** X8. When reading the file fails for a reason other than [ENOENT], the
    routes that read the store throw that error and write nothing (the
    API creation and update after their body has parsed), while the routes
    that do not read it answer as ever: the creation form with status 200,
    an unmatched path with the catch-all page. *)
Theorem read_error_propagates (qs : string → gmap string form_value) (now : Z)
    (c ds b x : string) :
  c ≠ "ENOENT" → digits ds = true → digits x = false →
  let d := ReadFails c in
  let ask m p := server qs now {| method := m; pathname := p; body := b |} d in
  let thrown : result response * disk := (Throw (FsError c), d) in
  ask "GET" "/api/notes" = thrown
  ∧ ask "GET" ("/api/notes/" +:+ ds) = thrown
  ∧ ask "DELETE" ("/api/notes/" +:+ ds) = thrown
  ∧ (∀ data, JSON_parse b = Parsed data →
       ask "PUT" ("/api/notes/" +:+ ds) = thrown ∧ ask "POST" "/api/notes" = thrown)
  ∧ ask "GET" "/" = thrown
  ∧ ask "POST" "/notes/new" = thrown
  ∧ ask "GET" ("/notes/" +:+ ds) = thrown
  ∧ ask "GET" ("/notes/" +:+ ds +:+ "/edit") = thrown
  ∧ ask "POST" ("/notes/" +:+ ds +:+ "/edit") = thrown
  ∧ ask "POST" ("/notes/" +:+ ds +:+ "/delete") = thrown
  ∧ (∃ r, ask "GET" "/notes/new" = (Ok r, d) ∧ status r = 200%nat)
  ∧ ask "GET" ("/api/notes/" +:+ x)
    = (Ok (html 404 (layout "Not Found" "<div>404 Not Found</div>")), d).
Proof.
  intros Hc Hds Hx d ask thrown. subst ask thrown. cbn beta.
  assert (Hd : readNotes d = (Throw (FsError c), d)).
  { subst d. rewrite readNotes_eq. by rewrite decide_False. }
  rewrite !route_api_root, route_home, !route_new, !route_api_note, route_note,
    !route_edit, route_delete by done.
  cbn [String.eqb Ascii.eqb Bool.eqb].
  repeat apply conj.
  - unfold api_list. run. by rewrite Hd.
  - unfold api_get. run. by rewrite Hd.
  - unfold api_delete. run. by rewrite Hd.
  - intros data Hb. split.
    + unfold api_update, parse. run. cbn [body]. by rewrite Hb, Hd.
    + unfold api_create, parse. run. cbn [body]. by rewrite Hb, Hd.
  - unfold web_home. run. by rewrite Hd.
  - unfold web_create. run. by rewrite Hd.
  - unfold web_view. run. by rewrite Hd.
  - unfold web_edit_form. run. by rewrite Hd.
  - unfold web_edit. run. by rewrite Hd.
  - unfold web_delete. run. by rewrite Hd.
  - eexists. split; reflexivity.
  - rewrite <- not_found_ok. unfold server, api_routes, web_routes.
    cbn [pathname method body].
    destruct (unmatched_api x Hx) as [-> ->].
    rewrite !(test_other_prefix "/notes/") by done.
    by rewrite !andb_false_r.
Qed.

Lemma read_error_propagates_witness :
  server no_form 0 {| method := "GET"; pathname := "/"; body := EmptyString |}
    (ReadFails "EACCES")
  = (Throw (FsError "EACCES"), ReadFails "EACCES").
Proof.
  refine (proj1 (proj2 (proj2 (proj2 (proj2
            (read_error_propagates no_form 0 "EACCES" "1" EmptyString "x" _ _ _)))))).
  - discriminate.
  - reflexivity.
  - reflexivity.
Defined.

(** ** Requests in sequence *)

Module ComposeFacts.

Lemma Number_zero ds :
  digits ds = true →
  digits ("0" +:+ ds) = true ∧ Number (Some ("0" +:+ ds)) = Number (Some ds).
Proof.
  intros Hds. assert (Hd0 : digits ("0" +:+ ds) = true).
  { unfold digits. cbn. by apply digits_all. }
  split; [done|]. unfold Number. rewrite Hd0, Hds.
  assert (digits_value ("0" +:+ ds) = digits_value ds) as ->; [|done].
  unfold digits_value. simpl. by destruct (NilEmpty.uint_of_string ds).
Qed.

Lemma first_with_insert id l i n m :
  first_with id l = Some (i, n) → has_id id m = true →
  first_with id (<[i:=m]> l) = Some (i, m).
Proof.
  intros (Hi & _ & Hlt)%first_with_Some Hm. apply first_with_intro; [|done|].
  - apply list_lookup_insert_eq. by eapply lookup_lt_Some.
  - intros j n' Hj. rewrite list_lookup_insert_ne by lia. by apply Hlt.
Qed.


Lemma count_delete id l i n :
  l !! i = Some n →
  count id l = ((if has_id id n then 1 else 0) + count id (delete i l))%nat.
Proof.
  intros Hi. unfold count. rewrite delete_take_drop.
  rewrite <- (take_drop_middle l i n Hi) at 1.
  rewrite !filter_app, filter_cons, !length_app.
  case_decide as E.
  - rewrite E. simpl. lia.
  - apply not_true_is_false in E. rewrite E. simpl. lia.
Qed.

Lemma web_edit_form_missing id d l :
  readNotes d = (Ok (VArr l), d) → Forall is_object l → Forall Safe l →
  first_with id l = None →
  web_edit_form id d
  = (Ok (html 404 (layout "Not Found" "<div>Note not found</div>")), d).
Proof.
  intros Hd Hl Hs Hnone. unfold web_edit_form. run. rewrite Hd. simpl.
  destruct (find_objects id l Hl Hs) as [-> _]. rewrite Hnone. simpl.
  apply note_missing_ok.
Qed.

End ComposeFacts.

Import ComposeFacts.

(** X9. A path of a route asked with a method the route does not take is
    answered by the catch-all page, status 404 and HTML also under
    [/api/notes], and the disk is left as it was. *)
Theorem other_method_404 (qs : string → gmap string form_value) (now : Z)
    (m ds b : string) (d : disk) :
  digits ds = true →
  let ask p := server qs now {| method := m; pathname := p; body := b |} d in
  let lost : result response * disk :=
    (Ok (html 404 (layout "Not Found" "<div>404 Not Found</div>")), d) in
  (m ≠ "GET" → m ≠ "POST" → ask "/api/notes" = lost ∧ ask "/notes/new" = lost)
  ∧ (m ≠ "GET" → m ≠ "PUT" → m ≠ "DELETE" → ask ("/api/notes/" +:+ ds) = lost)
  ∧ (m ≠ "GET" → ask "/" = lost ∧ ask ("/notes/" +:+ ds) = lost)
  ∧ (m ≠ "GET" → m ≠ "POST" → ask ("/notes/" +:+ ds +:+ "/edit") = lost)
  ∧ (m ≠ "POST" → ask ("/notes/" +:+ ds +:+ "/delete") = lost).
Proof.
  intros Hds ask lost. subst ask lost. cbn beta.
  rewrite route_api_root, route_new, route_api_note, route_home, route_note, route_edit,
    route_delete by done.
  rewrite <- not_found_ok.
  repeat apply conj; intros; rewrite ?eqb_false by done; done.
Qed.

Lemma other_method_404_witness :
  server no_form 0 {| method := "POST"; pathname := "/api/notes/7"; body := EmptyString |}
    sample_disk
  = (Ok (html 404 (layout "Not Found" "<div>404 Not Found</div>")), sample_disk).
Proof.
  refine (proj1 (proj2 (other_method_404 no_form 0 "POST" "7" EmptyString sample_disk _))
            _ _ _); [reflexivity|discriminate..].
Defined.

(** X10. Zeros in front of the digits of a path do not change the note it
    names: [Number] reads [007] as 7, so for every method, body and disk a
    request on [/api/notes/0<ds>], [/notes/0<ds>], [/notes/0<ds>/edit] or
    [/notes/0<ds>/delete] has the outcome of the request without the
    zero. *)
Theorem leading_zero_same_note (qs : string → gmap string form_value) (now : Z)
    (m ds b : string) (d : disk) :
  digits ds = true →
  let ask p := server qs now {| method := m; pathname := p; body := b |} d in
  ask ("/api/notes/" +:+ "0" +:+ ds) = ask ("/api/notes/" +:+ ds)
  ∧ ask ("/notes/" +:+ "0" +:+ ds) = ask ("/notes/" +:+ ds)
  ∧ ask ("/notes/" +:+ ("0" +:+ ds) +:+ "/edit") = ask ("/notes/" +:+ ds +:+ "/edit")
  ∧ ask ("/notes/" +:+ ("0" +:+ ds) +:+ "/delete") = ask ("/notes/" +:+ ds +:+ "/delete").
Proof.
  intros Hds ask. subst ask. cbn beta.
  destruct (Number_zero ds Hds) as [Hd0 Hn].
  rewrite (route_api_note _ _ _ ("0" +:+ ds)), (route_note _ _ _ ("0" +:+ ds)),
    (route_edit _ _ _ ("0" +:+ ds)), (route_delete _ _ _ ("0" +:+ ds)) by done.
  rewrite (route_api_note _ _ _ ds), (route_note _ _ _ ds), (route_edit _ _ _ ds),
    (route_delete _ _ _ ds) by done.
  by rewrite Hn.
Qed.

Lemma leading_zero_same_note_witness :
  server no_form 0 {| method := "GET"; pathname := "/api/notes/07"; body := EmptyString |}
    sample_disk
  = server no_form 0 {| method := "GET"; pathname := "/api/notes/7"; body := EmptyString |}
      sample_disk.
Proof.
  refine (proj1 (leading_zero_same_note no_form 0 "GET" "7" EmptyString sample_disk _)).
  reflexivity.
Defined.

(** X11. An update that does not change the id is idempotent: when the
    body has no [id] or repeats the one of the path, sending the same [PUT]
    again gives the same answer and leaves the same file. *)
Theorem put_idempotent (qs : string → gmap string form_value) (now later z : Z)
    (d : disk) (l : list value) (ds b : string) (i : nat) (o : gmap string value)
    (data : value) (fields : gmap string value) :
  holds_notes d l → Number (Some ds) = Some z →
  first_with (Some z) l = Some (i, VObj o) →
  JSON_parse b = Parsed data → spread data = Ok fields →
  fields !! "id" = None ∨ fields !! "id" = Some (VNum z) →
  let put := {| method := "PUT"; pathname := "/api/notes/" +:+ ds; body := b |} in
  ∃ r d', server qs now put d = (Ok r, d') ∧ server qs later put d' = (Ok r, d').
Proof.
  intros Hh Hz Hfirst Hb Hf Hid put. subst put.
  pose proof (holds_safe _ _ Hh) as Hsafe. pose proof (Number_Some _ _ Hz) as Hds.
  pose proof Hh as (Hd & Hl & Hs).
  destruct (first_with_Some _ _ _ _ Hfirst) as (Hi & Hn & _).
  destruct (holds_object _ _ _ _ Hh Hi) as (_ & _ & Ho%Safe_members).
  set (merged := merge o fields).
  assert (Hh' : holds_notes (Holds (JSON_stringify 2 (VArr (<[i:=VObj merged]> l))))
                  (<[i:=VObj merged]> l)).
  { apply holds_written; apply Forall_insert; try done.
    - by eexists.
    - apply Safe_merge; [done|]. eapply Safe_spread; [|exact Hf]. by eapply JSON_parse_safe. }
  assert (Hm : has_id (Some z) (VObj merged) = true).
  { simpl. unfold merged. rewrite lookup_merge. destruct Hid as [->| ->]; [done|].
    simpl. apply Z.eqb_refl. }
  pose proof (first_with_insert _ _ _ _ _ Hfirst Hm) as Hfirst'.
  destruct Hh' as (Hd' & Hl' & Hs').
  eexists _, _. rewrite !route_api_note by done. cbn [String.eqb Ascii.eqb Bool.eqb].
  rewrite Hz. split.
  - by rewrite (api_update_ok _ (Build_request _ _ b) _ _ _ _ _ _ Hd Hl Hs Hb Hf Hfirst).
  - rewrite (api_update_ok _ (Build_request _ _ b) _ _ _ _ _ _ Hd' Hl' Hs' Hb Hf Hfirst').
    assert (merge merged fields = merged) as ->.
    { unfold merged, merge. by rewrite (assoc_L (∪)), (idemp_L (∪)). }
    by rewrite list_insert_insert_eq.
Qed.

Lemma put_idempotent_witness :
  ∃ r d',
    server no_form 0
      {| method := "PUT"; pathname := "/api/notes/5";
         body := JSON_stringify 0 (VObj x_fields) |} old_disk
    = (Ok r, d')
    ∧ server no_form 1
        {| method := "PUT"; pathname := "/api/notes/5";
           body := JSON_stringify 0 (VObj x_fields) |} d'
      = (Ok r, d').
Proof.
  refine (put_idempotent no_form 0 1 5 old_disk [old_note] "5"
            (JSON_stringify 0 (VObj x_fields)) 0 old_fields (VObj x_fields) x_fields
            _ _ _ _ _ _).
  - apply holds_intro; [vm_compute; reflexivity|]. repeat constructor. by eexists.
  - reflexivity.
  - reflexivity.
  - vm_compute. reflexivity.
  - reflexivity.
  - left. reflexivity.
Defined.



(** X13. A delete removes one note and no more: when several notes carry
    the id, the store afterwards has one note fewer, one note fewer with
    that id, and as many notes with any other id as before. *)
Theorem delete_removes_one (qs : string → gmap string form_value) (now z : Z)
    (d : disk) (l : list value) (ds b : string) (i : nat) (n : value) :
  holds_notes d l → Number (Some ds) = Some z →
  first_with (Some z) l = Some (i, n) →
  ∃ d' l',
    server qs now {| method := "DELETE"; pathname := "/api/notes/" +:+ ds; body := b |} d
    = (Ok (json 200 n), d')
    ∧ (server qs now
         {| method := "POST"; pathname := "/notes/" +:+ ds +:+ "/delete"; body := b |} d).2
      = d'
    ∧ holds_notes d' l'
    ∧ length l = S (length l')
    ∧ count (Some z) l = S (count (Some z) l')
    ∧ ∀ z', z' ≠ z → count (Some z') l' = count (Some z') l.
Proof.
  intros Hh Hz Hfirst. pose proof (holds_safe _ _ Hh) as Hsafe.
  pose proof (Number_Some _ _ Hz) as Hds. pose proof Hh as (Hd & Hl & Hs).
  destruct (first_with_Some _ _ _ _ Hfirst) as (Hi & Hn & _).
  exists (Holds (JSON_stringify 2 (VArr (delete i l)))), (delete i l).
  split; [|split; [|split; [|split; [|split]]]].
  - rewrite route_api_note by done. cbn [String.eqb Ascii.eqb Bool.eqb]. rewrite Hz.
    by rewrite (api_delete_ok _ _ _ Hd Hl Hs), Hfirst.
  - rewrite route_delete by done. cbn [String.eqb Ascii.eqb Bool.eqb]. rewrite Hz.
    by rewrite (web_delete_ok _ _ _ Hd Hl Hs), Hfirst.
  - by apply holds_written; apply Forall_delete.
  - rewrite length_delete by done. apply lookup_lt_Some in Hi. lia.
  - by rewrite (count_delete _ _ _ _ Hi), Hn.
  - intros z' Hz'. rewrite (count_delete (Some z') _ _ _ Hi).
    destruct (has_id (Some z') n) eqn:E; [|done].
    apply has_id_numeric in E, Hn. congruence.
Qed.

Lemma delete_removes_one_witness :
  ∃ d' l',
    server no_form 0 {| method := "DELETE"; pathname := "/api/notes/2"; body := EmptyString |}
      two_disk
    = (Ok (json 200 (VObj second_fields)), d')
    ∧ (server no_form 0
         {| method := "POST"; pathname := "/notes/2/delete"; body := EmptyString |}
         two_disk).2
      = d'
    ∧ holds_notes d' l'
    ∧ length two_notes = S (length l')
    ∧ count (Some 2%Z) two_notes = S (count (Some 2%Z) l')
    ∧ ∀ z', z' ≠ 2%Z → count (Some z') l' = count (Some z') two_notes.
Proof.
  refine (delete_removes_one no_form 0 2 two_disk two_notes "2" EmptyString 1
            (VObj second_fields) _ _ _).
  - apply holds_intro; [vm_compute; reflexivity|]. repeat (constructor; [by eexists|]). constructor.
  - reflexivity.
  - reflexivity.
Defined.

(** X14. The two surfaces change the store alike.  For every disk, the
    API delete and the form delete of the same id leave the same file, and
    so do the API create and the form create when they carry the same
    title and content.  When the JSON body and the form carry the same
    fields, the API update and the form edit leave files that read back
    as the same value: the model does not say in which order the members
    of the merged note are printed. *)
Theorem surfaces_agree (qs : string → gmap string form_value) (now : Z)
    (ds b b' : string) (d : disk) :
  digits ds = true →
  let api m p := (server qs now {| method := m; pathname := p; body := b |} d).2 in
  let web p := (server qs now {| method := "POST"; pathname := p; body := b' |} d).2 in
  let form := parseBody qs {| method := "POST"; pathname := "/notes/new"; body := b' |} in
  api "DELETE" ("/api/notes/" +:+ ds) = web ("/notes/" +:+ ds +:+ "/delete")
  ∧ (∀ data, JSON_parse b = Parsed data → spread data = Ok form →
       (readNotes (api "PUT" ("/api/notes/" +:+ ds))).1
       = (readNotes (web ("/notes/" +:+ ds +:+ "/edit"))).1)
  ∧ (∀ data, JSON_parse b = Parsed data →
       get data "title" = Ok (form !! "title") →
       get data "content" = Ok (form !! "content") →
       api "POST" "/api/notes" = web "/notes/new").
Proof.
  intros Hds api web form. subst api web. cbn beta.
  rewrite !route_api_note, route_api_root, route_delete, route_edit, route_new by done.
  cbn [String.eqb Ascii.eqb Bool.eqb].
  split; [|split].
  - unfold api_delete, web_delete. run.
    destruct (readNotes d) as [[v|e] d1]; [|done].
    destruct (array_of v) as [l|e]; [|done].
    destruct (findIndex (Number (Some ds)) l) as [[i|]|e]; [| |done].
    + by destruct (writeFile _ d1) as [[] ?].
    + by rewrite note_missing_ok.
  - intros data Hb Hf. f_equal. f_equal.
    unfold api_update, web_edit, parse. run. cbn [body]. rewrite Hb, Hf.
    change (parseBody qs _) with form.
    destruct (readNotes d) as [[v|e] d1]; [|done].
    destruct (array_of v) as [l|e]; [|done].
    destruct (findIndex (Number (Some ds)) l) as [[i|]|e]; [| |done].
    + destruct (spread (default VNull (l !! i))); [|done].
      by destruct (writeFile _ d1) as [[] ?].
    + by rewrite note_missing_ok.
  - intros data Hb Ht Hc. unfold api_create, web_create, parse. run. cbn [body].
    rewrite Hb, Ht, Hc. change (parseBody qs _) with form.
    destruct (readNotes d) as [[v|e] d1]; [|done].
    destruct (array_of v) as [l|e]; [|done].
    by destruct (writeFile _ d1) as [[] ?].
Qed.

Lemma surfaces_agree_witness :
  (server no_form 0 {| method := "DELETE"; pathname := "/api/notes/7"; body := EmptyString |}
     sample_disk).2
  = (server no_form 0
       {| method := "POST"; pathname := "/notes/7/delete"; body := EmptyString |}
       sample_disk).2.
Proof.
  refine (proj1 (surfaces_agree no_form 0 "7" EmptyString EmptyString sample_disk _)).
  reflexivity.
Defined.

(** X15. When no stored note has the number of the path as its id, the
    four web routes that name a note ([GET /notes/<id>], [GET] and [POST
    /notes/<id>/edit], [POST /notes/<id>/delete]) answer status 404 with
    the page [Note not found], and the disk is left as it was. *)
Theorem web_missing_404 (qs : string → gmap string form_value) (now : Z)
    (d : disk) (l : list value) (ds b : string) :
  holds_notes d l → digits ds = true → first_with (Number (Some ds)) l = None →
  let ask m p := server qs now {| method := m; pathname := p; body := b |} d in
  let lost : result response * disk :=
    (Ok (html 404 (layout "Not Found" "<div>Note not found</div>")), d) in
  ask "GET" ("/notes/" +:+ ds) = lost
  ∧ ask "GET" ("/notes/" +:+ ds +:+ "/edit") = lost
  ∧ ask "POST" ("/notes/" +:+ ds +:+ "/edit") = lost
  ∧ ask "POST" ("/notes/" +:+ ds +:+ "/delete") = lost.
Proof.
  intros (Hd & Hl & Hs) Hds Hnone ask lost. subst ask lost. cbn beta.
  rewrite route_note, !route_edit, route_delete by done.
  cbn [String.eqb Ascii.eqb Bool.eqb].
  repeat apply conj.
  - by apply (web_view_missing _ _ l).
  - by apply (web_edit_form_missing _ _ l).
  - by apply (web_edit_missing _ _ _ _ l).
  - by rewrite (web_delete_ok _ _ _ Hd Hl Hs), Hnone.
Qed.

Lemma web_missing_404_witness :
  server no_form 0 {| method := "POST"; pathname := "/notes/42/edit"; body := EmptyString |}
    sample_disk
  = (Ok (html 404 (layout "Not Found" "<div>Note not found</div>")), sample_disk).
Proof.
  refine (proj1 (proj2 (proj2
            (web_missing_404 no_form 0 sample_disk sample "42" EmptyString _ _ _)))).
  - apply holds_intro; [vm_compute; reflexivity|]. repeat constructor. by eexists.
  - reflexivity.
  - reflexivity.
Defined.

(** X16. [POST /api/notes] reads two properties of its body and nothing
    else: two JSON bodies with the same [title] and the same [content]
    get the same answer and leave the same file, whatever else they hold
    (an [id] in the body is not used). *)
Theorem create_reads_two_fields (qs : string → gmap string form_value) (now : Z)
    (b1 b2 : string) (data1 data2 : value) (d : disk) :
  JSON_parse b1 = Parsed data1 → JSON_parse b2 = Parsed data2 →
  get data1 "title" = get data2 "title" → get data1 "content" = get data2 "content" →
  server qs now {| method := "POST"; pathname := "/api/notes"; body := b1 |} d
  = server qs now {| method := "POST"; pathname := "/api/notes"; body := b2 |} d.
Proof.
  intros Hb1 Hb2 Ht Hc. rewrite !route_api_root. cbn [String.eqb Ascii.eqb Bool.eqb].
  unfold api_create, parse. run. cbn [body]. by rewrite Hb1, Hb2, Ht, Hc.
Qed.

Lemma create_reads_two_fields_witness :
  server no_form 3
    {| method := "POST"; pathname := "/api/notes"; body := xy_body |} sample_disk
  = server no_form 3
      {| method := "POST"; pathname := "/api/notes";
         body := JSON_stringify 0 (VObj xy_id_fields) |} sample_disk.
Proof.
  apply (create_reads_two_fields no_form 3 xy_body (JSON_stringify 0 (VObj xy_id_fields))
           (VObj xy_fields) (VObj xy_id_fields)).
  - vm_compute. reflexivity.
  - vm_compute. reflexivity.
  - reflexivity.
  - reflexivity.
Defined.

(** ** The text of the pages *)

Module PageFacts.

Lemma startsWith_app s y sub : startsWith s sub = true → startsWith (s +:+ y) sub = true.
Proof.
  unfold startsWith. revert s. induction sub as [|c sub IH]; intros s; [done|].
  destruct s as [|c' s]; simpl; [done|]. destruct (Ascii.eqb c c'); [apply IH|done].
Qed.

Lemma startsWith_refl sub y : startsWith (sub +:+ y) sub = true.
Proof. unfold startsWith. by rewrite strip_prefix_app. Qed.

Lemma includes_l x s sub : includes s sub = true → includes (x +:+ s) sub = true.
Proof.
  intros H. induction x as [|c x IH]; [done|].
  cbn [String.append includes]. rewrite IH. apply orb_true_r.
Qed.

Lemma includes_nil s : includes s EmptyString = true.
Proof. by destruct s. Qed.

Lemma includes_r s y sub : includes s sub = true → includes (s +:+ y) sub = true.
Proof.
  induction s as [|c s IH].
  - intros H. destruct sub; [apply includes_nil|done].
  - cbn [includes String.append]. rewrite !orb_true_iff. intros [H|H].
    + left. by apply (startsWith_app (String c s)).
    + right. by apply IH.
Qed.

Lemma includes_app a sub b : includes (a +:+ sub +:+ b) sub = true.
Proof.
  apply includes_l. destruct (sub +:+ b) eqn:E; cbn [includes]; rewrite <- E.
  - by rewrite startsWith_refl.
  - by rewrite startsWith_refl.
Qed.

Lemma cat_app l1 l2 : cat (l1 ++ l2) = cat l1 +:+ cat l2.
Proof.
  induction l1 as [|x l1 IH]; [done|].
  cbn [cat foldr app]. fold (cat (l1 ++ l2)) (cat l1). by rewrite IH, app_assoc_s.
Qed.

Lemma includes_cat parts x sub :
  x ∈ parts → includes x sub = true → includes (cat parts) sub = true.
Proof.
  intros (l1 & l2 & ->)%list_elem_of_split H.
  rewrite cat_app. apply includes_l. cbn [cat foldr]. by apply includes_r.
Qed.

(** A run of pieces of a [cat], with the tail of the piece before it and
    the head of the piece after it, is included in the whole. *)
Lemma includes_window pre x1 x2 mid y1 y2 post :
  includes (cat (pre ++ (x1 +:+ x2) :: mid ++ (y1 +:+ y2) :: post))
    (cat (x2 :: mid ++ [y1])) = true.
Proof.
  assert (cat (pre ++ (x1 +:+ x2) :: mid ++ (y1 +:+ y2) :: post)
          = (cat pre +:+ x1) +:+ cat (x2 :: mid ++ [y1]) +:+ (y2 +:+ cat post)) as ->.
  { rewrite cat_app. cbn [cat foldr].
    fold (cat (mid ++ (y1 +:+ y2) :: post)) (cat (mid ++ [y1])).
    rewrite !cat_app. cbn [cat foldr]. by rewrite !app_assoc_s, ?app_nil_r_s. }
  apply includes_app.
Qed.

Ltac member := repeat first [apply list_elem_of_here | apply list_elem_of_further].

Lemma includes_layout_content title content sub :
  includes content sub = true → includes (layout title content) sub = true.
Proof. intros H. apply (includes_cat _ content); [unfold layout; member|done]. Qed.

Lemma mapM_items (f : value → result string) l :
  Forall (λ n, ∃ s, f n = Ok s) l →
  ∃ items, mapM f l = Ok items
           ∧ ∀ i n, l !! i = Some n → ∃ s, f n = Ok s ∧ items !! i = Some s.
Proof.
  induction 1 as [|n l [s Hs] _ (items & Hitems & Hall)].
  - exists []. split; [done|]. by intros i n.
  - exists (s :: items). split.
    + change (mapM f (n :: l)) with (y ← f n; k ← mapM f l; mret (y :: k)).
      by rewrite Hs, Hitems.
    + intros [|i] n'; simpl; [|apply Hall]. intros [= <-]. eauto.
Qed.

Lemma interpolate_plain x : plain x = true → ∃ s, interpolate x = Ok s.
Proof. destruct x as [[|[]| | | | |[]]|]; simpl; eauto; done. Qed.

Lemma Ok_inj {A} (a b : A) : Ok a = Ok b → a = b.
Proof. congruence. Qed.

Ltac window k x1 x2 mid y1 y2 j :=
  match goal with
  | |- includes (cat ?parts) _ = true =>
      exact (includes_window (take k parts) x1 x2 mid y1 y2 (drop j parts))
  end.

Lemma item_includes (o : gmap string value) z t s :
  o !! "id" = Some (VNum z) → interpolate (o !! "title") = Ok t →
  renderNotesItem (VObj o) = Ok s →
  includes s (cat ["<a href="; q; "/notes/"; Number_toString z; q; ">"; t; "</a>"]) = true
  ∧ includes s (cat ["action="; q; "/notes/"; Number_toString z; "/delete"; q]) = true.
Proof.
  intros Hid Ht. unfold renderNotesItem. cbn [get mbind result_bind]. rewrite Hid, Ht.
  cbn [mbind result_bind interpolate ToString]. intros <-%Ok_inj. split.
  - window 7%nat "                    <h3>" "<a href="
      [q; "/notes/"; Number_toString z; q; ">"; t] "</a>" "</h3>" 15%nat.
  - window 20%nat " " "action=" [q; "/notes/"; Number_toString z; "/delete"] q
      EmptyString 26%nat.
Qed.

Lemma listable_item n : listable n → ∃ s, renderNotesItem n = Ok s.
Proof.
  intros (o & -> & Hid & Ht). unfold renderNotesItem. cbn [get mbind result_bind].
  destruct (interpolate_plain _ Hid) as [a ->]. cbn [mbind result_bind].
  destruct (interpolate_plain _ Ht) as [b ->]. cbn [mbind result_bind]. eauto.
Qed.

Lemma list_includes l :
  Forall listable l →
  ∃ content,
    renderNotesList (VArr l) = Ok content
    ∧ includes content (cat ["<a href="; q; "/notes/new"; q; ">Add Note</a>"]) = true
    ∧ ∀ i n s sub,
        l !! i = Some n → renderNotesItem n = Ok s → includes s sub = true →
        includes content sub = true.
Proof.
  intros Hl. destruct (mapM_items renderNotesItem l) as (items & Hitems & Hall).
  { eapply Forall_impl; [done|]. apply listable_item. }
  eexists. unfold renderNotesList. cbn [array_of mbind result_bind]. rewrite Hitems.
  split; [reflexivity|]. split.
  - window 1%nat "        " "<a href=" [q; "/notes/new"; q] ">Add Note</a>" EmptyString 6%nat.
  - intros i n s sub Hi Hs Hsub. destruct (Hall i n Hi) as (s' & Hs' & Hitem).
    assert (s' = s) as -> by congruence.
    apply (includes_cat _ (cat items)); [member|].
    apply (includes_cat items s); [by eapply list_elem_of_lookup_2|done].
Qed.

Lemma includes_layout_title title content :
  includes (layout title content) (cat ["<title>"; title; "</title>"]) = true.
Proof.
  unfold layout.
  window 7%nat "        " "<title>" [title] "</title>" EmptyString 10%nat.
Qed.

Lemma has_id_obj z (o : gmap string value) :
  has_id (Some z) (VObj o) = true → o !! "id" = Some (VNum z).
Proof.
  simpl. destruct (o !! "id") as [[]|]; simpl; try done.
  by intros ->%Z.eqb_eq.
Qed.

Lemma web_view_found id d l i n :
  readNotes d = (Ok (VArr l), d) → Forall is_object l → Forall Safe l →
  first_with id l = Some (i, n) →
  web_view id d =
    match get n "title" with
    | Ok title =>
        match renderNoteDetail n with
        | Ok c =>
            match renderLayout title c with
            | Ok p => (Ok (html 200 p), d)
            | Throw e => (Throw e, d)
            end
        | Throw e => (Throw e, d)
        end
    | Throw e => (Throw e, d)
    end.
Proof.
  intros Hd Hl Hs Hfirst. unfold web_view. run. rewrite Hd. simpl.
  destruct (find_objects id l Hl Hs) as [-> _]. rewrite Hfirst. simpl.
  by repeat case_match.
Qed.

Lemma web_edit_form_found id d l i n :
  readNotes d = (Ok (VArr l), d) → Forall is_object l → Forall Safe l →
  first_with id l = Some (i, n) →
  web_edit_form id d =
    match renderNoteForm n with
    | Ok c => (Ok (html 200 (layout "Edit Note" c)), d)
    | Throw e => (Throw e, d)
    end.
Proof.
  intros Hd Hl Hs Hfirst. unfold web_edit_form. run. rewrite Hd. simpl.
  destruct (find_objects id l Hl Hs) as [-> _]. rewrite Hfirst. simpl.
  unfold page. run. by destruct (renderNoteForm n).
Qed.

Lemma interpolate_or_empty_str t : interpolate_or_empty (Some (VStr t)) = Ok t.
Proof. by destruct t. Qed.

Lemma home_page qs now d l b :
  holds_notes d l → Forall listable l →
  ∃ page,
    server qs now {| method := "GET"; pathname := "/"; body := b |} d
    = (Ok (html 200 page), d)
    ∧ includes page (cat ["<a href="; q; "/notes/new"; q; ">Add Note</a>"]) = true
    ∧ ∀ i (o : gmap string value) z t,
        l !! i = Some (VObj o) → o !! "id" = Some (VNum z) →
        interpolate (o !! "title") = Ok t →
        includes page
          (cat ["<a href="; q; "/notes/"; Number_toString z; q; ">"; t; "</a>"]) = true
        ∧ includes page
            (cat ["action="; q; "/notes/"; Number_toString z; "/delete"; q]) = true.
Proof.
  intros (Hd & Hl & Hs) Hlist.
  destruct (list_includes l Hlist) as (content & Hcontent & Hnew & Hitems).
  exists (layout "Notes" content). split; [|split].
  - rewrite route_home. cbn [String.eqb Ascii.eqb Bool.eqb].
    unfold web_home, page. run. by rewrite Hd, Hcontent.
  - by apply includes_layout_content.
  - intros i o z t Hi Hid Ht.
    destruct (listable_item (VObj o)) as [s Hitem].
    { by eapply (Forall_lookup_1 _ _ _ _ Hlist). }
    destruct (item_includes o z t s Hid Ht Hitem) as [Hlink Hdel].
    split; apply includes_layout_content; by eapply Hitems.
Qed.

Lemma skip_element z x :
  x ≠ VNull → has_id (Some z) x = false →
  ∃ y, get x "id" = Ok y ∧ same_id y (Some z) = Ok false.
Proof.
  intros Hx Hno. destruct x; simpl in *; try done; eexists; (split; [done|]);
    by rewrite same_id_number, ?Hno.
Qed.

Lemma find_skip z l1 rest :
  Forall (λ x, x ≠ VNull ∧ has_id (Some z) x = false) l1 →
  find (Some z) (l1 ++ rest) = find (Some z) rest.
Proof.
  induction 1 as [|x l1 [Hx Hno] _ IH]; [done|].
  destruct (skip_element z x Hx Hno) as (y & Hy & Hneq).
  cbn [app find]. rewrite Hy. cbn [mbind result_bind]. rewrite Hneq.
  by cbn [mbind result_bind].
Qed.

Lemma detail_page qs now z d l ds b i (o : gmap string value) t c :
  holds_notes d l → Number (Some ds) = Some z →
  first_with (Some z) l = Some (i, VObj o) →
  interpolate (o !! "title") = Ok t → interpolate (o !! "content") = Ok c →
  ∃ page,
    server qs now {| method := "GET"; pathname := "/notes/" +:+ ds; body := b |} d
    = (Ok (html 200 page), d)
    ∧ includes page (cat ["<title>"; t; "</title>"]) = true
    ∧ includes page (cat ["<h2>"; t; "</h2>"]) = true
    ∧ includes page (cat ["<p>"; c; "</p>"]) = true
    ∧ includes page
        (cat ["<a href="; q; "/notes/"; Number_toString z; "/edit"; q; ">Edit</a>"]) = true.
Proof.
  intros (Hd & Hl & Hs) Hz Hfirst Ht Hc. pose proof (Number_Some _ _ Hz) as Hds.
  destruct (first_with_Some _ _ _ _ Hfirst) as (_ & Hid%has_id_obj & _).
  eexists. rewrite route_note by done. cbn [String.eqb Ascii.eqb Bool.eqb]. rewrite Hz.
  rewrite (web_view_found _ _ _ _ _ Hd Hl Hs Hfirst).
  unfold renderNoteDetail, renderLayout. cbn [get mbind result_bind]. rewrite Ht, Hc, Hid.
  cbn [mbind result_bind interpolate ToString].
  split; [reflexivity|]. split; [apply includes_layout_title|].
  repeat apply conj; apply includes_layout_content.
  - window 13%nat "            " "<h2>" [t] "</h2>" EmptyString 16%nat.
  - window 17%nat "            " "<p>" [c] "</p>" EmptyString 20%nat.
  - window 21%nat "            " "<a href=" [q; "/notes/"; Number_toString z; "/edit"; q]
      ">Edit</a>" EmptyString 28%nat.
Qed.

Lemma Number_range ds z : Number (Some ds) = Some z → (0 ≤ z)%Z ∧ safe_int z = true.
Proof.
  unfold Number. destruct (digits ds); [|done]. cbn [andb].
  destruct (safe_int (digits_value ds)) eqn:E; [|done]. intros [= <-]. split; [|done].
  unfold digits_value. destruct (NilEmpty.uint_of_string ds); lia.
Qed.

End PageFacts.

Import PageFacts.

(** X17. The home page lists the store.  When every note has an id and a
    title that a template can print, [GET /] answers 200 with a page that
    holds the link to the creation form and, for each note with a number
    as id and a string as title, a link to [/notes/<id>] labelled with the
    title as it is, and a form that posts to [/notes/<id>/delete]; the
    disk is left as it was. *)
Theorem home_lists_notes (qs : string → gmap string form_value) (now : Z)
    (d : disk) (l : list value) (b : string) :
  holds_notes d l → Forall listable l →
  ∃ page,
    server qs now {| method := "GET"; pathname := "/"; body := b |} d
    = (Ok (html 200 page), d)
    ∧ includes page (cat ["<a href="; q; "/notes/new"; q; ">Add Note</a>"]) = true
    ∧ ∀ i (o : gmap string value) z t,
        l !! i = Some (VObj o) → o !! "id" = Some (VNum z) → o !! "title" = Some (VStr t) →
        includes page
          (cat ["<a href="; q; "/notes/"; Number_toString z; q; ">"; t; "</a>"]) = true
        ∧ includes page
            (cat ["action="; q; "/notes/"; Number_toString z; "/delete"; q]) = true.
Proof.
  intros Hh Hlist.
  destruct (home_page qs now d l b Hh Hlist) as (page & Hrun & Hnew & Hitems).
  exists page. split; [done|]. split; [done|].
  intros i o z t Hi Hid Ht. apply (Hitems i o z t Hi Hid). by rewrite Ht.
Qed.

Lemma home_lists_notes_witness :
  ∃ page,
    server no_form 0 {| method := "GET"; pathname := "/"; body := EmptyString |} sample_disk
    = (Ok (html 200 page), sample_disk)
    ∧ includes page (cat ["<a href="; q; "/notes/new"; q; ">Add Note</a>"]) = true
    ∧ ∀ i (o : gmap string value) z t,
        sample !! i = Some (VObj o) → o !! "id" = Some (VNum z) →
        o !! "title" = Some (VStr t) →
        includes page
          (cat ["<a href="; q; "/notes/"; Number_toString z; q; ">"; t; "</a>"]) = true
        ∧ includes page
            (cat ["action="; q; "/notes/"; Number_toString z; "/delete"; q]) = true.
Proof.
  refine (home_lists_notes no_form 0 sample_disk sample EmptyString _ _).
  - apply holds_intro; [vm_compute; reflexivity|]. repeat constructor. by eexists.
  - apply Forall_singleton. eexists. split; [reflexivity|]. split; reflexivity.
Defined.

(** X18. The page of a note shows its fields as they are stored.  For the
    first note with the id of the path, with strings as title and content,
    [GET /notes/<id>] answers 200 with a page that has the title in its
    [<title>] and in an [<h2>], the content in a [<p>], each character as
    it is (nothing is escaped), and a link to [/notes/<id>/edit]; the disk
    is left as it was. *)
Theorem detail_page_verbatim (qs : string → gmap string form_value) (now z : Z)
    (d : disk) (l : list value) (ds b : string) (i : nat) (o : gmap string value)
    (t c : string) :
  holds_notes d l → Number (Some ds) = Some z →
  first_with (Some z) l = Some (i, VObj o) →
  o !! "title" = Some (VStr t) → o !! "content" = Some (VStr c) →
  ∃ page,
    server qs now {| method := "GET"; pathname := "/notes/" +:+ ds; body := b |} d
    = (Ok (html 200 page), d)
    ∧ includes page (cat ["<title>"; t; "</title>"]) = true
    ∧ includes page (cat ["<h2>"; t; "</h2>"]) = true
    ∧ includes page (cat ["<p>"; c; "</p>"]) = true
    ∧ includes page
        (cat ["<a href="; q; "/notes/"; Number_toString z; "/edit"; q; ">Edit</a>"]) = true.
Proof.
  intros Hh Hz Hfirst Ht Hc.
  apply (detail_page qs now z d l ds b i o t c Hh Hz Hfirst).
  - by rewrite Ht.
  - by rewrite Hc.
Qed.

Lemma detail_page_verbatim_witness :
  ∃ page,
    server no_form 0 {| method := "GET"; pathname := "/notes/7"; body := EmptyString |}
      sample_disk
    = (Ok (html 200 page), sample_disk)
    ∧ includes page (cat ["<title>"; "a"; "</title>"]) = true
    ∧ includes page (cat ["<h2>"; "a"; "</h2>"]) = true
    ∧ includes page (cat ["<p>"; "b"; "</p>"]) = true
    ∧ includes page
        (cat ["<a href="; q; "/notes/"; Number_toString 7; "/edit"; q; ">Edit</a>"]) = true.
Proof.
  refine (detail_page_verbatim no_form 0 7 sample_disk sample "7" EmptyString 0
            (field "content" (Some (VStr "b")) (field "title" (Some (VStr "a"))
               {[ "id" := VNum 7 ]})) "a" "b" _ _ _ _ _).
  - apply holds_intro; [vm_compute; reflexivity|]. repeat constructor. by eexists.
  - reflexivity.
  - reflexivity.
  - reflexivity.
  - reflexivity.
Defined.

(** X19. The edit page of a note is the form filled with its fields.  For
    the first note with the id of the path, with strings as title and
    content, [GET /notes/<id>/edit] answers 200 with a form that carries
    the title as the value of its input and the content in its textarea.
    When the id is not 0 the form posts to [/notes/<id>/edit] and its
    button reads [Update Note]; the id 0 is falsy, so the form of such a
    note posts to [/notes/new] and its button reads [Create Note]. *)
Theorem edit_form_page (qs : string → gmap string form_value) (now z : Z)
    (d : disk) (l : list value) (ds b : string) (i : nat) (o : gmap string value)
    (t c : string) :
  holds_notes d l → Number (Some ds) = Some z →
  first_with (Some z) l = Some (i, VObj o) →
  o !! "title" = Some (VStr t) → o !! "content" = Some (VStr c) →
  ∃ page,
    server qs now {| method := "GET"; pathname := "/notes/" +:+ ds +:+ "/edit"; body := b |} d
    = (Ok (html 200 page), d)
    ∧ includes page (cat ["value="; q; t; q]) = true
    ∧ includes page (cat [">"; c; "</textarea>"]) = true
    ∧ (z ≠ 0%Z →
       includes page (cat ["action="; q; "/notes/"; Number_toString z; "/edit"; q]) = true
       ∧ includes page ">Update Note</button>" = true)
    ∧ (z = 0%Z →
       includes page (cat ["action="; q; "/notes/new"; q]) = true
       ∧ includes page ">Create Note</button>" = true).
Proof.
  intros (Hd & Hl & Hs) Hz Hfirst Ht Hc. pose proof (Number_Some _ _ Hz) as Hds.
  destruct (first_with_Some _ _ _ _ Hfirst) as (_ & Hid%has_id_obj & _).
  assert (Hrun : ∀ content, renderNoteForm (VObj o) = Ok content →
    server qs now {| method := "GET"; pathname := "/notes/" +:+ ds +:+ "/edit"; body := b |} d
    = (Ok (html 200 (layout "Edit Note" content)), d)).
  { intros content Hform. rewrite route_edit by done. cbn [String.eqb Ascii.eqb Bool.eqb].
    by rewrite Hz, (web_edit_form_found _ _ _ _ _ Hd Hl Hs Hfirst), Hform. }
  destruct (Z.eqb_spec z 0) as [->|Hne].
  - eexists. split; [apply Hrun; unfold renderNoteForm; cbn [get]; rewrite Ht, Hc, Hid;
      cbn [mbind result_bind truthy Z.eqb negb]; rewrite !interpolate_or_empty_str;
      reflexivity|].
    split; [|split; [|split; [done|intros _; split]]];
      apply includes_layout_content.
    + window 25%nat " " "value=" [q; t] q EmptyString 29%nat.
    + window 41%nat " required" ">" [c] "</textarea>" EmptyString 44%nat.
    + window 11%nat " " "action=" [q; "/notes/new"] q EmptyString 15%nat.
    + window 51%nat EmptyString ">" ["Create"] " Note</button>" EmptyString 54%nat.
  - eexists. split; [apply Hrun; unfold renderNoteForm; cbn [get]; rewrite Ht, Hc, Hid;
      cbn [mbind result_bind truthy]; rewrite !interpolate_or_empty_str;
      rewrite (proj2 (Z.eqb_neq z 0) Hne);
      cbn [negb interpolate ToString mbind result_bind]; reflexivity|].
    split; [|split; [|split; [intros _; split|done]]];
      apply includes_layout_content.
    + window 25%nat " " "value=" [q; t] q EmptyString 29%nat.
    + window 41%nat " required" ">" [c] "</textarea>" EmptyString 44%nat.
    + assert (cat ["action="; q; "/notes/"; Number_toString z; "/edit"; q]
              = cat ["action="; q; cat ["/notes/"; Number_toString z; "/edit"]; q]) as ->.
      { cbn [cat foldr]. by rewrite !app_assoc_s. }
      window 11%nat " " "action=" [q; cat ["/notes/"; Number_toString z; "/edit"]] q
        EmptyString 15%nat.
    + window 51%nat EmptyString ">" ["Update"] " Note</button>" EmptyString 54%nat.
Qed.

Lemma edit_form_page_witness :
  ∃ page,
    server no_form 0 {| method := "GET"; pathname := "/notes/0/edit"; body := EmptyString |}
      zero_disk
    = (Ok (html 200 page), zero_disk)
    ∧ includes page (cat ["value="; q; "a"; q]) = true
    ∧ includes page (cat [">"; "b"; "</textarea>"]) = true
    ∧ (0%Z ≠ 0%Z →
       includes page (cat ["action="; q; "/notes/"; Number_toString 0; "/edit"; q]) = true
       ∧ includes page ">Update Note</button>" = true)
    ∧ (0%Z = 0%Z →
       includes page (cat ["action="; q; "/notes/new"; q]) = true
       ∧ includes page ">Create Note</button>" = true).
Proof.
  refine (edit_form_page no_form 0 0 zero_disk [VObj zero_fields] "0" EmptyString 0
            zero_fields "a" "b" _ _ _ _ _).
  - apply holds_intro; [vm_compute; reflexivity|]. repeat constructor. by eexists.
  - reflexivity.
  - reflexivity.
  - reflexivity.
  - reflexivity.
Defined.

(** X20. A field that a note lacks prints as [undefined] where a template
    interpolates it and as nothing where the template falls back to the
    empty string.  For the first note with the id of the path, without
    [title] and [content]: its page has [undefined] as title, heading and
    text; its edit form has an empty value and an empty textarea; and its
    link on the home page is labelled [undefined]. *)
Theorem missing_fields_render (qs : string → gmap string form_value) (now z : Z)
    (d : disk) (l : list value) (ds b : string) (i : nat) (o : gmap string value) :
  holds_notes d l → Number (Some ds) = Some z →
  first_with (Some z) l = Some (i, VObj o) →
  o !! "title" = None → o !! "content" = None →
  (∃ page,
     server qs now {| method := "GET"; pathname := "/notes/" +:+ ds; body := b |} d
     = (Ok (html 200 page), d)
     ∧ includes page "<title>undefined</title>" = true
     ∧ includes page "<h2>undefined</h2>" = true
     ∧ includes page "<p>undefined</p>" = true)
  ∧ (∃ page,
       server qs now
         {| method := "GET"; pathname := "/notes/" +:+ ds +:+ "/edit"; body := b |} d
       = (Ok (html 200 page), d)
       ∧ includes page (cat ["value="; q; q; " required>"]) = true
       ∧ includes page " required></textarea>" = true)
  ∧ (Forall listable l →
     ∃ page,
       server qs now {| method := "GET"; pathname := "/"; body := b |} d
       = (Ok (html 200 page), d)
       ∧ includes page
           (cat ["<a href="; q; "/notes/"; Number_toString z; q; ">undefined</a>"]) = true).
Proof.
  intros (Hd & Hl & Hs) Hz Hfirst Ht Hc. pose proof (Number_Some _ _ Hz) as Hds.
  destruct (first_with_Some _ _ _ _ Hfirst) as (Hi & Hid%has_id_obj & _).
  split; [|split].
  - eexists. rewrite route_note by done. cbn [String.eqb Ascii.eqb Bool.eqb]. rewrite Hz.
    rewrite (web_view_found _ _ _ _ _ Hd Hl Hs Hfirst).
    unfold renderNoteDetail. cbn [get]. rewrite Ht, Hc, Hid.
    cbn [mbind result_bind interpolate ToString renderLayout].
    split; [reflexivity|]. split; [apply (includes_layout_title "undefined")|].
    split; apply includes_layout_content.
    + window 13%nat "            " "<h2>" ["undefined"] "</h2>" EmptyString 16%nat.
    + window 17%nat "            " "<p>" ["undefined"] "</p>" EmptyString 20%nat.
  - assert (Hrun : ∀ content, renderNoteForm (VObj o) = Ok content →
      server qs now
        {| method := "GET"; pathname := "/notes/" +:+ ds +:+ "/edit"; body := b |} d
      = (Ok (html 200 (layout "Edit Note" content)), d)).
    { intros content Hform. rewrite route_edit by done. cbn [String.eqb Ascii.eqb Bool.eqb].
      by rewrite Hz, (web_edit_form_found _ _ _ _ _ Hd Hl Hs Hfirst), Hform. }
    destruct (Z.eqb_spec z 0) as [->|Hne].
    + eexists. split; [apply Hrun; unfold renderNoteForm; cbn [get]; rewrite Ht, Hc, Hid;
        reflexivity|].
      split; apply includes_layout_content.
      * window 25%nat " " "value=" [q; EmptyString; q] " required>" EmptyString 30%nat.
      * window 41%nat EmptyString " required>" [EmptyString] "</textarea>" EmptyString 44%nat.
    + eexists. split; [apply Hrun; unfold renderNoteForm; cbn [get]; rewrite Ht, Hc, Hid;
        cbn [mbind result_bind truthy]; rewrite (proj2 (Z.eqb_neq z 0) Hne);
        reflexivity|].
      split; apply includes_layout_content.
      * window 25%nat " " "value=" [q; EmptyString; q] " required>" EmptyString 30%nat.
      * window 41%nat EmptyString " required>" [EmptyString] "</textarea>" EmptyString 44%nat.
  - intros Hlist.
    destruct (home_page qs now d l b (conj Hd (conj Hl Hs)) Hlist) as (page & Hrun & _ & Hitems).
    exists page. split; [done|].
    destruct (Hitems i o z "undefined" Hi Hid) as [Hlink _]; [by rewrite Ht|].
    revert Hlink. by cbn [cat foldr].
Qed.

Lemma missing_fields_render_witness :
  ∃ page,
    server no_form 0 {| method := "GET"; pathname := "/notes/2"; body := EmptyString |}
      bare_disk
    = (Ok (html 200 page), bare_disk)
    ∧ includes page "<title>undefined</title>" = true
    ∧ includes page "<h2>undefined</h2>" = true
    ∧ includes page "<p>undefined</p>" = true.
Proof.
  refine (proj1 (missing_fields_render no_form 0 2 bare_disk [VObj id2_fields] "2"
                   EmptyString 0 id2_fields _ _ _ _ _)).
  - apply holds_intro; [vm_compute; reflexivity|]. repeat constructor. by eexists.
  - reflexivity.
  - reflexivity.
  - reflexivity.
  - reflexivity.
Defined.

(** X21. A note made through the form shows up on the home page.  After
    [POST /notes/new] with a form that has one [title], at a clock value
    the model can print and on a store that the home page can list, the
    answer is a redirect to [/], and [GET /] then shows a link to
    [/notes/<clock value>] labelled with that title. *)
Theorem form_create_then_home (qs : string → gmap string form_value) (now later : Z)
    (d : disk) (l : list value) (b b' t : string) :
  holds_notes d l → Forall listable l → (0 ≤ now < 2 ^ 53)%Z →
  qs b !! "title" = Some (One t) →
  ∃ d' page,
    server qs now {| method := "POST"; pathname := "/notes/new"; body := b |} d
    = (Ok (redirect "/"), d')
    ∧ server qs later {| method := "GET"; pathname := "/"; body := b' |} d'
      = (Ok (html 200 page), d')
    ∧ includes page
        (cat ["<a href="; q; "/notes/"; Number_toString now; q; ">"; t; "</a>"]) = true.
Proof.
  intros Hh Hlist Hnow Ht. pose proof (holds_safe _ _ Hh) as Hsafe.
  pose proof Hh as (Hd & Hl & Hs).
  assert (Hn : safe_int now = true) by (unfold safe_int; apply Z.ltb_lt; lia).
  set (req := {| method := "POST"; pathname := "/notes/new"; body := b |}).
  set (note := new_note now (parseBody qs req !! "title") (parseBody qs req !! "content")).
  assert (Htitle : parseBody qs req !! "title" = Some (VStr t)).
  { unfold parseBody, req. cbn [body]. by rewrite lookup_fmap, Ht. }
  destruct (new_note_fields now (parseBody qs req !! "title")
              (parseBody qs req !! "content")) as (o & Ho & Hid & Hot & _).
  assert (Hh' : holds_notes (Holds (JSON_stringify 2 (VArr (l ++ [note])))) (l ++ [note])).
  { apply holds_written; apply Forall_app; (split; [done|]); apply Forall_singleton.
    - by eexists.
    - apply Safe_new_note; [done|apply Safe_form_field..]. }
  assert (Hlist' : Forall listable (l ++ [note])).
  { apply Forall_app. split; [done|]. apply Forall_singleton.
    exists o. split; [done|]. by rewrite Hid, Hot, Htitle. }
  destruct (home_page qs later _ _ b' Hh' Hlist') as (page & Hrun & _ & Hitems).
  eexists _, page. split; [|split; [exact Hrun|]].
  - subst req. rewrite route_new. cbn [String.eqb Ascii.eqb Bool.eqb].
    by rewrite (web_create_ok qs now _ d l Hd).
  - refine (proj1 (Hitems (length l) o now t _ Hid _)).
    + fold note in Ho. rewrite <- Ho. by rewrite list_lookup_middle.
    + by rewrite Hot, Htitle.
Qed.

Lemma form_create_then_home_witness :
  ∃ d' page,
    server (λ _, {[ "title" := One "Hi" ]}) 1000
      {| method := "POST"; pathname := "/notes/new"; body := EmptyString |} sample_disk
    = (Ok (redirect "/"), d')
    ∧ server (λ _, {[ "title" := One "Hi" ]}) 1001
        {| method := "GET"; pathname := "/"; body := EmptyString |} d'
      = (Ok (html 200 page), d')
    ∧ includes page
        (cat ["<a href="; q; "/notes/"; Number_toString 1000; q; ">"; "Hi"; "</a>"]) = true.
Proof.
  refine (form_create_then_home (λ _, {[ "title" := One "Hi" ]}) 1000 1001 sample_disk
            sample EmptyString EmptyString "Hi" _ _ _ _).
  - apply holds_intro; [vm_compute; reflexivity|]. repeat constructor. by eexists.
  - apply Forall_singleton. eexists. split; [reflexivity|]. split; reflexivity.
  - lia.
  - reflexivity.
Defined.

(** X22. A lookup passes over the elements of the stored array that are
    not notes with the id, whatever they are (numbers, strings, arrays,
    other objects), and answers with the first note that has it; an element
    [null] met before such a note makes the lookup throw a [TypeError]. *)
Theorem lookup_skips_elements (qs : string → gmap string form_value) (now z : Z)
    (d : disk) (l1 l2 : list value) (n : value) (ds b : string) :
  Number (Some ds) = Some z →
  Forall (λ x, x ≠ VNull ∧ has_id (Some z) x = false) l1 →
  let get_note := {| method := "GET"; pathname := "/api/notes/" +:+ ds; body := b |} in
  (readNotes d = (Ok (VArr (l1 ++ n :: l2)), d) → has_id (Some z) n = true →
   server qs now get_note d = (Ok (json 200 n), d))
  ∧ (readNotes d = (Ok (VArr (l1 ++ VNull :: l2)), d) →
     server qs now get_note d = (Throw TypeError, d)).
Proof.
  intros Hz Hl1 get_note. subst get_note. pose proof (Number_Some _ _ Hz) as Hds.
  rewrite route_api_note by done. cbn [String.eqb Ascii.eqb Bool.eqb]. rewrite Hz.
  unfold api_get. run. split.
  - intros Hd Hn. rewrite Hd. cbn [array_of]. rewrite (find_skip _ _ _ Hl1).
    destruct n; try done. cbn [find get mbind result_bind]. rewrite same_id_number.
    cbn [mbind result_bind]. simpl in Hn. by rewrite Hn.
  - intros Hd. rewrite Hd. cbn [array_of]. by rewrite (find_skip _ _ _ Hl1).
Qed.

Lemma lookup_skips_elements_witness :
  server no_form 0 {| method := "GET"; pathname := "/api/notes/5"; body := EmptyString |}
    (Holds "[1, null]")
  = (Throw TypeError, Holds "[1, null]").
Proof.
  refine (proj2 (lookup_skips_elements no_form 0 5 (Holds "[1, null]") [VNum 1] []
                   VNull "5" EmptyString _ _) _).
  - reflexivity.
  - apply Forall_singleton. split; [discriminate|reflexivity].
  - reflexivity.
Defined.



(** X24. An edit through the form is what the page of the note shows next.
    For a stored note, [POST /notes/<id>/edit] with a form that has one
    [title] and one [content] and no [id] answers with a redirect to
    [/notes/<id>], and [GET] on that address then answers 200 with a page
    that shows the new title and the new content. *)
Theorem form_edit_then_view (qs : string → gmap string form_value) (now later z : Z)
    (d : disk) (l : list value) (ds b b' : string) (i : nat) (o : gmap string value)
    (t c : string) :
  holds_notes d l → Number (Some ds) = Some z →
  first_with (Some z) l = Some (i, VObj o) →
  qs b !! "title" = Some (One t) → qs b !! "content" = Some (One c) →
  qs b !! "id" = None →
  ∃ d' page,
    server qs now {| method := "POST"; pathname := "/notes/" +:+ ds +:+ "/edit"; body := b |} d
    = (Ok (redirect ("/notes/" +:+ Number_toString z)), d')
    ∧ server qs later
        {| method := "GET"; pathname := "/notes/" +:+ Number_toString z; body := b' |} d'
      = (Ok (html 200 page), d')
    ∧ includes page (cat ["<h2>"; t; "</h2>"]) = true
    ∧ includes page (cat ["<p>"; c; "</p>"]) = true.
Proof.
  intros Hh Hz Hfirst Ht Hc Hno. pose proof (holds_safe _ _ Hh) as Hsafe.
  pose proof (Number_Some _ _ Hz) as Hds. pose proof Hh as (Hd & Hl & Hs).
  destruct (Number_range _ _ Hz) as [Hz0 Hzs].
  destruct (Number_toString_digits z Hz0 Hzs) as [Hds' Hz'].
  destruct (first_with_Some _ _ _ _ Hfirst) as (Hi & Hn & _).
  destruct (holds_object _ _ _ _ Hh Hi) as (_ & _ & Ho%Safe_members).
  set (req := {| method := "POST"; pathname := "/notes/" +:+ ds +:+ "/edit"; body := b |}).
  set (merged := merge o (parseBody qs req)).
  assert (Hform : ∀ k, parseBody qs req !! k = of_form <$> qs b !! k).
  { intros k. unfold parseBody, req. cbn [body]. by rewrite lookup_fmap. }
  assert (Hh' : holds_notes (Holds (JSON_stringify 2 (VArr (<[i:=VObj merged]> l))))
                  (<[i:=VObj merged]> l)).
  { apply holds_written; apply Forall_insert; try done.
    - by eexists.
    - apply Safe_merge; [done|apply Safe_form]. }
  assert (Hm : has_id (Some z) (VObj merged) = true).
  { simpl. unfold merged. by rewrite lookup_merge, Hform, Hno. }
  pose proof (first_with_insert _ _ _ _ _ Hfirst Hm) as Hfirst'.
  destruct (detail_page qs later z _ _ (Number_toString z) b' i merged t c Hh' Hz' Hfirst')
    as (page & Hrun & _ & Hh2 & Hp & _).
  { unfold merged. by rewrite lookup_merge, Hform, Ht. }
  { unfold merged. by rewrite lookup_merge, Hform, Hc. }
  eexists _, page. split; [|split; [exact Hrun|by split]].
  subst req. rewrite route_edit by done. cbn [String.eqb Ascii.eqb Bool.eqb]. rewrite Hz.
  by rewrite (web_edit_ok qs _ _ _ _ _ _ Hd Hl Hs Hfirst).
Qed.

Lemma form_edit_then_view_witness :
  ∃ d' page,
    server (λ _, {[ "title" := One "T"; "content" := One "C" ]}) 0
      {| method := "POST"; pathname := "/notes/7/edit"; body := EmptyString |} sample_disk
    = (Ok (redirect ("/notes/" +:+ Number_toString 7)), d')
    ∧ server (λ _, {[ "title" := One "T"; "content" := One "C" ]}) 1
        {| method := "GET"; pathname := "/notes/" +:+ Number_toString 7; body := EmptyString |}
        d'
      = (Ok (html 200 page), d')
    ∧ includes page (cat ["<h2>"; "T"; "</h2>"]) = true
    ∧ includes page (cat ["<p>"; "C"; "</p>"]) = true.
Proof.
  refine (form_edit_then_view (λ _, {[ "title" := One "T"; "content" := One "C" ]}) 0 1 7
            sample_disk sample "7" EmptyString EmptyString 0
            (field "content" (Some (VStr "b")) (field "title" (Some (VStr "a"))
               {[ "id" := VNum 7 ]})) "T" "C" _ _ _ _ _ _).
  - apply holds_intro; [vm_compute; reflexivity|]. repeat constructor. by eexists.
  - reflexivity.
  - reflexivity.
  - reflexivity.
  - reflexivity.
  - reflexivity.
Defined.
